(** * gammapy: effective-area tables and counts spectra

    A shallow embedding of

    - [gammapy/irf/effective_area_table.py]
      ([TableEffectiveArea], [OffsetDependentTableEffectiveArea]) and
    - [gammapy/spectrum/counts_spectrum.py] ([CountsSpectrum]),

    followed by the properties of the written specification that can be
    stated over it.

    Numbers.  The Python code computes with IEEE doubles held in numpy
    arrays.  The embedding idealises finite doubles as real numbers
    ([R]); the one non-finite value that the properties talk about, the
    [nan] with which scipy's linear interpolant fills the outside of its
    triangulation, is kept as a separate constructor ([FVal]).  Rounding
    is therefore outside the model.

    Exceptions.  A Python function that may raise returns a [result]:
    [Ok v] for a normal return, [Raise e] for a raised exception. *)

From Stdlib Require Import Reals Lra Lia QArith Bool.
From stdpp Require Import gmap strings list.

(** ** Exceptions and the error monad *)

Inductive Exception : Type :=
| ValueError            (* wrong argument type, mismatching binning or size *)
| NotImplementedError   (* unknown interpolation method *)
| UnitConversionError   (* astropy: units of different physical type *)
| AttributeError        (* missing key read through a Bunch attribute *)
| IndexError
| TypeError
| LibraryError.         (* an error raised inside numpy / scipy *)

Inductive result (A : Type) : Type :=
| Ok (a : A)
| Raise (e : Exception).
Arguments Ok {A} a.
Arguments Raise {A} e.

Definition bind {A B : Type} (r : result A) (k : A -> result B) : result B :=
  match r with
  | Ok a => k a
  | Raise e => Raise e
  end.

Notation "x <- r ;; k" := (bind r (fun x => k))
  (at level 100, r at next level, right associativity).
Notation "'check' b 'else_raise' e ;; k" :=
  (if b then k else Raise e)
  (at level 100, b at next level, e at next level, right associativity).

(** ** Physical units (astropy.units)

    Only what the two source files use: named units of energy, angle,
    area and time, the product of two units ([energ_lo * energ_hi]) and
    the square root of a unit ([np.sqrt]).  A unit has a physical
    dimension (rational exponents over the four base dimensions) and a
    scale relative to the canonical unit of its dimension (TeV, degree,
    m^2, second). *)

Inductive Unit : Type :=
| TeV | GeV | MeV | keV | eV
| degree | radian | arcmin | arcsec
| m2 | cm2 | km2
| second | hour
| dimensionless
| UMul (u v : Unit)
| USqrt (u : Unit).

Record Dim : Type := mkDim {
  d_energy : Q; d_angle : Q; d_area : Q; d_time : Q }.

Definition dim_mul (a b : Dim) : Dim :=
  mkDim (d_energy a + d_energy b) (d_angle a + d_angle b)
        (d_area a + d_area b) (d_time a + d_time b).

Definition dim_half (a : Dim) : Dim :=
  mkDim (d_energy a / 2) (d_angle a / 2) (d_area a / 2) (d_time a / 2).

Definition dim_eqb (a b : Dim) : bool :=
  Qeq_bool (d_energy a) (d_energy b) && Qeq_bool (d_angle a) (d_angle b)
  && Qeq_bool (d_area a) (d_area b) && Qeq_bool (d_time a) (d_time b).

Definition dim_energy : Dim := mkDim 1 0 0 0.
Definition dim_angle : Dim := mkDim 0 1 0 0.
Definition dim_area : Dim := mkDim 0 0 1 0.
Definition dim_time : Dim := mkDim 0 0 0 1.
Definition dim_none : Dim := mkDim 0 0 0 0.

Fixpoint dim (u : Unit) : Dim :=
  match u with
  | TeV | GeV | MeV | keV | eV => dim_energy
  | degree | radian | arcmin | arcsec => dim_angle
  | m2 | cm2 | km2 => dim_area
  | second | hour => dim_time
  | dimensionless => dim_none
  | UMul a b => dim_mul (dim a) (dim b)
  | USqrt a => dim_half (dim a)
  end.

Fixpoint scale (u : Unit) : R :=
  match u with
  | TeV => 1
  | GeV => / 1000
  | MeV => / 1000000
  | keV => / 1000000000
  | eV => / 1000000000000
  | degree => 1
  | radian => 180 / PI
  | arcmin => / 60
  | arcsec => / 3600
  | m2 => 1
  | cm2 => / 10000
  | km2 => 1000000
  | second => 1
  | hour => 3600
  | dimensionless => 1
  | UMul a b => scale a * scale b
  | USqrt a => sqrt (scale a)
  end.

(** astropy compares units by convertibility with factor one. *)
Definition unit_equal (u v : Unit) : Prop :=
  dim_eqb (dim u) (dim v) = true /\ scale u = scale v.

(** ** Quantities: a numpy payload tagged with a unit *)

Record Quantity (A : Type) : Type := mkQuantity { value : A; unit : Unit }.
Arguments mkQuantity {A} value unit.
Arguments value {A} q.
Arguments unit {A} q.

(** What a caller may pass where a quantity is expected.  [Angle] is a
    subclass of [Quantity], so [isinstance (x, Quantity)] holds for both
    tagged forms and [isinstance (x, Angle)] for the second only. *)
Inductive PyObj (A : Type) : Type :=
| PyQuantity (q : Quantity A)
| PyAngle (q : Quantity A)
| PyPlain (a : A).
Arguments PyQuantity {A} q.
Arguments PyAngle {A} q.
Arguments PyPlain {A} a.

Definition isinstance_Quantity {A} (x : PyObj A) : bool :=
  match x with PyQuantity _ | PyAngle _ => true | PyPlain _ => false end.

Definition isinstance_Angle {A} (x : PyObj A) : bool :=
  match x with PyAngle _ => true | _ => false end.

(** The payload of an object that passed its [isinstance] test. *)
Definition as_quantity {A} (x : PyObj A) : result (Quantity A) :=
  match x with
  | PyQuantity q | PyAngle q => Ok q
  | PyPlain _ => Raise AttributeError
  end.

(** Conversion factor of [q.to(target)]. *)
Definition factor (from target : Unit) : R := (scale from / scale target)%R.

(** [q.to(target)] for a payload that is rescaled by [rescale]. *)
Definition to_with {A} (rescale : R -> A -> A) (q : Quantity A)
    (target : Unit) : result (Quantity A) :=
  check dim_eqb (dim (unit q)) (dim target) else_raise UnitConversionError ;;
  Ok (mkQuantity (rescale (factor (unit q) target) (value q)) target).

Definition to0 : Quantity R -> Unit -> result (Quantity R) :=
  to_with (fun k x => (x * k)%R).
Definition to1 : Quantity (list R) -> Unit -> result (Quantity (list R)) :=
  to_with (fun k => map (fun x => (x * k)%R)).
Definition to2 : Quantity (list (list R)) -> Unit ->
    result (Quantity (list (list R))) :=
  to_with (fun k => map (map (fun x => (x * k)%R))).

(** ** numpy arrays

    Query arguments are scalars or vectors ([Arg]); results may also be
    matrices ([NdArray], the column count is kept so that the shape of a
    matrix without rows is still known). *)

Inductive Arg (A : Type) : Type :=
| Scalar (a : A)
| Vector (l : list A).
Arguments Scalar {A} a.
Arguments Vector {A} l.

Inductive NdArray (A : Type) : Type :=
| A0 (a : A)
| A1 (l : list A)
| A2 (ncols : nat) (rows : list (list A)).
Arguments A0 {A} a.
Arguments A1 {A} l.
Arguments A2 {A} ncols rows.

Definition shape {A} (a : NdArray A) : list nat :=
  match a with
  | A0 _ => []
  | A1 l => [length l]
  | A2 c rows => [length rows; c]
  end.

Definition arg_shape {A} (a : Arg A) : list nat :=
  match a with
  | Scalar _ => []
  | Vector l => [length l]
  end.

Definition arg_map {A B} (f : A -> B) (a : Arg A) : Arg B :=
  match a with
  | Scalar x => Scalar (f x)
  | Vector l => Vector (map f l)
  end.

Definition atleast_1d {A} (a : Arg A) : list A :=
  match a with
  | Scalar x => [x]
  | Vector l => l
  end.

(** Element-wise combination of two vectors under numpy's broadcasting
    rule: equal lengths, or one of the two of length one. *)
Definition broadcast2 {A B C} (f : A -> B -> C) (xs : list A) (ys : list B)
    : result (list C) :=
  if Nat.eqb (length xs) (length ys) then Ok (zip_with f xs ys)
  else match xs, ys with
       | [x], _ => Ok (map (f x) ys)
       | _, [y] => Ok (map (fun x => f x y) xs)
       | _, _ => Raise ValueError
       end.

(** The same for two query arguments. *)
Definition arg_broadcast2 {A B C} (f : A -> B -> C) (a : Arg A) (b : Arg B)
    : result (NdArray C) :=
  match a, b with
  | Scalar x, Scalar y => Ok (A0 (f x y))
  | Scalar x, Vector ys => Ok (A1 (map (f x) ys))
  | Vector xs, Scalar y => Ok (A1 (map (fun x => f x y) xs))
  | Vector xs, Vector ys => l <- broadcast2 f xs ys ;; Ok (A1 l)
  end.

(** Shape of the broadcast of two shapes of rank at most one
    ([None]: the shapes do not broadcast). *)
Definition broadcast_shape (s1 s2 : list nat) : option (list nat) :=
  match s1, s2 with
  | [], s | s, [] => Some s
  | [n], [m] =>
      if Nat.eqb n m then Some [n]
      else if Nat.eqb n 1 then Some [m]
      else if Nat.eqb m 1 then Some [n]
      else None
  | _, _ => None
  end.

(** [a.squeeze ()]: axes of length one go. *)
Definition squeeze {A} (a : NdArray A) : NdArray A :=
  match a with
  | A0 x => A0 x
  | A1 [x] => A0 x
  | A1 l => A1 l
  | A2 ncols rows =>
      match length rows, ncols with
      | 1, 1 => match rows with
                | [[x]] => A0 x
                | _ => a
                end
      | 1, _ => match rows with
                | [r] => A1 r
                | _ => a
                end
      | _, 1 => A1 (concat rows)
      | _, _ => a
      end
  end.

Global Instance Rle_decision (x y : R) : Decision (x <= y)%R := Rle_dec x y.
Global Instance Rlt_decision (x y : R) : Decision (x < y)%R := Rlt_dec x y.
Global Instance Req_decision : EqDecision R := Req_dec_T.

(** [np.log10] on positive reals (numpy yields [-inf] or [nan] elsewhere;
    every property below that depends on the value of a logarithm asks
    for a positive argument). *)
Definition log10 (x : R) : R := (ln x / ln 10)%R.

(** [np.argmin]: index of the first minimum; raises on an empty array. *)
Fixpoint argmin_from (best_i : nat) (best : R) (i : nat) (l : list R) : nat :=
  match l with
  | [] => best_i
  | x :: l' =>
      if bool_decide (x < best)%R then argmin_from i x (S i) l'
      else argmin_from best_i best (S i) l'
  end.

Definition argmin (l : list R) : result nat :=
  match l with
  | [] => Raise ValueError
  | x :: l' => Ok (argmin_from 0 x 1 l')
  end.

(** [np.histogram (xs, edges)]: the edges must not decrease; bin [k] is
    the half-open interval from edge [k] to edge [k+1], the last bin
    also holds its right edge.  One count per pair of consecutive
    edges. *)
Fixpoint nondecreasing (l : list R) : bool :=
  match l with
  | a :: (b :: _) as tl => bool_decide (a <= b)%R && nondecreasing tl
  | _ => true
  end.

Definition in_bin (last : bool) (lo hi x : R) : Prop :=
  (lo <= x)%R /\ if last then (x <= hi)%R else (x < hi)%R.

Global Instance in_bin_decision last lo hi x : Decision (in_bin last lo hi x).
Proof. unfold in_bin. destruct last; apply _. Defined.

Fixpoint histogram_bins (xs edges : list R) : list R :=
  match edges with
  | lo :: (hi :: rest) as tl =>
      INR (length (filter (in_bin (bool_decide (rest = [])) lo hi) xs))
        :: histogram_bins xs tl
  | _ => []
  end.

Definition histogram (xs edges : list R) : result (list R) :=
  check nondecreasing edges else_raise ValueError ;;
  Ok (histogram_bins xs edges).

(** Strictly increasing vectors ([np.all (np.diff (l) > 0)]). *)
Definition increasing (l : list R) : Prop :=
  forall i j a b, l !! i = Some a -> l !! j = Some b -> i < j -> (a < b)%R.

(** ** scipy.interpolate

    [LinearNDInterpolator] and [RectBivariateSpline] are library code.
    They enter the embedding as an interface ([Scipy]): two constructors
    that may fail (Qhull or FITPACK rejecting the data) and otherwise
    give an interpolant, a function of the plane.  What the properties
    below need to know about the linear interpolant is stated apart
    ([ScipyLaws]), after its documentation: it reproduces the data at
    the data points, and it returns its [fill_value], by default [nan],
    outside the convex hull of the data points.  What they need to know
    about the spline is stated in [SplineLaws], after FITPACK's
    [regrid] and [bispev]: with the default degrees [kx = ky = 3] it
    wants at least four points on each axis; with the default smoothing
    [s = 0] it passes through the data of strictly increasing axes; and
    an argument outside the span of its axis is moved to the nearer end
    of the span before the surface is evaluated. *)

Inductive FVal : Type :=
| Fin (r : R)
| NaN.

(** Convex combinations of a list of points of the plane. *)
Fixpoint comb (ws xs : list R) : R :=
  match ws, xs with
  | w :: ws', x :: xs' => (w * x + comb ws' xs')%R
  | _, _ => 0%R
  end.

Fixpoint total (ws : list R) : R :=
  match ws with
  | [] => 0%R
  | w :: ws' => (w + total ws')%R
  end.

Definition in_hull (pts : list (R * R)) (q : R * R) : Prop :=
  exists ws : list R,
    length ws = length pts /\
    Forall (fun w => (0 <= w)%R) ws /\
    total ws = 1%R /\
    comb ws (map fst pts) = fst q /\
    comb ws (map snd pts) = snd q.

Record Scipy : Type := {
  LinearNDInterpolator :
    list (R * R) -> list R -> result (R * R -> FVal);
  RectBivariateSpline :
    list R -> list R -> list (list R) -> result (R -> R -> R)
}.

Record ScipyLaws (sp : Scipy) : Prop := {
  linear_at_data : forall pts vals f k p v,
    LinearNDInterpolator sp pts vals = Ok f ->
    NoDup pts ->
    pts !! k = Some p -> vals !! k = Some v ->
    f p = Fin v;
  linear_outside_hull : forall pts vals f q,
    LinearNDInterpolator sp pts vals = Ok f ->
    ~ in_hull pts q ->
    f q = NaN
}.

(** [v] moved into the span from [lo] to [hi]. *)
Definition clamp (lo hi v : R) : R := Rmax lo (Rmin hi v).

Record SplineLaws (sp : Scipy) : Prop := {
  spline_order : forall x y z s,
    RectBivariateSpline sp x y z = Ok s ->
    4 <= length x /\ 4 <= length y;
  spline_at_data : forall x y z s i j a b row v,
    RectBivariateSpline sp x y z = Ok s ->
    increasing x -> increasing y ->
    x !! i = Some a -> y !! j = Some b ->
    z !! i = Some row -> row !! j = Some v ->
    s a b = v;
  spline_clamps : forall x y z s x0 x1 y0 y1 a b,
    RectBivariateSpline sp x y z = Ok s ->
    head x = Some x0 -> last x = Some x1 ->
    head y = Some y0 -> last y = Some y1 ->
    s a b = s (clamp x0 x1 a) (clamp y0 y1 b)
}.

(** Calling the linear interpolant on two coordinate arrays: the arrays
    are broadcast against each other and the interpolant is applied to
    each resulting point. *)
Definition linear_call (f : R * R -> FVal) (x y : Arg R)
    : result (NdArray FVal) :=
  arg_broadcast2 (fun a b => f (a, b)) x y.

(** Calling the spline on two coordinate arrays: FITPACK evaluates on
    the grid spanned by the two (non-decreasing) arrays, scalars count
    as arrays of length one; the result has one row per [x] and one
    column per [y]. *)
Definition spline_call (s : R -> R -> R) (x y : Arg R)
    : result (NdArray FVal) :=
  let xs := atleast_1d x in
  let ys := atleast_1d y in
  check nondecreasing xs && nondecreasing ys else_raise LibraryError ;;
  Ok (A2 (length ys) (map (fun a => map (fun b => Fin (s a b)) ys) xs)).

(** ** Quantity arithmetic used by the constructors *)

(** [a + b] on vector quantities: the right operand is converted to the
    unit of the left one, which is the unit of the sum. *)
Definition q_add (a b : Quantity (list R)) : result (Quantity (list R)) :=
  b' <- to1 b (unit a) ;;
  vs <- broadcast2 Rplus (value a) (value b') ;;
  Ok (mkQuantity vs (unit a)).

(** [a / k] for a plain number [k]. *)
Definition q_div (a : Quantity (list R)) (k : R) : Quantity (list R) :=
  mkQuantity (map (fun x => (x / k)%R) (value a)) (unit a).

(** [a * b]: values and units multiply. *)
Definition q_mul (a b : Quantity (list R)) : result (Quantity (list R)) :=
  vs <- broadcast2 Rmult (value a) (value b) ;;
  Ok (mkQuantity vs (UMul (unit a) (unit b))).

(** [np.sqrt (a)]. *)
Definition q_sqrt (a : Quantity (list R)) : Quantity (list R) :=
  mkQuantity (map sqrt (value a)) (USqrt (unit a)).

(** [a + b] on scalar quantities. *)
Definition q_add0 (a b : Quantity R) : result (Quantity R) :=
  b' <- to0 b (unit a) ;;
  Ok (mkQuantity (value a + value b')%R (unit a)).

(** [q.to(target)] for a query argument. *)
Definition toA : Quantity (Arg R) -> Unit -> result (Quantity (Arg R)) :=
  to_with (fun k => arg_map (fun x => (x * k)%R)).

(** Modelled from the spec: [validate_physical_type] of
    [gammapy/extern/validator.py], which is not part of the sources at
    hand.  "Validates physical type of every input (fails with a
    TypeMismatch error if wrong dimension, e.g. an angle passed where
    area expected)". *)
Definition validate_physical_type {A} (x : PyObj A) (d : Dim)
    : result (Quantity A) :=
  match x with
  | PyQuantity q | PyAngle q =>
      check dim_eqb (dim (unit q)) d else_raise TypeError ;; Ok q
  | PyPlain _ => Raise TypeError
  end.

(** ** [class TableEffectiveArea] *)

Module TableEffectiveArea.

Record instance : Type := mkInstance {
  energy_hi : Quantity (list R);
  energy_lo : Quantity (list R);
  effective_area : Quantity (list R);
  energy_thresh_lo : Quantity R;
  energy_thresh_hi : Quantity R
}.

Definition default_energy_thresh_lo : PyObj R :=
  PyQuantity (mkQuantity (/ 10)%R TeV).
Definition default_energy_thresh_hi : PyObj R :=
  PyQuantity (mkQuantity 100%R TeV).

Definition __init__ (energy_lo energy_hi effective_area : PyObj (list R))
    (energy_thresh_lo energy_thresh_hi : option (PyObj R))
    : result instance :=
  let energy_thresh_lo := default default_energy_thresh_lo energy_thresh_lo in
  let energy_thresh_hi := default default_energy_thresh_hi energy_thresh_hi in
  (* Validate input *)
  energy_lo <- validate_physical_type energy_lo dim_energy ;;
  energy_hi <- validate_physical_type energy_hi dim_energy ;;
  effective_area <- validate_physical_type effective_area dim_area ;;
  energy_thresh_lo <- validate_physical_type energy_thresh_lo dim_energy ;;
  energy_thresh_hi <- validate_physical_type energy_thresh_hi dim_energy ;;
  (* Set attributes *)
  s_energy_hi <- to1 energy_hi TeV ;;
  s_energy_lo <- to1 energy_lo TeV ;;
  s_effective_area <- to1 effective_area m2 ;;
  s_energy_thresh_lo <- to0 energy_thresh_lo TeV ;;
  s_energy_thresh_hi <- to0 energy_thresh_hi TeV ;;
  Ok (mkInstance s_energy_hi s_energy_lo s_effective_area
                 s_energy_thresh_lo s_energy_thresh_hi).

(** [np.abs (self.energy_hi - energy)]: the subtraction converts the
    query to the unit of [energy_hi]. *)
Definition distances (self : instance) (energy : Quantity R)
    : result (list R) :=
  e <- to0 energy (unit (energy_hi self)) ;;
  Ok (map (fun hi => Rabs (hi - value e)) (value (energy_hi self))).

Definition effective_area_at_energy (self : instance) (energy : PyObj R)
    : result (Quantity R) :=
  check isinstance_Quantity energy else_raise ValueError ;;
  energy <- as_quantity energy ;;
  d <- distances self energy ;;
  i <- argmin d ;;
  match value (effective_area self) !! i with
  | Some a => Ok (mkQuantity a (unit (effective_area self)))
  | None => Raise IndexError
  end.

End TableEffectiveArea.

(** ** [class OffsetDependentTableEffectiveArea] *)

Module OffsetDependentTableEffectiveArea.

Record instance : Type := mkInstance {
  energ_lo : Quantity (list R);
  energ_hi : Quantity (list R);
  offset_lo : Quantity (list R);
  offset_hi : Quantity (list R);
  eff_area : Quantity (list (list R));
  eff_area_reco : Quantity (list (list R));
  offset : Quantity (list R);
  energy : Quantity (list R);
  _linear : R * R -> FVal;
  _spline : R -> R -> R;
  _interpolation_method : string
}.

(** [coord = [(xx, yy) for xx in x for yy in y]] *)
Definition coord (x y : list R) : list (R * R) :=
  xx ← x; yy ← y; [(xx, yy)].

(** [m.flatten ()] of a matrix given by its rows (row-major). *)
Definition flatten (m : list (list R)) : list R := concat m.

Definition _prepare_linear_interpolator (sp : Scipy)
    (offset energy : Quantity (list R))
    (eff_area : Quantity (list (list R))) : result (R * R -> FVal) :=
  let x := value offset in
  let y := map log10 (value energy) in
  LinearNDInterpolator sp (coord x y) (flatten (value eff_area)).

Definition _prepare_spline_interpolator (sp : Scipy)
    (offset energy : Quantity (list R))
    (eff_area : Quantity (list (list R))) : result (R -> R -> R) :=
  let x := value offset in
  let y := map log10 (value energy) in
  RectBivariateSpline sp x y (value eff_area).

Definition __init__ (sp : Scipy)
    (energ_lo energ_hi offset_lo offset_hi : PyObj (list R))
    (eff_area eff_area_reco : PyObj (list (list R))) : result instance :=
  check isinstance_Quantity energ_lo && isinstance_Quantity energ_hi
    else_raise ValueError ;;
  check isinstance_Angle offset_lo && isinstance_Angle offset_hi
    else_raise ValueError ;;
  check isinstance_Quantity eff_area && isinstance_Quantity eff_area_reco
    else_raise ValueError ;;
  energ_lo <- as_quantity energ_lo ;;
  energ_hi <- as_quantity energ_hi ;;
  offset_lo <- as_quantity offset_lo ;;
  offset_hi <- as_quantity offset_hi ;;
  eff_area <- as_quantity eff_area ;;
  eff_area_reco <- as_quantity eff_area_reco ;;
  s_energ_lo <- to1 energ_lo TeV ;;
  s_energ_hi <- to1 energ_hi TeV ;;
  s_offset_lo <- to1 offset_lo degree ;;
  s_offset_hi <- to1 offset_hi degree ;;
  s_eff_area <- to2 eff_area m2 ;;
  s_eff_area_reco <- to2 eff_area_reco m2 ;;
  (* the centres are computed from the arguments, not from the
     converted attributes *)
  sum <- q_add offset_hi offset_lo ;;
  let s_offset := q_div sum 2 in
  prod <- q_mul energ_lo energ_hi ;;
  let s_energy := q_sqrt prod in
  s_linear <- _prepare_linear_interpolator sp s_offset s_energy s_eff_area ;;
  s_spline <- _prepare_spline_interpolator sp s_offset s_energy s_eff_area ;;
  Ok (mkInstance s_energ_lo s_energ_hi s_offset_lo s_offset_hi
                 s_eff_area s_eff_area_reco s_offset s_energy
                 s_linear s_spline "linear").

Definition evaluate (self : instance) (offset energy : PyObj (Arg R))
    : result (Quantity (NdArray FVal)) :=
  check isinstance_Quantity energy && isinstance_Angle offset
    else_raise ValueError ;;
  offset <- as_quantity offset ;;
  energy <- as_quantity energy ;;
  offset <- toA offset degree ;;
  energy <- toA energy TeV ;;
  val <-
    (if decide (_interpolation_method self = "linear") then
       linear_call (_linear self) (value offset)
                   (arg_map log10 (value energy))
     else if decide (_interpolation_method self = "spline") then
       m <- spline_call (_spline self) (value offset)
                        (arg_map log10 (value energy)) ;;
       Ok (squeeze m)
     else Raise NotImplementedError) ;;
  Ok (mkQuantity val (unit (eff_area self))).

(** [__call__] executes [evaluate]. *)
Definition __call__ := evaluate.

(** The method assigns one attribute of [self] or raises before any
    assignment: the outcome is paired with the state afterwards. *)
Definition set_interpolation_method (self : instance) (method : string)
    : result Datatypes.unit * instance :=
  if negb (bool_decide (method ∈ ["linear"; "spline"])) then
    (Raise NotImplementedError, self)
  else
    (Ok tt,
     mkInstance (energ_lo self) (energ_hi self) (offset_lo self)
                (offset_hi self) (eff_area self) (eff_area_reco self)
                (offset self) (energy self) (_linear self) (_spline self)
                method).

End OffsetDependentTableEffectiveArea.

(** ** [class CountsSpectrum] *)

(** Values kept in the metadata bag. *)
Inductive PyVal : Type :=
| VQuantity (q : Quantity R)
| VNum (r : R)
| VStr (s : string).

(** Python's [a + b] on such values: quantities add like [q_add0],
    numbers add, strings concatenate, anything else is refused. *)
Definition py_add (a b : PyVal) : result PyVal :=
  match a, b with
  | VQuantity x, VQuantity y => q <- q_add0 x y ;; Ok (VQuantity q)
  | VNum x, VNum y => Ok (VNum (x + y)%R)
  | VStr x, VStr y => Ok (VStr (x +:+ y))
  | _, _ => Raise TypeError
  end.

(** [dict.setdefault (k, v)] *)
Definition setdefault (k : string) (v : PyVal) (m : gmap string PyVal)
    : gmap string PyVal :=
  match m !! k with
  | Some _ => m
  | None => <[k := v]> m
  end.

(** Attribute access on a [Bunch]: the key must be there. *)
Definition getattr (m : gmap string PyVal) (k : string) : result PyVal :=
  match m !! k with
  | Some v => Ok v
  | None => Raise AttributeError
  end.

(** Modelled from the spec: [EnergyBounds] of [gammapy/utils/energy.py],
    which is not part of the sources at hand: an "ordered sequence of
    lower/upper bin edges (energy, unit-tagged)" held as one array of
    edges, the lower edges being all but the last and the upper edges
    all but the first, so that "nbins = len(lo) = len(hi)" is the number
    of edges minus one. *)
Definition EnergyBounds : Type := Quantity (list R).

Definition nbins (e : EnergyBounds) : Z := Z.of_nat (length (value e)) - 1.

(** [a != b] on two quantities holding vectors, element by element,
    the right operand converted to the unit of the left one.  Arrays
    that do not broadcast make the comparison, or the [.all ()] that
    follows it, raise; which exception that is depends on the numpy at
    hand and is not pinned down here. *)
Definition q_ne (a b : Quantity (list R)) : result (list bool) :=
  b' <- to1 b (unit a) ;;
  broadcast2 (fun x y => negb (bool_decide (x = y))) (value a) (value b').

(** [mask.all ()] *)
Definition all (mask : list bool) : bool := forallb (fun b => b) mask.

Module CountsSpectrum.

Record instance : Type := mkInstance {
  counts : list R;
  energy_bounds : EnergyBounds;
  meta : gmap string PyVal;
  channels : list Z
}.

Definition default_livetime : PyVal := VQuantity (mkQuantity 0%R second).
Definition default_backscal : PyVal := VNum 1%R.

Definition __init__ (counts : list R) (energy : EnergyBounds)
    (meta : option (gmap string PyVal)) : result instance :=
  check negb (bool_decide (Z.of_nat (length counts) ≠ nbins energy))
    else_raise ValueError ;;
  let s_counts := counts in
  let s_energy_bounds := energy in
  let s_meta := default ∅ meta in
  (* This is needed to write valid OGIP files *)
  let s_meta := setdefault "livetime" default_livetime s_meta in
  let s_meta := setdefault "backscal" default_backscal s_meta in
  let s_channels := seqZ 1 (nbins s_energy_bounds) in
  Ok (mkInstance s_counts s_energy_bounds s_meta s_channels).

(** [self.counts.sum ()].  The counts, [int64] or [float64] in numpy,
    are reals here: sums and products are exact, without wrap-around
    or rounding. *)
Definition total_counts (self : instance) : R := total (counts self).

Definition __add__ (self other : instance) : result instance :=
  mask <- q_ne (energy_bounds self) (energy_bounds other) ;;
  check negb (all mask) else_raise ValueError ;;
  counts <- broadcast2 Rplus (counts self) (counts other) ;;
  l1 <- getattr (meta self) "livetime" ;;
  l2 <- getattr (meta other) "livetime" ;;
  livetime <- py_add l1 l2 ;;
  let meta : gmap string PyVal := {[ "livetime" := livetime ]} in
  __init__ counts (energy_bounds self) (Some meta).

Definition __mul__ (self : instance) (other : R) : result instance :=
  let temp := map (fun c => (c * other)%R) (counts self) in
  livetime <- getattr (meta self) "livetime" ;;
  let meta : gmap string PyVal := {[ "livetime" := livetime ]} in
  __init__ temp (energy_bounds self) (Some meta).

(** An event list, as far as [from_eventlist] reads it. *)
Record EventList : Type := mkEventList {
  el_energy : Quantity (list R);
  observation_live_time_duration : Quantity R
}.

(** The four kinds of argument that [from_eventlist] accepts; where
    the method first reads a file or an HDU, the argument carries what
    that read gives. *)
Inductive EventSource : Type :=
| BinTableHDU (read : result EventList)
| EventListDataset (event_list : EventList)
| Filename (read : result EventList)
| AnEventList (event_list : EventList).

(** The [isinstance] chain at the head of [from_eventlist]. *)
Definition as_event_list (event_list : EventSource) : result EventList :=
  match event_list with
  | BinTableHDU read => read
  | EventListDataset el => Ok el
  | Filename read => read
  | AnEventList el => Ok el
  end.

Definition from_eventlist (event_list : EventSource) (bins : EnergyBounds)
    : result instance :=
  event_list <- as_event_list event_list ;;
  (* [Energy (event_list.energy).to (bins.unit)] *)
  energy <- to1 (el_energy event_list) (unit bins) ;;
  val <- histogram (value energy) (value bins) ;;
  let livetime := observation_live_time_duration event_list in
  let meta : gmap string PyVal := {[ "livetime" := VQuantity livetime ]} in
  (* [meta] is not handed on *)
  __init__ val bins None.

End CountsSpectrum.

(** ** Further functions of [effective_area_table.py] *)

(** The parameters [g1] (cm^2), [g2] and [g3] (MeV) of
    [abramowski_effective_area], by instrument. *)
Definition pars : gmap string (R * R * R) :=
  <["HESS" := (6850000000, 891 / 10000, 500000)%R]>
    (<["HESS2" := (2050000000, 891 / 10000, 100000)%R]>
       {["CTA" := (171000000000, 891 / 10000, 100000)%R]}).

(** [abramowski_effective_area (energy, instrument='HESS')].  The power
    and the exponential are those of the reals.  The doubles of numpy
    follow them only up to rounding, and not at all where the
    exponential underflows: for small positive energies (below about
    0.7 GeV for HESS) the code returns exactly 0 cm^2.  The properties
    below are about the checks, the unit and the shape of the result
    and the conversion of the argument, not about the size of the
    area. *)
Definition abramowski_effective_area (energy : PyObj (Arg R))
    (instrument : option string) : result (Quantity (Arg R)) :=
  let instrument := default "HESS" instrument in
  check isinstance_Quantity energy else_raise ValueError ;;
  energy <- as_quantity energy ;;
  energy <- toA energy MeV ;;
  let energy := value energy in
  match pars !! instrument with
  | None => Raise ValueError
  | Some (p0, p1, p2) =>
      let g1 := p0 in
      let g2 := p1 in
      let g3 := (- p2)%R in
      let value :=
        arg_map (fun E => (g1 * Rpower E (- g2) * exp (g3 / E))%R) energy in
      Ok (mkQuantity value cm2)
  end.

Module TableEffectiveAreaMore.

(** The [SPECRESP] extension of an HDU list, as far as [from_fits]
    reads it: three columns and the numeric cards of the header. *)
Record SpecrespHDU : Type := mkSpecrespHDU {
  ENERG_LO : list R;
  ENERG_HI : list R;
  SPECRESP : list R;
  header : gmap string R
}.

(** [from_fits]: a [KeyError] on either threshold card leads to the
    constructor's default thresholds. *)
Definition from_fits (hdu : SpecrespHDU)
    : result TableEffectiveArea.instance :=
  let energy_lo := PyQuantity (mkQuantity (ENERG_LO hdu) TeV) in
  let energy_hi := PyQuantity (mkQuantity (ENERG_HI hdu) TeV) in
  let effective_area := PyQuantity (mkQuantity (SPECRESP hdu) m2) in
  match header hdu !! "LO_THRES" with
  | Some lo =>
      match header hdu !! "HI_THRES" with
      | Some hi =>
          let energy_thresh_lo := PyQuantity (mkQuantity lo TeV) in
          let energy_thresh_hi := PyQuantity (mkQuantity hi TeV) in
          TableEffectiveArea.__init__ energy_lo energy_hi effective_area
            (Some energy_thresh_lo) (Some energy_thresh_hi)
      | None =>
          TableEffectiveArea.__init__ energy_lo energy_hi effective_area
            None None
      end
  | None =>
      TableEffectiveArea.__init__ energy_lo energy_hi effective_area
        None None
  end.

End TableEffectiveAreaMore.

Module OffsetDependentTableEffectiveAreaMore.

(** The [EFFECTIVE AREA] extension of an HDU list: every column holds
    an array with a leading axis of rows, of which [from_fits] reads
    row 0. *)
Record EffectiveAreaHDU : Type := mkEffectiveAreaHDU {
  ENERG_LO : list (list R);
  ENERG_HI : list (list R);
  THETA_LO : list (list R);
  THETA_HI : list (list R);
  EFFAREA : list (list (list R));
  EFFAREA_RECO : list (list (list R))
}.

(** [column[0, ...]] *)
Definition row0 {A} (column : list A) : result A :=
  match column !! 0 with
  | Some r => Ok r
  | None => Raise IndexError
  end.

Definition from_fits (sp : Scipy) (hdu : EffectiveAreaHDU)
    : result OffsetDependentTableEffectiveArea.instance :=
  energ_lo <- row0 (ENERG_LO hdu) ;;
  energ_hi <- row0 (ENERG_HI hdu) ;;
  offset_lo <- row0 (THETA_LO hdu) ;;
  offset_hi <- row0 (THETA_HI hdu) ;;
  eff_area <- row0 (EFFAREA hdu) ;;
  eff_area_reco <- row0 (EFFAREA_RECO hdu) ;;
  OffsetDependentTableEffectiveArea.__init__ sp
    (PyQuantity (mkQuantity energ_lo TeV))
    (PyQuantity (mkQuantity energ_hi TeV))
    (PyAngle (mkQuantity offset_lo degree))
    (PyAngle (mkQuantity offset_hi degree))
    (PyQuantity (mkQuantity eff_area m2))
    (PyQuantity (mkQuantity eff_area_reco m2)).

(** [eval_at_offset (offset, energies=[])]; [None] stands for the
    default.  The stored energy centres are a [Quantity]. *)
Definition eval_at_offset (self : OffsetDependentTableEffectiveArea.instance)
    (offset : PyObj (Arg R)) (energies : option (PyObj (Arg R)))
    : result (Quantity (NdArray FVal)) :=
  check isinstance_Angle offset else_raise ValueError ;;
  let enarray :=
    match energies with
    | None =>
        PyQuantity
          (mkQuantity
             (Vector (value (OffsetDependentTableEffectiveArea.energy self)))
             (unit (OffsetDependentTableEffectiveArea.energy self)))
    | Some energies => energies
    end in
  let areahist :=
    OffsetDependentTableEffectiveArea.evaluate self offset enarray in
  areahist.

(** [eval_at_energy (energy, offsets=[])].  The stored offset centres
    are an [Angle]: sums of angles and their quotients by a number are
    angles. *)
Definition eval_at_energy (self : OffsetDependentTableEffectiveArea.instance)
    (energy : PyObj (Arg R)) (offsets : option (PyObj (Arg R)))
    : result (Quantity (NdArray FVal)) :=
  check isinstance_Quantity energy else_raise ValueError ;;
  let offarray :=
    match offsets with
    | None =>
        PyAngle
          (mkQuantity
             (Vector (value (OffsetDependentTableEffectiveArea.offset self)))
             (unit (OffsetDependentTableEffectiveArea.offset self)))
    | Some offsets => offsets
    end in
  let areahist :=
    OffsetDependentTableEffectiveArea.evaluate self offarray energy in
  areahist.

End OffsetDependentTableEffectiveAreaMore.

(** * Auxiliary definitions

    Abbreviations used in the statements, a small implementation of the
    scipy interface, and the data of the examples. *)

(** ** Abbreviations *)

(** The coordinates that [evaluate] hands to the active interpolant. *)
Definition query_x (offset : Quantity (Arg R)) : Arg R :=
  arg_map (fun v => (v * factor (unit offset) degree)%R) (value offset).

Definition query_y (energy : Quantity (Arg R)) : Arg R :=
  arg_map log10
    (arg_map (fun v => (v * factor (unit energy) TeV)%R) (value energy)).

(** The metadata bag that the arithmetic operators end up with. *)
Definition livetime_only (l : PyVal) : gmap string PyVal :=
  <["backscal" := CountsSpectrum.default_backscal]> {["livetime" := l]}.

(** ** An implementation of the scipy interface

    The smallest interpolants that obey the laws.  The linear one
    reproduces the value of a data point and is [nan] everywhere else.
    The spline refuses axes with fewer than four points and matrices
    that do not fit the axes; its surface moves the query into the
    spans of the axes, has the stored value at a node and is zero
    elsewhere.  They show that the laws can be met and serve as the
    library in the examples. *)

Definition lookup_interpolant (pts : list (R * R)) (vals : list R)
    (q : R * R) : FVal :=
  match list_find (fun p => p = q) pts with
  | Some (k, _) => match vals !! k with
                   | Some v => Fin v
                   | None => NaN
                   end
  | None => NaN
  end.

Definition lookup_LinearNDInterpolator (pts : list (R * R)) (vals : list R)
    : result (R * R -> FVal) :=
  check Nat.eqb (length pts) (length vals) else_raise LibraryError ;;
  Ok (lookup_interpolant pts vals).

(** The argument moved into the span of the axis. *)
Definition into_span (x : list R) (a : R) : R :=
  match head x, last x with
  | Some lo, Some hi => clamp lo hi a
  | _, _ => a
  end.

Definition lookup_surface (x y : list R) (z : list (list R)) (a b : R) : R :=
  match list_find (fun p => p = into_span x a) x,
        list_find (fun p => p = into_span y b) y with
  | Some (i, _), Some (j, _) =>
      match z !! i with
      | Some row => default 0%R (row !! j)
      | None => 0%R
      end
  | _, _ => 0%R
  end.

Definition lookup_RectBivariateSpline (x y : list R) (z : list (list R))
    : result (R -> R -> R) :=
  check Nat.leb 4 (length x) && Nat.leb 4 (length y)
    else_raise LibraryError ;;
  check Nat.eqb (length z) (length x)
        && forallb (fun row => Nat.eqb (length row) (length y)) z
    else_raise LibraryError ;;
  Ok (lookup_surface x y z).

Definition lookup_scipy : Scipy :=
  Build_Scipy lookup_LinearNDInterpolator lookup_RectBivariateSpline.

(** ** Example data: effective-area tables *)

(** The arguments of the specification's scenario, energy edges
    [1, 2, 4, 8, 16] TeV, offset bins [0..1], [1..2], [2..3] degree and
    [area i j = 100 * (i + 1) * (j + 1)] m^2, with a fourth offset bin
    [3..4] degree: the cubic spline of the constructor wants four
    points on each axis. *)
Definition scenario_energ_lo : Quantity (list R) :=
  mkQuantity [1; 2; 4; 8]%R TeV.
Definition scenario_energ_hi : Quantity (list R) :=
  mkQuantity [2; 4; 8; 16]%R TeV.
Definition scenario_offset_lo : Quantity (list R) :=
  mkQuantity [0; 1; 2; 3]%R degree.
Definition scenario_offset_hi : Quantity (list R) :=
  mkQuantity [1; 2; 3; 4]%R degree.
Definition scenario_area : Quantity (list (list R)) :=
  mkQuantity [[100; 200; 300; 400]; [200; 400; 600; 800];
              [300; 600; 900; 1200]; [400; 800; 1200; 1600]]%R m2.

(** Its bin centres. *)
Definition scenario_offset : Quantity (list R) :=
  mkQuantity [(1 / 2)%R; (3 / 2)%R; (5 / 2)%R; (7 / 2)%R] degree.
Definition scenario_energy : Quantity (list R) :=
  mkQuantity [sqrt (1 * 2); sqrt (2 * 4); sqrt (4 * 8); sqrt (8 * 16)] TeV.

Definition scenario_table (sp : Scipy)
    : result OffsetDependentTableEffectiveArea.instance :=
  OffsetDependentTableEffectiveArea.__init__ sp
    (PyQuantity scenario_energ_lo) (PyQuantity scenario_energ_hi)
    (PyAngle scenario_offset_lo) (PyAngle scenario_offset_hi)
    (PyQuantity scenario_area) (PyQuantity scenario_area).

(** The same offsets given in arc minutes. *)
Definition arcmin_offset_lo : Quantity (list R) :=
  mkQuantity [0; 60; 120; 180]%R arcmin.
Definition arcmin_offset_hi : Quantity (list R) :=
  mkQuantity [60; 120; 180; 240]%R arcmin.

Definition arcmin_table (sp : Scipy)
    : result OffsetDependentTableEffectiveArea.instance :=
  OffsetDependentTableEffectiveArea.__init__ sp
    (PyQuantity scenario_energ_lo) (PyQuantity scenario_energ_hi)
    (PyAngle arcmin_offset_lo) (PyAngle arcmin_offset_hi)
    (PyQuantity scenario_area) (PyQuantity scenario_area).

(** The simple table of the specification's scenario: bins [(1, 2)],
    [(2, 4)] TeV with areas [10], [20] m^2. *)
Definition simple_table : TableEffectiveArea.instance :=
  TableEffectiveArea.mkInstance
    (mkQuantity [2; 4]%R TeV) (mkQuantity [1; 2]%R TeV)
    (mkQuantity [10; 20]%R m2)
    (mkQuantity (/ 10)%R TeV) (mkQuantity 100%R TeV).

(** ** Example data: counts spectra *)

Definition two_bins : EnergyBounds := mkQuantity [1; 2; 4]%R TeV.

(** An observation of half an hour with three events. *)
Definition three_events : CountsSpectrum.EventList :=
  CountsSpectrum.mkEventList
    (mkQuantity [3 / 2; 3; 7 / 2]%R TeV) (mkQuantity 1800%R second).

(** Metadata beyond the defaults. *)
Definition rich_meta : gmap string PyVal :=
  <["obs_id" := VNum 23523%R]>
    (<["backscal" := VNum (/ 2)%R]>
       {["livetime" := VQuantity (mkQuantity 1800%R second)]}).

(** [EnergyBounds.equal_log_spacing (1, 10, 10, 'TeV')]: eleven edges. *)
Definition ten_bins : EnergyBounds :=
  mkQuantity (map (fun k => Rpower 10 (INR k / 10)) (seq 0 11)) TeV.

(** Two binnings with the same first two edges and a different last
    edge. *)
Definition bins_1_2_3 : EnergyBounds := mkQuantity [1; 2; 3]%R TeV.
Definition bins_1_2_4 : EnergyBounds := mkQuantity [1; 2; 4]%R TeV.

(** ** Further abbreviations and example data *)

(** A run of calls of [set_interpolation_method], whether they raise or
    not: the state after the last one. *)
Definition set_interpolation_methods
    (self : OffsetDependentTableEffectiveArea.instance)
    (methods : list string) : OffsetDependentTableEffectiveArea.instance :=
  foldl (fun st m =>
           (OffsetDependentTableEffectiveArea.set_interpolation_method
              st m).2)
        self methods.

(** The two names that [set_interpolation_method] accepts. *)
Definition known_method (m : string) : Prop := m = "linear" \/ m = "spline".

(** Same table up to the selector. *)
Definition same_data (t t' : OffsetDependentTableEffectiveArea.instance)
    : Prop :=
  OffsetDependentTableEffectiveArea.energ_lo t'
    = OffsetDependentTableEffectiveArea.energ_lo t /\
  OffsetDependentTableEffectiveArea.energ_hi t'
    = OffsetDependentTableEffectiveArea.energ_hi t /\
  OffsetDependentTableEffectiveArea.offset_lo t'
    = OffsetDependentTableEffectiveArea.offset_lo t /\
  OffsetDependentTableEffectiveArea.offset_hi t'
    = OffsetDependentTableEffectiveArea.offset_hi t /\
  OffsetDependentTableEffectiveArea.eff_area t'
    = OffsetDependentTableEffectiveArea.eff_area t /\
  OffsetDependentTableEffectiveArea.eff_area_reco t'
    = OffsetDependentTableEffectiveArea.eff_area_reco t /\
  OffsetDependentTableEffectiveArea.offset t'
    = OffsetDependentTableEffectiveArea.offset t /\
  OffsetDependentTableEffectiveArea.energy t'
    = OffsetDependentTableEffectiveArea.energy t /\
  OffsetDependentTableEffectiveArea._linear t'
    = OffsetDependentTableEffectiveArea._linear t /\
  OffsetDependentTableEffectiveArea._spline t'
    = OffsetDependentTableEffectiveArea._spline t.

(** The number of values between two bounds, both included. *)
Definition count_between (lo hi : R) (xs : list R) : nat :=
  length (filter (fun x => (lo <= x)%R /\ (x <= hi)%R) xs).

(** The scenario as an [EFFECTIVE AREA] extension with one row. *)
Definition scenario_hdu
    : OffsetDependentTableEffectiveAreaMore.EffectiveAreaHDU :=
  OffsetDependentTableEffectiveAreaMore.mkEffectiveAreaHDU
    [[1; 2; 4; 8]%R] [[2; 4; 8; 16]%R] [[0; 1; 2; 3]%R] [[1; 2; 3; 4]%R]
    [value scenario_area] [value scenario_area].

(** * Properties *)

(** ** Generic facts about the error monad and the list helpers *)

Lemma bind_Ok {A B} (r : result A) (k : A -> result B) (b : B) :
  bind r k = Ok b -> exists a, r = Ok a /\ k a = Ok b.
Proof. destruct r as [a|e]; simpl; [eauto | discriminate]. Qed.

Lemma broadcast2_same_length {A B C} (f : A -> B -> C) xs ys :
  length xs = length ys -> broadcast2 f xs ys = Ok (zip_with f xs ys).
Proof.
  intros H. unfold broadcast2.
  by rewrite (proj2 (Nat.eqb_eq _ _) H).
Qed.

(** ** The data handed to the linear interpolant (offset-major) *)

Section Ordering.
Import OffsetDependentTableEffectiveArea.

Lemma coord_cons (a : R) (x y : list R) :
  coord (a :: x) y = map (pair a) y ++ coord x y.
Proof.
  unfold coord. rewrite bind_cons. reflexivity.
Qed.

Lemma coord_length (x y : list R) :
  length (coord x y) = length x * length y.
Proof.
  induction x as [|a x IH]; [done|].
  rewrite coord_cons, length_app, length_map, IH. simpl. lia.
Qed.

Lemma coord_lookup (x y : list R) (i j : nat) (a b : R) :
  x !! i = Some a -> y !! j = Some b ->
  coord x y !! (i * length y + j) = Some (a, b).
Proof.
  revert i. induction x as [|a0 x IH]; intros i Hi Hj; [done|].
  rewrite coord_cons. destruct i as [|i]; simpl in Hi.
  - injection Hi as ->. apply lookup_app_l_Some.
    change (map (pair a) y) with (pair a <$> y). simpl.
    rewrite list_lookup_fmap, Hj. done.
  - rewrite lookup_app_r by (rewrite length_map; simpl; lia).
    rewrite length_map.
    replace (S i * length y + j - length y) with (i * length y + j)
      by (simpl; lia).
    by apply IH.
Qed.

Lemma flatten_length (m : list (list R)) (n : nat) :
  Forall (fun row => length row = n) m ->
  length (flatten m) = length m * n.
Proof.
  unfold flatten. induction 1 as [|row m Hrow _ IH]; [done|].
  simpl. rewrite length_app, IH, Hrow. done.
Qed.

Lemma flatten_lookup (m : list (list R)) (n i j : nat) (row : list R) (v : R) :
  Forall (fun row => length row = n) m ->
  m !! i = Some row -> row !! j = Some v ->
  flatten m !! (i * n + j) = Some v.
Proof.
  unfold flatten. intros Hm. revert i.
  induction Hm as [|row0 m Hrow0 _ IH]; intros i Hi Hj; [done|].
  simpl. destruct i as [|i]; simpl in Hi.
  - injection Hi as ->. by apply lookup_app_l_Some.
  - rewrite lookup_app_r by (simpl; lia).
    replace (S i * n + j - length row0) with (i * n + j) by (simpl; lia).
    by apply IH.
Qed.

End Ordering.

(** C1.  In [_prepare_linear_interpolator], for a grid with [n_offset]
    offset bins and [n_energy] energy bins and an area matrix of shape
    [(n_offset, n_energy)], the points handed to [LinearNDInterpolator]
    are generated offset-major and energy-minor and the area matrix is
    flattened in the same row-major order: both lists have
    [n_offset * n_energy] entries, and for all indices [(i, j)] the
    entry at position [i * n_energy + j] of the points is
    [(offset_center_i, log10 (energy_center_j))] and the entry at the
    same position of the values is [eff_area[i][j]]. *)
Theorem linear_interpolator_data_row_major
    (offset energy : Quantity (list R))
    (eff_area : Quantity (list (list R))) (n_offset n_energy : nat) :
  length (value offset) = n_offset ->
  length (value energy) = n_energy ->
  length (value eff_area) = n_offset ->
  Forall (fun row => length row = n_energy) (value eff_area) ->
  let pts :=
    OffsetDependentTableEffectiveArea.coord
      (value offset) (map log10 (value energy)) in
  let vals := OffsetDependentTableEffectiveArea.flatten (value eff_area) in
  (forall sp,
     OffsetDependentTableEffectiveArea._prepare_linear_interpolator
       sp offset energy eff_area
     = LinearNDInterpolator sp pts vals) /\
  length pts = n_offset * n_energy /\
  length vals = n_offset * n_energy /\
  forall i j, i < n_offset -> j < n_energy ->
    exists oc ec row a,
      value offset !! i = Some oc /\
      value energy !! j = Some ec /\
      value eff_area !! i = Some row /\
      row !! j = Some a /\
      pts !! (i * n_energy + j) = Some (oc, log10 ec) /\
      vals !! (i * n_energy + j) = Some a.
Proof.
  intros Ho He Ha Hrows pts vals.
  split; [reflexivity|].
  split; [unfold pts; rewrite coord_length, length_map; congruence|].
  split; [unfold vals; rewrite (flatten_length _ n_energy) by done; congruence|].
  intros i j Hi Hj.
  destruct (lookup_lt_is_Some_2 (value offset) i) as [oc Hoc]; [lia|].
  destruct (lookup_lt_is_Some_2 (value energy) j) as [ec Hec]; [lia|].
  destruct (lookup_lt_is_Some_2 (value eff_area) i) as [row Hrow]; [lia|].
  assert (Hlen : length row = n_energy).
  { eapply Forall_lookup_1 in Hrows; eauto. }
  destruct (lookup_lt_is_Some_2 row j) as [a Hra]; [lia|].
  exists oc, ec, row, a. repeat split; try done.
  - unfold pts. rewrite <- He, <- (length_map log10).
    apply coord_lookup; [done|].
    change (map log10 (value energy)) with (log10 <$> value energy).
    by rewrite list_lookup_fmap, Hec.
  - unfold vals. by eapply flatten_lookup.
Qed.

Lemma linear_interpolator_data_row_major_witness :
  let pts :=
    OffsetDependentTableEffectiveArea.coord
      (value scenario_offset) (map log10 (value scenario_energy)) in
  let vals :=
    OffsetDependentTableEffectiveArea.flatten (value scenario_area) in
  length pts = 16 /\ length vals = 16 /\
  forall i j, i < 4 -> j < 4 ->
    exists oc ec row a,
      value scenario_offset !! i = Some oc /\
      value scenario_energy !! j = Some ec /\
      value scenario_area !! i = Some row /\
      row !! j = Some a /\
      pts !! (i * 4 + j) = Some (oc, log10 ec) /\
      vals !! (i * 4 + j) = Some a.
Proof.
  apply (linear_interpolator_data_row_major
           scenario_offset scenario_energy scenario_area 4 4);
    [reflexivity | reflexivity | reflexivity | repeat constructor].
Defined.

(** ** Convex hulls *)

Lemma total_zeros (n : nat) : total (replicate n 0%R) = 0%R.
Proof. induction n as [|n IH]; simpl; [done | rewrite IH; lra]. Qed.

Lemma comb_zeros (n : nat) (xs : list R) : comb (replicate n 0%R) xs = 0%R.
Proof.
  revert xs. induction n as [|n IH]; intros [|x xs]; simpl; try done.
  rewrite IH. lra.
Qed.

Lemma Forall_nonneg_zeros (n : nat) :
  Forall (fun w => (0 <= w)%R) (replicate n 0%R).
Proof. apply Forall_replicate. lra. Qed.

(** A data point lies in the hull of the data. *)
Lemma in_hull_data (pts : list (R * R)) (k : nat) (q : R * R) :
  pts !! k = Some q -> in_hull pts q.
Proof.
  revert k. induction pts as [|p pts IH]; intros k Hk; [done|].
  destruct k as [|k]; simpl in Hk.
  - injection Hk as ->.
    exists (1%R :: replicate (length pts) 0%R). simpl.
    rewrite length_replicate, total_zeros, !comb_zeros.
    repeat split; try lra; try done.
    constructor; [lra | apply Forall_nonneg_zeros].
  - destruct (IH k Hk) as (ws & Hlen & Hpos & Htot & Hx & Hy).
    exists (0%R :: ws). simpl. rewrite Hlen, Htot, Hx, Hy.
    repeat split; try lra; try done.
    constructor; [lra | done].
Qed.

(** A convex combination of abscissae stays above their lower bound
    and below their upper bound. *)
Lemma comb_lower_bound (c : R) (ws xs : list R) :
  length ws = length xs ->
  Forall (fun w => (0 <= w)%R) ws ->
  Forall (fun x => (c <= x)%R) xs ->
  (c * total ws <= comb ws xs)%R.
Proof.
  intros Hlen Hws. revert xs Hlen.
  induction Hws as [|w ws Hw _ IH]; intros [|x xs] Hlen Hxs;
    simpl in *; try lra; try discriminate.
  inversion Hxs as [|? ? Hx Hxs']; subst.
  specialize (IH xs ltac:(lia) Hxs'). nra.
Qed.

Lemma comb_upper_bound (c : R) (ws xs : list R) :
  length ws = length xs ->
  Forall (fun w => (0 <= w)%R) ws ->
  Forall (fun x => (x <= c)%R) xs ->
  (comb ws xs <= c * total ws)%R.
Proof.
  intros Hlen Hws. revert xs Hlen.
  induction Hws as [|w ws Hw _ IH]; intros [|x xs] Hlen Hxs;
    simpl in *; try lra; try discriminate.
  inversion Hxs as [|? ? Hx Hxs']; subst.
  specialize (IH xs ltac:(lia) Hxs'). nra.
Qed.

(** A point to the left of all data is outside their hull. *)
Lemma outside_hull_left (pts : list (R * R)) (q : R * R) (c : R) :
  Forall (fun p => (c <= fst p)%R) pts ->
  (fst q < c)%R ->
  ~ in_hull pts q.
Proof.
  intros Hpts Hq (ws & Hlen & Hpos & Htot & Hx & _).
  pose proof (comb_lower_bound c ws (map fst pts)) as Hb.
  rewrite length_map in Hb. specialize (Hb Hlen Hpos).
  rewrite Htot, Hx in Hb.
  assert (Forall (fun x => (c <= x)%R) (map fst pts)) as Hf.
  { clear -Hpts. induction Hpts; simpl; constructor; done. }
  specialize (Hb Hf). lra.
Qed.

(** A point to the right of all data is outside their hull. *)
Lemma outside_hull_right (pts : list (R * R)) (q : R * R) (c : R) :
  Forall (fun p => (fst p <= c)%R) pts ->
  (c < fst q)%R ->
  ~ in_hull pts q.
Proof.
  intros Hpts Hq (ws & Hlen & Hpos & Htot & Hx & _).
  pose proof (comb_upper_bound c ws (map fst pts)) as Hb.
  rewrite length_map in Hb. specialize (Hb Hlen Hpos).
  rewrite Htot, Hx in Hb.
  assert (Forall (fun x => (x <= c)%R) (map fst pts)) as Hf.
  { clear -Hpts. induction Hpts; simpl; constructor; done. }
  specialize (Hb Hf). lra.
Qed.

(** ** The lookup implementation obeys the laws of the interface *)

Lemma lookup_interpolant_at_data pts vals k p v :
  NoDup pts -> pts !! k = Some p -> vals !! k = Some v ->
  lookup_interpolant pts vals p = Fin v.
Proof.
  intros Hnd Hp Hv. unfold lookup_interpolant.
  destruct (list_find (fun p0 => p0 = p) pts) as [[k' p']|] eqn:Hfind.
  - apply list_find_Some in Hfind as (Hk' & -> & _).
    rewrite (NoDup_lookup _ _ _ _ Hnd Hk' Hp), Hv. done.
  - apply list_find_None in Hfind.
    eapply Forall_lookup_1 in Hfind; [|exact Hp]. done.
Qed.

Lemma lookup_interpolant_outside_hull pts vals q :
  ~ in_hull pts q -> lookup_interpolant pts vals q = NaN.
Proof.
  intros Hout. unfold lookup_interpolant.
  destruct (list_find (fun p0 => p0 = q) pts) as [[k' p']|] eqn:Hfind;
    [|done].
  apply list_find_Some in Hfind as (Hk' & -> & _).
  destruct Hout. by eapply in_hull_data.
Qed.

Lemma lookup_law_at_data pts vals f k p v :
  lookup_LinearNDInterpolator pts vals = Ok f ->
  NoDup pts -> pts !! k = Some p -> vals !! k = Some v ->
  f p = Fin v.
Proof.
  unfold lookup_LinearNDInterpolator. intros Hf Hnd Hp Hv.
  destruct (Nat.eqb _ _); [|discriminate]. injection Hf as <-.
  by eapply lookup_interpolant_at_data.
Qed.

Lemma lookup_law_outside_hull pts vals f q :
  lookup_LinearNDInterpolator pts vals = Ok f ->
  ~ in_hull pts q ->
  f q = NaN.
Proof.
  unfold lookup_LinearNDInterpolator. intros Hf Hout.
  destruct (Nat.eqb _ _); [|discriminate]. injection Hf as <-.
  by apply lookup_interpolant_outside_hull.
Qed.

Lemma lookup_scipy_laws : ScipyLaws lookup_scipy.
Proof.
  split; [exact lookup_law_at_data | exact lookup_law_outside_hull].
Qed.

Lemma clamp_idempotent (lo hi v : R) :
  clamp lo hi (clamp lo hi v) = clamp lo hi v.
Proof.
  unfold clamp, Rmax, Rmin.
  repeat (destruct (Rle_dec _ _)); lra.
Qed.

Lemma clamp_inside (lo hi v : R) :
  (lo <= v)%R -> (v <= hi)%R -> clamp lo hi v = v.
Proof.
  intros H1 H2. unfold clamp, Rmax, Rmin.
  repeat (destruct (Rle_dec _ _)); lra.
Qed.

Lemma clamp_bounds (lo hi v : R) :
  (lo <= hi)%R -> (lo <= clamp lo hi v)%R /\ (clamp lo hi v <= hi)%R.
Proof.
  intros H. unfold clamp, Rmax, Rmin.
  repeat (destruct (Rle_dec _ _)); lra.
Qed.

Lemma clamp_fixed (lo hi v : R) :
  (lo <= hi)%R -> clamp lo hi v = v -> (lo <= v)%R /\ (v <= hi)%R.
Proof. intros H <-. by apply clamp_bounds. Qed.

(** An entry of a strictly increasing vector lies between its first and
    its last entry, and nowhere else in the vector. *)
Lemma increasing_span (l : list R) (i : nat) (a lo hi : R) :
  increasing l -> l !! i = Some a ->
  head l = Some lo -> last l = Some hi ->
  (lo <= a)%R /\ (a <= hi)%R.
Proof.
  intros Hinc Hi Hlo Hhi.
  rewrite head_lookup in Hlo. rewrite last_lookup in Hhi.
  pose proof (lookup_lt_Some _ _ _ Hi) as Hlt. split.
  - destruct i as [|i]; [rewrite Hi in Hlo; injection Hlo as <-; lra|].
    left. apply (Hinc 0 (S i) lo a Hlo Hi). lia.
  - destruct (decide (i = pred (length l))) as [->|Hne];
      [rewrite Hi in Hhi; injection Hhi as <-; lra|].
    left. apply (Hinc i (pred (length l)) a hi Hi Hhi). lia.
Qed.

Lemma increasing_inj (l : list R) (i j : nat) (a : R) :
  increasing l -> l !! i = Some a -> l !! j = Some a -> i = j.
Proof.
  intros Hinc Hi Hj.
  destruct (Nat.lt_trichotomy i j) as [H|[H|H]]; [|done|].
  - pose proof (Hinc i j a a Hi Hj H). lra.
  - pose proof (Hinc j i a a Hj Hi H). lra.
Qed.

Lemma into_span_idempotent (x : list R) (a : R) :
  into_span x (into_span x a) = into_span x a.
Proof.
  unfold into_span. destruct (head x), (last x); try done.
  apply clamp_idempotent.
Qed.

Lemma into_span_node (x : list R) (i : nat) (a : R) :
  increasing x -> x !! i = Some a -> into_span x a = a.
Proof.
  intros Hinc Hi. unfold into_span.
  destruct (head x) as [lo|] eqn:Hlo; [|done].
  destruct (last x) as [hi|] eqn:Hhi; [|done].
  destruct (increasing_span x i a lo hi Hinc Hi Hlo Hhi).
  by apply clamp_inside.
Qed.

Lemma list_find_increasing (x : list R) (i : nat) (a : R) :
  increasing x -> x !! i = Some a ->
  list_find (fun p => p = a) x = Some (i, a).
Proof.
  intros Hinc Hi.
  destruct (list_find (fun p => p = a) x) as [[k p]|] eqn:Hfind.
  - apply list_find_Some in Hfind as (Hk & -> & _).
    by rewrite (increasing_inj x i k a Hinc Hi Hk).
  - apply list_find_None in Hfind.
    eapply Forall_lookup_1 in Hfind; [|exact Hi]. done.
Qed.

Lemma lookup_spline_inv (x y : list R) (z : list (list R)) (s : R -> R -> R) :
  lookup_RectBivariateSpline x y z = Ok s ->
  4 <= length x /\ 4 <= length y /\ s = lookup_surface x y z.
Proof.
  unfold lookup_RectBivariateSpline.
  destruct (Nat.leb 4 (length x)) eqn:Hx; [|discriminate].
  destruct (Nat.leb 4 (length y)) eqn:Hy; [|discriminate].
  apply Nat.leb_le in Hx, Hy. cbn [andb negb bind].
  destruct (_ && _); [|discriminate]. cbn [negb bind].
  intros [= <-]. done.
Qed.

Lemma lookup_spline_laws : SplineLaws lookup_scipy.
Proof.
  split; cbn [RectBivariateSpline lookup_scipy].
  - intros x y z s H. apply lookup_spline_inv in H as (? & ? & _). done.
  - intros x y z s i j a b row v H Hx Hy Hi Hj Hrow Hv.
    apply lookup_spline_inv in H as (_ & _ & ->).
    unfold lookup_surface.
    rewrite (into_span_node x i a Hx Hi), (into_span_node y j b Hy Hj).
    rewrite (list_find_increasing x i a Hx Hi).
    rewrite (list_find_increasing y j b Hy Hj).
    by rewrite Hrow, Hv.
  - intros x y z s x0 x1 y0 y1 a b H Hx0 Hx1 Hy0 Hy1.
    apply lookup_spline_inv in H as (_ & _ & ->).
    unfold lookup_surface.
    replace (clamp x0 x1 a) with (into_span x a)
      by (unfold into_span; by rewrite Hx0, Hx1).
    replace (clamp y0 y1 b) with (into_span y b)
      by (unfold into_span; by rewrite Hy0, Hy1).
    by rewrite !into_span_idempotent.
Qed.

(** ** Construction of the offset-dependent table *)

Section Construction.
Import OffsetDependentTableEffectiveArea.
Context (sp : Scipy).

(** What a successful construction has computed. *)
Lemma init_inv (elo ehi olo ohi : PyObj (list R))
    (ea ear : PyObj (list (list R))) (t : instance) :
  __init__ sp elo ehi olo ohi ea ear = Ok t ->
  exists qelo qehi qolo qohi qea qear sum prod,
    as_quantity elo = Ok qelo /\ as_quantity ehi = Ok qehi /\
    olo = PyAngle qolo /\ ohi = PyAngle qohi /\
    as_quantity ea = Ok qea /\ as_quantity ear = Ok qear /\
    to1 qelo TeV = Ok (energ_lo t) /\
    to1 qehi TeV = Ok (energ_hi t) /\
    to1 qolo degree = Ok (offset_lo t) /\
    to1 qohi degree = Ok (offset_hi t) /\
    to2 qea m2 = Ok (eff_area t) /\
    to2 qear m2 = Ok (eff_area_reco t) /\
    q_add qohi qolo = Ok sum /\ offset t = q_div sum 2 /\
    q_mul qelo qehi = Ok prod /\ energy t = q_sqrt prod /\
    _prepare_linear_interpolator sp (offset t) (energy t) (eff_area t)
      = Ok (_linear t) /\
    _prepare_spline_interpolator sp (offset t) (energy t) (eff_area t)
      = Ok (_spline t) /\
    _interpolation_method t = "linear".
Proof.
  unfold __init__. intros H.
  destruct (isinstance_Quantity elo && isinstance_Quantity ehi) eqn:H1;
    [|discriminate].
  destruct (isinstance_Angle olo && isinstance_Angle ohi) eqn:H2;
    [|discriminate].
  destruct (isinstance_Quantity ea && isinstance_Quantity ear) eqn:H3;
    [|discriminate].
  destruct olo as [?|qolo|?]; try discriminate.
  destruct ohi as [?|qohi|?]; try discriminate.
  repeat match type of H with
         | bind _ _ = Ok _ =>
             let a := fresh "a" in
             let Ha := fresh "Ha" in
             apply bind_Ok in H as (a & Ha & H)
         end.
  simpl in Ha1, Ha2. injection Ha1 as <-. injection Ha2 as <-.
  injection H as <-. simpl.
  eexists _, _, _, _, _, _, _, _. repeat split; eauto.
Qed.

(** The six stored arrays are in TeV, degree and m^2, whatever the
    units of the arguments. *)
Lemma init_stored_units (elo ehi olo ohi : PyObj (list R))
    (ea ear : PyObj (list (list R))) (t : instance) :
  __init__ sp elo ehi olo ohi ea ear = Ok t ->
  unit (energ_lo t) = TeV /\ unit (energ_hi t) = TeV /\
  unit (offset_lo t) = degree /\ unit (offset_hi t) = degree /\
  unit (eff_area t) = m2 /\ unit (eff_area_reco t) = m2.
Proof.
  intros H. apply init_inv in H
    as (qelo & qehi & qolo & qohi & qea & qear & sum & prod & _ & _ & _ & _
        & _ & _ & H1 & H2 & H3 & H4 & H5 & H6 & _).
  unfold to1, to2, to_with in *.
  repeat match goal with
         | H : (if ?b then _ else _) = Ok _ |- _ =>
             destruct b; [injection H as <- | discriminate]
         end.
  done.
Qed.

(** The two derived centre arrays carry the units of the arguments:
    the offsets that of [offset_hi], the energies the square root of
    the product of the two energy units. *)
Lemma init_center_units (elo ehi olo ohi : Quantity (list R))
    (ea ear : PyObj (list (list R))) (t : instance) :
  __init__ sp (PyQuantity elo) (PyQuantity ehi) (PyAngle olo) (PyAngle ohi)
           ea ear = Ok t ->
  unit (offset t) = unit ohi /\
  unit (energy t) = USqrt (UMul (unit elo) (unit ehi)).
Proof.
  intros H. apply init_inv in H
    as (qelo & qehi & qolo & qohi & qea & qear & sum & prod
        & He1 & He2 & Ho1 & Ho2 & _ & _ & _ & _ & _ & _ & _ & _
        & Hsum & -> & Hprod & -> & _).
  simpl in He1, He2. injection He1 as <-. injection He2 as <-.
  injection Ho1 as <-. injection Ho2 as <-.
  unfold q_add in Hsum. apply bind_Ok in Hsum as (b' & _ & Hsum).
  apply bind_Ok in Hsum as (vs & _ & Hsum). injection Hsum as <-.
  unfold q_mul in Hprod. apply bind_Ok in Hprod as (ws & _ & Hprod).
  injection Hprod as <-. done.
Qed.

End Construction.

(** ** Switching the interpolation method *)

(** C7.  [set_interpolation_method (name)] with [name] equal to
    ["linear"] or ["spline"] returns normally and changes only the
    method selector: the grids, the two area matrices and the two
    interpolants built by the constructor are the same objects as
    before.  With any other name it raises [NotImplementedError] and the
    whole state of the table, selector included, is as before. *)
Theorem set_interpolation_method_frame
    (self : OffsetDependentTableEffectiveArea.instance) (name : string) :
  let out := OffsetDependentTableEffectiveArea.set_interpolation_method
               self name in
  (name = "linear" \/ name = "spline" ->
   out.1 = Ok tt /\
   OffsetDependentTableEffectiveArea._interpolation_method out.2 = name /\
   OffsetDependentTableEffectiveArea.energ_lo out.2
     = OffsetDependentTableEffectiveArea.energ_lo self /\
   OffsetDependentTableEffectiveArea.energ_hi out.2
     = OffsetDependentTableEffectiveArea.energ_hi self /\
   OffsetDependentTableEffectiveArea.offset_lo out.2
     = OffsetDependentTableEffectiveArea.offset_lo self /\
   OffsetDependentTableEffectiveArea.offset_hi out.2
     = OffsetDependentTableEffectiveArea.offset_hi self /\
   OffsetDependentTableEffectiveArea.eff_area out.2
     = OffsetDependentTableEffectiveArea.eff_area self /\
   OffsetDependentTableEffectiveArea.eff_area_reco out.2
     = OffsetDependentTableEffectiveArea.eff_area_reco self /\
   OffsetDependentTableEffectiveArea.offset out.2
     = OffsetDependentTableEffectiveArea.offset self /\
   OffsetDependentTableEffectiveArea.energy out.2
     = OffsetDependentTableEffectiveArea.energy self /\
   OffsetDependentTableEffectiveArea._linear out.2
     = OffsetDependentTableEffectiveArea._linear self /\
   OffsetDependentTableEffectiveArea._spline out.2
     = OffsetDependentTableEffectiveArea._spline self) /\
  (name <> "linear" /\ name <> "spline" ->
   out = (Raise NotImplementedError, self)).
Proof.
  unfold OffsetDependentTableEffectiveArea.set_interpolation_method.
  split.
  - intros Hname.
    rewrite bool_decide_eq_true_2; simpl; [repeat split; done|].
    rewrite !elem_of_cons. tauto.
  - intros [Hl Hs].
    rewrite bool_decide_eq_false_2; simpl; [done|].
    rewrite !elem_of_cons, elem_of_nil. tauto.
Qed.

Lemma set_interpolation_method_frame_witness :
  exists t,
    scenario_table lookup_scipy = Ok t /\
    (OffsetDependentTableEffectiveArea.set_interpolation_method
       t "spline").1 = Ok tt /\
    OffsetDependentTableEffectiveArea._interpolation_method
      (OffsetDependentTableEffectiveArea.set_interpolation_method
         t "spline").2 = "spline" /\
    OffsetDependentTableEffectiveArea._linear
      (OffsetDependentTableEffectiveArea.set_interpolation_method
         t "spline").2 = OffsetDependentTableEffectiveArea._linear t /\
    OffsetDependentTableEffectiveArea.set_interpolation_method t "cubic"
    = (Raise NotImplementedError, t).
Proof.
  eexists. split; [reflexivity|].
  assert (Hn : "cubic" <> "linear" /\ "cubic" <> "spline")
    by (split; discriminate).
  lazymatch goal with
  | |- (OffsetDependentTableEffectiveArea.set_interpolation_method ?t _).1
       = _ /\ _ =>
      pose proof (proj1 (set_interpolation_method_frame t "spline")
                        (or_intror eq_refl)) as Hs;
      pose proof (proj2 (set_interpolation_method_frame t "cubic") Hn) as Hc
  end.
  destruct Hs as (H1 & H2 & _ & _ & _ & _ & _ & _ & _ & _ & H3 & _).
  split; [exact H1|]. split; [exact H2|]. split; [exact H3 | exact Hc].
Defined.

(** ** Nearest upper edge *)

(** The scan of [np.argmin]: [best] at index [best_i] is the first
    minimum of the part [pre] already seen. *)
Lemma argmin_from_spec (pre l : list R) (best_i : nat) (best : R) :
  pre !! best_i = Some best ->
  (forall k x, pre !! k = Some x ->
     (best <= x)%R /\ (k < best_i -> (best < x)%R)) ->
  exists m,
    (pre ++ l) !! argmin_from best_i best (length pre) l = Some m /\
    forall k x, (pre ++ l) !! k = Some x ->
      (m <= x)%R /\ (k < argmin_from best_i best (length pre) l -> (m < x)%R).
Proof.
  revert pre best_i best.
  induction l as [|y l IH]; intros pre best_i best Hbest Hmin; simpl.
  - rewrite app_nil_r. eauto.
  - replace (pre ++ y :: l) with ((pre ++ [y]) ++ l)
      by (by rewrite <- app_assoc).
    replace (S (length pre)) with (length (pre ++ [y]))
      by (rewrite length_app; simpl; lia).
    pose proof (lookup_lt_Some _ _ _ Hbest) as Hlt.
    case_bool_decide as Hy.
    + apply IH.
      * rewrite lookup_app_r by lia.
        by rewrite Nat.sub_diag.
      * intros k x Hk.
        apply lookup_app_Some in Hk as [Hk | [Hge Hk]].
        -- destruct (Hmin k x Hk) as [Hle _].
           pose proof (lookup_lt_Some _ _ _ Hk). split; [lra|]. intros _. lra.
        -- apply list_lookup_singleton_Some in Hk as [Hk <-].
           split; [lra|]. lia.
    + apply IH.
      * by apply lookup_app_l_Some.
      * intros k x Hk.
        apply lookup_app_Some in Hk as [Hk | [Hge Hk]].
        -- by apply Hmin.
        -- apply list_lookup_singleton_Some in Hk as [Hk <-].
           split; [lra|]. lia.
Qed.

Lemma argmin_spec (l : list R) :
  l <> [] ->
  exists i m,
    argmin l = Ok i /\ l !! i = Some m /\
    forall k x, l !! k = Some x -> (m <= x)%R /\ (k < i -> (m < x)%R).
Proof.
  destruct l as [|x l]; [done|]. intros _. simpl.
  destruct (argmin_from_spec [x] l 0 x) as (m & Hm & Hmin); [done| |].
  - intros [|k] y Hk; simpl in Hk; [|done].
    injection Hk as <-. split; [lra | lia].
  - exists (argmin_from 0 x 1 l), m. done.
Qed.

(** C8.  [effective_area_at_energy (energy)] returns the stored area of
    the bin whose upper edge is nearest to the query energy (the first
    such bin when several are equally near), with no interpolation: for
    a table with at least one bin and one area per bin, and a query of
    the dimension of an energy, the index [i] of the returned area
    minimises [|energy_hi[k] - energy|] over all bins [k].  In
    particular, for bins [(1,2)], [(2,4)] TeV with areas [10], [20] m^2
    the query 1.9 TeV returns 10 m^2. *)
Theorem effective_area_at_energy_nearest_upper_edge :
  (forall (self : TableEffectiveArea.instance) (energy : Quantity R),
     dim_eqb (dim (unit energy))
             (dim (unit (TableEffectiveArea.energy_hi self))) = true ->
     value (TableEffectiveArea.energy_hi self) <> [] ->
     length (value (TableEffectiveArea.effective_area self))
       = length (value (TableEffectiveArea.energy_hi self)) ->
     exists i hi a e,
       to0 energy (unit (TableEffectiveArea.energy_hi self)) = Ok e /\
       value (TableEffectiveArea.energy_hi self) !! i = Some hi /\
       value (TableEffectiveArea.effective_area self) !! i = Some a /\
       TableEffectiveArea.effective_area_at_energy self (PyQuantity energy)
         = Ok (mkQuantity a
                 (unit (TableEffectiveArea.effective_area self))) /\
       forall k hk,
         value (TableEffectiveArea.energy_hi self) !! k = Some hk ->
         (Rabs (hi - value e) <= Rabs (hk - value e))%R /\
         (k < i -> (Rabs (hi - value e) < Rabs (hk - value e))%R)) /\
  (exists t a,
     TableEffectiveArea.__init__
       (PyQuantity (mkQuantity [1; 2]%R TeV))
       (PyQuantity (mkQuantity [2; 4]%R TeV))
       (PyQuantity (mkQuantity [10; 20]%R m2)) None None = Ok t /\
     TableEffectiveArea.effective_area_at_energy t
       (PyQuantity (mkQuantity (19 / 10)%R TeV)) = Ok (mkQuantity a m2) /\
     a = 10%R).
Proof.
  split.
  - intros self energy Hdim Hne Hlen.
    destruct (to0 energy (unit (TableEffectiveArea.energy_hi self)))
      as [e|] eqn:He; [|unfold to0, to_with in He; by rewrite Hdim in He].
    unfold TableEffectiveArea.effective_area_at_energy.
    cbn [isinstance_Quantity as_quantity bind].
    unfold TableEffectiveArea.distances.
    rewrite He. cbn [bind].
    destruct (argmin_spec
                (map (fun hi => Rabs (hi - value e))
                     (value (TableEffectiveArea.energy_hi self))))
      as (i & m & Hi & Hm & Hmin).
    { by destruct (value (TableEffectiveArea.energy_hi self)). }
    rewrite Hi. cbn [bind].
    change (map ?f ?l) with (f <$> l) in Hm, Hmin.
    rewrite list_lookup_fmap in Hm.
    destruct (value (TableEffectiveArea.energy_hi self) !! i)
      as [hi|] eqn:Hhi; [|done].
    injection Hm as <-.
    destruct (lookup_lt_is_Some_2
                (value (TableEffectiveArea.effective_area self)) i)
      as [a Ha].
    { rewrite Hlen. by eapply lookup_lt_Some. }
    rewrite Ha. exists i, hi, a, e. repeat split; try done.
    + apply (Hmin k). by rewrite list_lookup_fmap, H.
    + apply (Hmin k). by rewrite list_lookup_fmap, H.
  - eexists _, _. split; [reflexivity|].
    unfold TableEffectiveArea.effective_area_at_energy,
      TableEffectiveArea.distances, to0, to_with, factor.
    simpl.
    rewrite bool_decide_eq_false_2; [split; [reflexivity | lra]|].
    unfold Rabs. repeat destruct Rcase_abs; lra.
Qed.

Lemma effective_area_at_energy_nearest_upper_edge_witness :
  exists i hi a e,
    to0 (mkQuantity (19 / 10)%R TeV) TeV = Ok e /\
    [2; 4]%R !! i = Some hi /\
    [10; 20]%R !! i = Some a /\
    TableEffectiveArea.effective_area_at_energy simple_table
      (PyQuantity (mkQuantity (19 / 10)%R TeV)) = Ok (mkQuantity a m2) /\
    forall k hk,
      [2; 4]%R !! k = Some hk ->
      (Rabs (hi - value e) <= Rabs (hk - value e))%R /\
      (k < i -> (Rabs (hi - value e) < Rabs (hk - value e))%R).
Proof.
  apply (proj1 effective_area_at_energy_nearest_upper_edge
               simple_table (mkQuantity (19 / 10)%R TeV));
    [reflexivity | discriminate | reflexivity].
Defined.

(** ** Units: conversions between a unit and itself *)

Lemma dim_eqb_refl (d : Dim) : dim_eqb d d = true.
Proof. unfold dim_eqb. by rewrite !Qeq_bool_refl. Qed.

Lemma scale_pos (u : Unit) : (0 < scale u)%R.
Proof.
  induction u; simpl; try lra;
    try (apply Rinv_0_lt_compat; lra).
  - apply Rdiv_lt_0_compat; [lra | apply PI_RGT_0].
  - by apply Rmult_lt_0_compat.
  - by apply sqrt_lt_R0.
Qed.

Lemma factor_same (u : Unit) : factor u u = 1%R.
Proof.
  unfold factor. pose proof (scale_pos u). field. lra.
Qed.

Lemma same_scale_factor (u v : Unit) : scale u = scale v -> factor u v = 1%R.
Proof.
  intros H. unfold factor. rewrite H. pose proof (scale_pos v). field. lra.
Qed.

Lemma map_scale_one (k : R) (l : list R) :
  k = 1%R -> map (fun x => (x * k)%R) l = l.
Proof.
  intros ->. induction l as [|x l IH]; simpl; [done|].
  rewrite IH. f_equal. lra.
Qed.

Lemma to1_same_unit (q : Quantity (list R)) :
  to1 q (unit q) = Ok q.
Proof.
  unfold to1, to_with. rewrite dim_eqb_refl, factor_same.
  rewrite map_scale_one by done. by destruct q.
Qed.

Lemma to0_same_unit (q : Quantity R) : to0 q (unit q) = Ok q.
Proof.
  unfold to0, to_with. rewrite dim_eqb_refl, factor_same.
  destruct q as [v u]. simpl. do 2 f_equal. lra.
Qed.

(** ** Counts spectra: the constructor *)

Section CountsSpectrumFacts.
Import CountsSpectrum.

Lemma cs_init_inv (c : list R) (e : EnergyBounds)
    (m : option (gmap string PyVal)) (s : instance) :
  __init__ c e m = Ok s ->
  Z.of_nat (length c) = nbins e /\
  counts s = c /\ energy_bounds s = e /\
  meta s = setdefault "backscal" default_backscal
             (setdefault "livetime" default_livetime (default ∅ m)) /\
  channels s = seqZ 1 (nbins e).
Proof.
  unfold __init__. case_bool_decide as Hsize; simpl; [discriminate|].
  intros [= <-]. simpl. repeat split; try done.
Qed.

Lemma cs_init_Ok (c : list R) (e : EnergyBounds)
    (m : option (gmap string PyVal)) :
  Z.of_nat (length c) = nbins e ->
  exists s, __init__ c e m = Ok s.
Proof.
  intros Hsize. unfold __init__.
  rewrite bool_decide_eq_false_2 by (intros H; by apply H).
  simpl. eauto.
Qed.

Lemma setdefaults_livetime (l : PyVal) :
  setdefault "backscal" default_backscal
    (setdefault "livetime" default_livetime {["livetime" := l]})
  = livetime_only l.
Proof.
  unfold setdefault at 2. rewrite lookup_singleton_eq.
  unfold setdefault. rewrite lookup_singleton_ne by done. done.
Qed.

Lemma setdefaults_empty :
  setdefault "backscal" default_backscal
    (setdefault "livetime" default_livetime ∅)
  = livetime_only default_livetime.
Proof.
  unfold setdefault at 2. rewrite lookup_empty.
  unfold setdefault. rewrite lookup_insert_ne by done.
  rewrite lookup_empty. done.
Qed.

Lemma setdefault_lookup (k k' : string) (v : PyVal) (m : gmap string PyVal) :
  setdefault k v m !! k' =
    if decide (k = k') then Some (default v (m !! k)) else m !! k'.
Proof.
  unfold setdefault. case_decide as Hk; subst.
  - destruct (m !! k') as [x|] eqn:Hl; simpl; [done|].
    by rewrite lookup_insert_eq.
  - destruct (m !! k); [done|]. by rewrite lookup_insert_ne.
Qed.

(** After construction the bag always has a live time. *)
Lemma cs_init_has_livetime c e m s :
  __init__ c e m = Ok s -> is_Some (meta s !! "livetime").
Proof.
  intros H. apply cs_init_inv in H as (_ & _ & _ & -> & _).
  rewrite !setdefault_lookup. simpl. eauto.
Qed.

Lemma livetime_only_lookup (l : PyVal) (k : string) :
  livetime_only l !! k =
    if decide (k = "backscal") then Some default_backscal
    else if decide (k = "livetime") then Some l
    else None.
Proof.
  unfold livetime_only. repeat case_decide; subst.
  - by rewrite lookup_insert_eq.
  - rewrite lookup_insert_ne by done. by rewrite lookup_singleton_eq.
  - rewrite lookup_insert_ne by done. by rewrite lookup_singleton_ne.
Qed.

End CountsSpectrumFacts.

(** ** Counts spectra from event lists *)

Lemma histogram_bins_length (xs edges : list R) :
  length (histogram_bins xs edges) = length edges - 1.
Proof.
  induction edges as [|lo [|hi rest] IH]; simpl in *; try done.
  rewrite IH. lia.
Qed.

(** C9.  [from_eventlist] returns a spectrum whose metadata are the
    constructor's defaults, so [meta.livetime] is 0 s: the live time of
    the event list is read into a local dict that is not handed to the
    constructor.  (First part: whatever the arguments, a returned
    spectrum has the default metadata.  Second part: for event energies
    of the dimension of the bin edges and non-decreasing, non-empty
    edges the method does return, with the histogram as counts.) *)
Theorem from_eventlist_livetime_is_default
    (event_list : CountsSpectrum.EventSource) (bins : EnergyBounds) :
  (forall s,
     CountsSpectrum.from_eventlist event_list bins = Ok s ->
     CountsSpectrum.meta s
       = livetime_only (VQuantity (mkQuantity 0%R second))) /\
  (forall el energy,
     CountsSpectrum.as_event_list event_list = Ok el ->
     to1 (CountsSpectrum.el_energy el) (unit bins) = Ok energy ->
     nondecreasing (value bins) = true ->
     value bins <> [] ->
     exists s,
       CountsSpectrum.from_eventlist event_list bins = Ok s /\
       CountsSpectrum.counts s = histogram_bins (value energy) (value bins) /\
       CountsSpectrum.energy_bounds s = bins /\
       CountsSpectrum.meta s !! "livetime"
         = Some (VQuantity (mkQuantity 0%R second))).
Proof.
  unfold CountsSpectrum.from_eventlist. split.
  - intros s H.
    apply bind_Ok in H as (el & _ & H).
    apply bind_Ok in H as (energy & _ & H).
    apply bind_Ok in H as (val & _ & H).
    apply cs_init_inv in H as (_ & _ & _ & -> & _).
    apply setdefaults_empty.
  - intros el energy Hel Hen Hmono Hne.
    rewrite Hel. cbn [bind]. rewrite Hen. cbn [bind].
    unfold histogram. rewrite Hmono. cbn [bind].
    destruct (cs_init_Ok (histogram_bins (value energy) (value bins))
                         bins None) as [s Hs].
    { rewrite histogram_bins_length. unfold nbins.
      destruct (value bins); [done | simpl; lia]. }
    exists s. split; [done|].
    apply cs_init_inv in Hs as (_ & -> & -> & -> & _).
    split; [done|]. split; [done|].
    simpl. rewrite setdefaults_empty.
    by rewrite livetime_only_lookup.
Qed.

Lemma from_eventlist_livetime_is_default_witness :
  exists s,
    CountsSpectrum.from_eventlist
      (CountsSpectrum.AnEventList three_events) two_bins = Ok s /\
    CountsSpectrum.counts s
      = histogram_bins [3 / 2; 3; 7 / 2]%R (value two_bins) /\
    CountsSpectrum.energy_bounds s = two_bins /\
    CountsSpectrum.meta s !! "livetime"
      = Some (VQuantity (mkQuantity 0%R second)).
Proof.
  apply (proj2 (from_eventlist_livetime_is_default
                  (CountsSpectrum.AnEventList three_events) two_bins)
               three_events (mkQuantity [3 / 2; 3; 7 / 2]%R TeV)).
  - reflexivity.
  - exact (to1_same_unit (mkQuantity [3 / 2; 3; 7 / 2]%R TeV)).
  - simpl. rewrite !bool_decide_eq_true_2 by lra. reflexivity.
  - discriminate.
Defined.

(** ** Counts spectra: addition and scaling *)

Section CountsSpectrumArithmetic.
Import CountsSpectrum.

Lemma add_inv (self other r : instance) :
  __add__ self other = Ok r ->
  exists mask cs l1 l2 l,
    q_ne (energy_bounds self) (energy_bounds other) = Ok mask /\
    all mask = false /\
    broadcast2 Rplus (counts self) (counts other) = Ok cs /\
    meta self !! "livetime" = Some l1 /\
    meta other !! "livetime" = Some l2 /\
    py_add l1 l2 = Ok l /\
    counts r = cs /\
    energy_bounds r = energy_bounds self /\
    meta r = livetime_only l.
Proof.
  unfold __add__, getattr. intros H.
  apply bind_Ok in H as (mask & Hmask & H).
  destruct (all mask) eqn:Hall; [discriminate|]. simpl in H.
  apply bind_Ok in H as (cs & Hcs & H).
  destruct (meta self !! "livetime") as [l1|]; [|discriminate].
  destruct (meta other !! "livetime") as [l2|]; [|discriminate].
  cbn [bind] in H.
  apply bind_Ok in H as (l & Hl & H).
  apply cs_init_inv in H as (_ & -> & -> & -> & _).
  exists mask, cs, l1, l2, l. simpl.
  rewrite setdefaults_livetime. done.
Qed.

Lemma mul_inv (self r : instance) (k : R) :
  __mul__ self k = Ok r ->
  exists l,
    meta self !! "livetime" = Some l /\
    counts r = map (fun c => (c * k)%R) (counts self) /\
    energy_bounds r = energy_bounds self /\
    meta r = livetime_only l.
Proof.
  unfold __mul__, getattr. intros H.
  destruct (meta self !! "livetime") as [l|]; [|discriminate].
  cbn [bind] in H.
  apply cs_init_inv in H as (_ & -> & -> & -> & _).
  exists l. simpl. rewrite setdefaults_livetime. done.
Qed.

(** Scaling a constructed spectrum never fails. *)
Lemma mul_Ok (c : list R) (e : EnergyBounds) (m : option (gmap string PyVal))
    (self : instance) (k : R) :
  __init__ c e m = Ok self -> exists r, __mul__ self k = Ok r.
Proof.
  intros H. destruct (cs_init_has_livetime _ _ _ _ H) as [l Hl].
  apply cs_init_inv in H as (Hsize & Hc & He & _).
  unfold __mul__, getattr. rewrite Hl. cbn [bind].
  apply cs_init_Ok. rewrite length_map, Hc, He. done.
Qed.

(** Comparing a binning with itself gives an all-[False] mask. *)
Lemma q_ne_same (e : EnergyBounds) :
  q_ne e e = Ok (map (fun _ => false) (value e)).
Proof.
  unfold q_ne. rewrite to1_same_unit. cbn [bind].
  rewrite broadcast2_same_length by done. f_equal.
  induction (value e) as [|x l IH]; simpl; [done|].
  rewrite IH, bool_decide_eq_true_2; done.
Qed.

Lemma all_false_nonempty {A} (l : list A) :
  l <> [] -> all (map (fun _ => false) l) = false.
Proof. by destruct l. Qed.

(** Adding two spectra over the same binning: bin-wise sums and the sum
    of the live times. *)
Lemma add_identical_binning (c1 c2 : list R) (e : EnergyBounds)
    (m1 m2 : option (gmap string PyVal)) (s1 s2 : instance) (l1 l2 l : PyVal) :
  __init__ c1 e m1 = Ok s1 ->
  __init__ c2 e m2 = Ok s2 ->
  meta s1 !! "livetime" = Some l1 ->
  meta s2 !! "livetime" = Some l2 ->
  py_add l1 l2 = Ok l ->
  exists r,
    __add__ s1 s2 = Ok r /\
    counts r = zip_with Rplus c1 c2 /\
    energy_bounds r = e /\
    meta r = livetime_only l.
Proof.
  intros H1 H2 Hl1 Hl2 Hl.
  apply cs_init_inv in H1 as (Hs1 & Hc1 & He1 & _).
  apply cs_init_inv in H2 as (Hs2 & Hc2 & He2 & _).
  assert (Hne : value e <> []).
  { intros He. unfold nbins in Hs1. rewrite He in Hs1. simpl in Hs1. lia. }
  assert (Hlen : length c1 = length c2) by lia.
  unfold __add__, getattr.
  rewrite He1, He2, q_ne_same. cbn [bind].
  rewrite all_false_nonempty by done. cbn [negb].
  rewrite Hc1, Hc2, broadcast2_same_length by done. cbn [bind].
  rewrite Hl1, Hl2. cbn [bind]. rewrite Hl. cbn [bind].
  destruct (cs_init_Ok (zip_with Rplus c1 c2) e
              (Some ({["livetime" := l]} : gmap string PyVal))) as [r Hr].
  { rewrite length_zip_with. lia. }
  exists r. split; [done|].
  apply cs_init_inv in Hr as (_ & -> & -> & -> & _).
  simpl. by rewrite setdefaults_livetime.
Qed.

End CountsSpectrumArithmetic.

(** C10.  Addition and scalar multiplication return a spectrum whose
    metadata bag holds the live time (the sum of the operands' live
    times, respectively the live time of the operand) and the freshly
    applied default [backscal = 1], and nothing else: every other key of
    the operands ([obs_id], [offset], [zenith], [energy_range], a
    different [backscal], ...) is gone.  Scaling a constructed spectrum
    always returns; adding two spectra constructed over the same binning
    returns whenever their live times can be added. *)
Theorem arithmetic_keeps_only_livetime :
  (forall self other r,
     CountsSpectrum.__add__ self other = Ok r ->
     exists l1 l2 l,
       CountsSpectrum.meta self !! "livetime" = Some l1 /\
       CountsSpectrum.meta other !! "livetime" = Some l2 /\
       py_add l1 l2 = Ok l /\
       CountsSpectrum.meta r
         = <["backscal" := VNum 1%R]> {["livetime" := l]}) /\
  (forall self k r,
     CountsSpectrum.__mul__ self k = Ok r ->
     exists l,
       CountsSpectrum.meta self !! "livetime" = Some l /\
       CountsSpectrum.meta r
         = <["backscal" := VNum 1%R]> {["livetime" := l]}) /\
  (forall c e m self k,
     CountsSpectrum.__init__ c e m = Ok self ->
     exists r, CountsSpectrum.__mul__ self k = Ok r) /\
  (forall c1 c2 e m1 m2 s1 s2 l1 l2 l,
     CountsSpectrum.__init__ c1 e m1 = Ok s1 ->
     CountsSpectrum.__init__ c2 e m2 = Ok s2 ->
     CountsSpectrum.meta s1 !! "livetime" = Some l1 ->
     CountsSpectrum.meta s2 !! "livetime" = Some l2 ->
     py_add l1 l2 = Ok l ->
     exists r, CountsSpectrum.__add__ s1 s2 = Ok r).
Proof.
  repeat split.
  - intros self other r H.
    apply add_inv in H
      as (mask & cs & l1 & l2 & l & _ & _ & _ & H1 & H2 & Hl & _ & _ & Hm).
    exists l1, l2, l. done.
  - intros self k r H.
    apply mul_inv in H as (l & Hl & _ & _ & Hm). exists l. done.
  - intros c e m self k H. by eapply mul_Ok.
  - intros c1 c2 e m1 m2 s1 s2 l1 l2 l H1 H2 Hl1 Hl2 Hl.
    destruct (add_identical_binning _ _ _ _ _ _ _ _ _ _ H1 H2 Hl1 Hl2 Hl)
      as (r & Hr & _).
    eauto.
Qed.

Lemma arithmetic_keeps_only_livetime_witness :
  exists self r,
    CountsSpectrum.__init__ [6; 3]%R two_bins (Some rich_meta) = Ok self /\
    CountsSpectrum.meta self !! "obs_id" = Some (VNum 23523%R) /\
    CountsSpectrum.meta self !! "backscal" = Some (VNum (/ 2)%R) /\
    CountsSpectrum.__mul__ self 2%R = Ok r /\
    CountsSpectrum.meta r
      = <["backscal" := VNum 1%R]>
          {["livetime" := VQuantity (mkQuantity 1800%R second)]}.
Proof.
  eexists.
  destruct (proj1 (proj2 (proj2 arithmetic_keeps_only_livetime))
              [6; 3]%R two_bins (Some rich_meta) _ 2%R eq_refl) as [r Hr].
  exists r. split; [reflexivity|].
  split; [reflexivity|]. split; [reflexivity|]. split; [exact Hr|].
  destruct (proj1 (proj2 arithmetic_keeps_only_livetime) _ _ _ Hr)
    as (l & Hl & ->).
  simpl in Hl. injection Hl as <-. reflexivity.
Defined.

(** ** Counts spectra: the binning test of [__add__] *)

(** The scenario of the specification: identical binning. *)
Lemma add_scenario :
  exists s1 s2 r v,
    CountsSpectrum.__init__ [6; 3; 8; 4; 9; 5; 9; 5; 5; 1]%R ten_bins None
      = Ok s1 /\
    CountsSpectrum.__init__ [1; 1; 1; 1; 1; 1; 1; 1; 1; 1]%R ten_bins None
      = Ok s2 /\
    CountsSpectrum.__add__ s1 s2 = Ok r /\
    CountsSpectrum.counts r = [7; 4; 9; 5; 10; 6; 10; 6; 6; 2]%R /\
    CountsSpectrum.energy_bounds r = ten_bins /\
    CountsSpectrum.meta r !! "livetime"
      = Some (VQuantity (mkQuantity v second)) /\
    v = (0 + 0)%R.
Proof.
  eexists _, _.
  destruct (add_identical_binning
              [6; 3; 8; 4; 9; 5; 9; 5; 5; 1]%R
              [1; 1; 1; 1; 1; 1; 1; 1; 1; 1]%R ten_bins None None _ _
              CountsSpectrum.default_livetime CountsSpectrum.default_livetime
              (VQuantity (mkQuantity (0 + 0)%R second))
              eq_refl eq_refl eq_refl eq_refl) as (r & Hr & Hc & He & Hm).
  { unfold py_add, CountsSpectrum.default_livetime, q_add0.
    rewrite to0_same_unit. reflexivity. }
  exists r, (0 + 0)%R.
  split; [reflexivity|]. split; [reflexivity|]. split; [exact Hr|].
  split; [|split; [exact He|]].
  - rewrite Hc. simpl. repeat (f_equal; try lra).
  - rewrite Hm, livetime_only_lookup. simpl. done.
Qed.

(** Binnings of the same length that differ in every edge are
    refused. *)
Lemma add_all_edges_differ (self other : CountsSpectrum.instance)
    (o : Quantity (list R)) :
  to1 (CountsSpectrum.energy_bounds other)
      (unit (CountsSpectrum.energy_bounds self)) = Ok o ->
  Forall2 (fun x y => x <> y)
          (value (CountsSpectrum.energy_bounds self)) (value o) ->
  CountsSpectrum.__add__ self other = Raise ValueError.
Proof.
  intros Ho Hall. unfold CountsSpectrum.__add__, q_ne.
  rewrite Ho. cbn [bind].
  rewrite broadcast2_same_length by (by eapply Forall2_length).
  cbn [bind].
  assert (all (zip_with (fun x y => negb (bool_decide (x = y)))
                 (value (CountsSpectrum.energy_bounds self)) (value o))
          = true) as ->; [|done].
  induction Hall as [|x y xs ys Hxy _ IH]; simpl; [done|].
  by rewrite bool_decide_eq_false_2, IH.
Qed.

(** C3 (the code at the failing input).  Two spectra whose binnings
    differ only in the last edge are added without any error: the test
    [(a != b).all ()] asks for every edge to differ.  The result carries
    the binning of the left operand. *)
Theorem add_accepts_partly_different_binning :
  exists s1 s2 r,
    CountsSpectrum.__init__ [1; 1]%R bins_1_2_3 None = Ok s1 /\
    CountsSpectrum.__init__ [2; 2]%R bins_1_2_4 None = Ok s2 /\
    CountsSpectrum.energy_bounds s1 <> CountsSpectrum.energy_bounds s2 /\
    CountsSpectrum.__add__ s1 s2 = Ok r /\
    CountsSpectrum.counts r = [1 + 2; 1 + 2]%R /\
    CountsSpectrum.energy_bounds r = bins_1_2_3.
Proof.
  eexists _, _, _.
  split; [reflexivity|]. split; [reflexivity|]. split.
  { simpl. unfold bins_1_2_3, bins_1_2_4. intros [= H]. lra. }
  unfold CountsSpectrum.__add__, q_ne, to1, to_with, factor. simpl.
  rewrite (bool_decide_eq_true_2 (1 = 1 * (1 / 1))%R) by lra.
  simpl. split; [reflexivity|]. split; reflexivity.
Qed.

(** ** Evaluation: the two branches *)

Section Evaluation.
Import OffsetDependentTableEffectiveArea.

Lemma evaluate_linear (t : instance) (o e : Quantity (Arg R)) :
  _interpolation_method t = "linear" ->
  dim_eqb (dim (unit o)) dim_angle = true ->
  dim_eqb (dim (unit e)) dim_energy = true ->
  evaluate t (PyAngle o) (PyQuantity e) =
    (val <- linear_call (_linear t) (query_x o) (query_y e) ;;
     Ok (mkQuantity val (unit (eff_area t)))).
Proof.
  intros Hm Ho He. unfold evaluate, toA, to_with. simpl.
  rewrite Ho, He, Hm. reflexivity.
Qed.

Lemma evaluate_spline (t : instance) (o e : Quantity (Arg R)) :
  _interpolation_method t = "spline" ->
  dim_eqb (dim (unit o)) dim_angle = true ->
  dim_eqb (dim (unit e)) dim_energy = true ->
  evaluate t (PyAngle o) (PyQuantity e) =
    (m <- spline_call (_spline t) (query_x o) (query_y e) ;;
     Ok (mkQuantity (squeeze m) (unit (eff_area t)))).
Proof.
  intros Hm Ho He. unfold evaluate, toA, to_with. simpl.
  rewrite Ho, He, Hm. simpl.
  destruct (spline_call _ _ _); reflexivity.
Qed.

(** An unknown selector makes [evaluate] raise. *)
Lemma evaluate_unknown_method (t : instance) (o e : Quantity (Arg R)) :
  _interpolation_method t <> "linear" ->
  _interpolation_method t <> "spline" ->
  dim_eqb (dim (unit o)) dim_angle = true ->
  dim_eqb (dim (unit e)) dim_energy = true ->
  evaluate t (PyAngle o) (PyQuantity e) = Raise NotImplementedError.
Proof.
  intros Hl Hs Ho He. unfold evaluate, toA, to_with. simpl.
  rewrite Ho, He. simpl.
  destruct (decide _); [done|]. destruct (decide _); done.
Qed.

End Evaluation.

(** ** Logarithms *)

Lemma ln_10_pos : (0 < ln 10)%R.
Proof. rewrite <- ln_1. apply ln_increasing; lra. Qed.

Lemma log10_increasing (x y : R) :
  (0 < x)%R -> (x < y)%R -> (log10 x < log10 y)%R.
Proof.
  intros Hx Hxy. unfold log10.
  apply Rmult_lt_compat_r; [apply Rinv_0_lt_compat, ln_10_pos|].
  by apply ln_increasing.
Qed.

Lemma log10_inj (x y : R) :
  (0 < x)%R -> (0 < y)%R -> log10 x = log10 y -> x = y.
Proof.
  intros Hx Hy H. apply ln_inv; try done.
  unfold log10 in H. pose proof ln_10_pos.
  apply (Rmult_eq_reg_r (/ ln 10)); [done|].
  apply Rinv_neq_0_compat. lra.
Qed.

(** ** Points of the cross product *)

Lemma coord_Forall_fst (P : R -> Prop) (x y : list R) :
  Forall P x ->
  Forall (fun p => P (fst p)) (OffsetDependentTableEffectiveArea.coord x y).
Proof.
  induction 1 as [|a x Ha _ IH]; [constructor|].
  rewrite coord_cons. apply Forall_app. split; [|done].
  clear -Ha. induction y; simpl; constructor; done.
Qed.

Lemma coord_NoDup (x y : list R) :
  NoDup x -> NoDup y -> NoDup (OffsetDependentTableEffectiveArea.coord x y).
Proof.
  intros Hx Hy. induction Hx as [|a x Ha Hx IH]; [constructor|].
  rewrite coord_cons. apply NoDup_app. repeat split; [| |done].
  - change (map (pair a) y) with (pair a <$> y).
    apply NoDup_fmap_2; [|done]. intros ?? [= ->]. done.
  - intros [a' b] Hin1 Hin2.
    change (map (pair a) y) with (pair a <$> y) in Hin1.
    apply list_elem_of_fmap in Hin1 as (b' & [= -> ->] & _).
    apply Ha. clear -Hin2.
    induction x as [|c x IH]; [by apply elem_of_nil in Hin2|].
    rewrite coord_cons in Hin2. apply elem_of_app in Hin2 as [Hin|Hin].
    + change (map (pair c) y) with (pair c <$> y) in Hin.
      apply list_elem_of_fmap in Hin as (b'' & [= -> ->] & _). by left.
    + right. by apply IH.
Qed.

(** ** Queries outside the triangulated points *)

(** The hull is convex. *)
Lemma total_mix (k : R) (ws1 ws2 : list R) :
  length ws1 = length ws2 ->
  total (zip_with (fun u v => (k * u + (1 - k) * v)%R) ws1 ws2)
  = (k * total ws1 + (1 - k) * total ws2)%R.
Proof.
  revert ws2. induction ws1 as [|u ws1 IH]; intros [|v ws2] Hlen;
    simpl in *; try discriminate; [lra|].
  rewrite IH by lia. lra.
Qed.

Lemma comb_mix (k : R) (ws1 ws2 xs : list R) :
  length ws1 = length xs -> length ws2 = length xs ->
  comb (zip_with (fun u v => (k * u + (1 - k) * v)%R) ws1 ws2) xs
  = (k * comb ws1 xs + (1 - k) * comb ws2 xs)%R.
Proof.
  revert ws2 xs. induction ws1 as [|u ws1 IH]; intros [|v ws2] [|x xs] H1 H2;
    simpl in *; try discriminate; [lra|].
  rewrite IH by lia. lra.
Qed.

Lemma in_hull_convex (pts : list (R * R)) (p q r : R * R) (k : R) :
  in_hull pts p -> in_hull pts q ->
  (0 <= k)%R -> (k <= 1)%R ->
  fst r = (k * fst p + (1 - k) * fst q)%R ->
  snd r = (k * snd p + (1 - k) * snd q)%R ->
  in_hull pts r.
Proof.
  intros (ws1 & Hl1 & Hp1 & Ht1 & Hx1 & Hy1)
         (ws2 & Hl2 & Hp2 & Ht2 & Hx2 & Hy2) Hk0 Hk1 Hfst Hsnd.
  exists (zip_with (fun u v => (k * u + (1 - k) * v)%R) ws1 ws2).
  split; [rewrite length_zip_with; lia|].
  split.
  { clear -Hp1 Hp2 Hk0 Hk1. revert ws2 Hp2.
    induction Hp1 as [|u ws1 Hu _ IH]; intros ws2 Hp2; [constructor|].
    destruct Hp2 as [|v ws2 Hv Hp2]; simpl; constructor; [nra | auto]. }
  split; [rewrite total_mix by lia; rewrite Ht1, Ht2; lra|].
  split.
  - rewrite comb_mix by (rewrite length_map; lia).
    rewrite Hx1, Hx2. done.
  - rewrite comb_mix by (rewrite length_map; lia).
    rewrite Hy1, Hy2. done.
Qed.

Lemma segment_weight (lo hi v : R) :
  (lo <= v)%R -> (v <= hi)%R ->
  exists k, (0 <= k)%R /\ (k <= 1)%R /\ v = (k * lo + (1 - k) * hi)%R.
Proof.
  intros H1 H2. destruct (Req_dec lo hi) as [->|Hne].
  - exists 1%R. repeat split; lra.
  - assert (Hpos : (0 < hi - lo)%R) by lra.
    exists ((hi - v) / (hi - lo))%R. repeat split.
    + unfold Rdiv. apply Rmult_le_pos; [lra|].
      left. apply Rinv_0_lt_compat. lra.
    + apply (Rmult_le_reg_r (hi - lo)); [done|].
      unfold Rdiv. rewrite Rmult_assoc, Rinv_l by lra. lra.
    + field. lra.
Qed.

(** The rectangle spanned by the ends of the two axes lies in the hull
    of the cross product. *)
Lemma in_box_in_hull (x y : list R) (x0 x1 y0 y1 a b : R) :
  head x = Some x0 -> last x = Some x1 ->
  head y = Some y0 -> last y = Some y1 ->
  (x0 <= a)%R -> (a <= x1)%R -> (y0 <= b)%R -> (b <= y1)%R ->
  in_hull (OffsetDependentTableEffectiveArea.coord x y) (a, b).
Proof.
  intros Hx0 Hx1 Hy0 Hy1 Ha0 Ha1 Hb0 Hb1.
  rewrite head_lookup in Hx0, Hy0. rewrite last_lookup in Hx1, Hy1.
  assert (H00 := in_hull_data _ _ _ (coord_lookup x y _ _ _ _ Hx0 Hy0)).
  assert (H01 := in_hull_data _ _ _ (coord_lookup x y _ _ _ _ Hx0 Hy1)).
  assert (H10 := in_hull_data _ _ _ (coord_lookup x y _ _ _ _ Hx1 Hy0)).
  assert (H11 := in_hull_data _ _ _ (coord_lookup x y _ _ _ _ Hx1 Hy1)).
  destruct (segment_weight x0 x1 a Ha0 Ha1) as (k & Hk0 & Hk1 & Hk).
  destruct (segment_weight y0 y1 b Hb0 Hb1) as (m & Hm0 & Hm1 & Hm).
  assert (Hlow : in_hull (OffsetDependentTableEffectiveArea.coord x y)
                         (a, y0)).
  { apply (in_hull_convex _ (x0, y0) (x1, y0) _ k); simpl; try done. lra. }
  assert (Hupp : in_hull (OffsetDependentTableEffectiveArea.coord x y)
                         (a, y1)).
  { apply (in_hull_convex _ (x0, y1) (x1, y1) _ k); simpl; try done. lra. }
  apply (in_hull_convex _ (a, y0) (a, y1) _ m); simpl; try done. lra.
Qed.

Section Spline.
Import OffsetDependentTableEffectiveArea.

(** The spline method on two scalars. *)
Lemma evaluate_spline_scalar (t : instance) (o e : R) (uo ue : Unit) :
  _interpolation_method t = "spline" ->
  dim_eqb (dim uo) dim_angle = true ->
  dim_eqb (dim ue) dim_energy = true ->
  evaluate t (PyAngle (mkQuantity (Scalar o) uo))
             (PyQuantity (mkQuantity (Scalar e) ue))
  = Ok (mkQuantity
          (A0 (Fin (_spline t (o * factor uo degree)%R
                              (log10 (e * factor ue TeV)))))
          (unit (eff_area t))).
Proof.
  intros Hm Ho He. rewrite evaluate_spline by done. reflexivity.
Qed.

Context (sp : Scipy) (Hspline : SplineLaws sp).

(** The axes of the spline of a constructed table have ends, and the
    spline takes an argument outside their spans to the nearer end. *)
Lemma init_spline_clamps (elo ehi olo ohi : PyObj (list R))
    (ea ear : PyObj (list (list R))) (t : instance) :
  __init__ sp elo ehi olo ohi ea ear = Ok t ->
  exists x0 x1 y0 y1,
    head (value (offset t)) = Some x0 /\
    last (value (offset t)) = Some x1 /\
    head (map log10 (value (energy t))) = Some y0 /\
    last (map log10 (value (energy t))) = Some y1 /\
    forall a b,
      _spline t a b = _spline t (clamp x0 x1 a) (clamp y0 y1 b).
Proof.
  intros Hinit. apply init_inv in Hinit
    as (qelo & qehi & qolo & qohi & qea & qear & sum & prod
        & _ & _ & _ & _ & _ & _ & _ & _ & _ & _ & _ & _ & _ & _ & _ & _
        & _ & Hspl & _).
  unfold _prepare_spline_interpolator in Hspl.
  destruct (spline_order sp Hspline _ _ _ _ Hspl) as [Hnx Hny].
  destruct (value (offset t)) as [|x0 xs] eqn:Ex; [simpl in Hnx; lia|].
  destruct (map log10 (value (energy t))) as [|y0 ys] eqn:Ey;
    [simpl in Hny; lia|].
  destruct (last (x0 :: xs)) as [x1|] eqn:Hx1;
    [|by apply last_None in Hx1].
  destruct (last (y0 :: ys)) as [y1|] eqn:Hy1;
    [|by apply last_None in Hy1].
  exists x0, x1, y0, y1. repeat split; try done.
  intros a b.
  by apply (spline_clamps sp Hspline _ _ _ _ _ _ _ _ a b Hspl).
Qed.

(** A table is only built over at least four offset bins and four
    energy bins: with fewer the spline, and so the constructor,
    raises. *)
Lemma init_needs_four_bins (elo ehi olo ohi : PyObj (list R))
    (ea ear : PyObj (list (list R))) (t : instance) :
  __init__ sp elo ehi olo ohi ea ear = Ok t ->
  4 <= length (value (offset t)) /\ 4 <= length (value (energy t)).
Proof.
  intros Hinit. apply init_inv in Hinit
    as (qelo & qehi & qolo & qohi & qea & qear & sum & prod
        & _ & _ & _ & _ & _ & _ & _ & _ & _ & _ & _ & _ & _ & _ & _ & _
        & _ & Hspl & _).
  unfold _prepare_spline_interpolator in Hspl.
  destruct (spline_order sp Hspline _ _ _ _ Hspl) as [Hnx Hny].
  by rewrite length_map in Hny.
Qed.

(** Over strictly increasing axes the spline of a constructed table
    takes the stored area at each node. *)
Lemma init_spline_at_node (elo ehi olo ohi : PyObj (list R))
    (ea ear : PyObj (list (list R))) (t : instance)
    (i j : nat) (oc lec a : R) (row : list R) :
  __init__ sp elo ehi olo ohi ea ear = Ok t ->
  increasing (value (offset t)) ->
  increasing (map log10 (value (energy t))) ->
  value (offset t) !! i = Some oc ->
  map log10 (value (energy t)) !! j = Some lec ->
  value (eff_area t) !! i = Some row ->
  row !! j = Some a ->
  _spline t oc lec = a.
Proof.
  intros Hinit Hx Hy Hoc Hec Hrow Ha. apply init_inv in Hinit
    as (qelo & qehi & qolo & qohi & qea & qear & sum & prod
        & _ & _ & _ & _ & _ & _ & _ & _ & _ & _ & _ & _ & _ & _ & _ & _
        & _ & Hspl & _).
  unfold _prepare_spline_interpolator in Hspl.
  by apply (spline_at_data sp Hspline _ _ _ _ i j oc lec row a Hspl).
Qed.

(** The spline method on a constructed table, for any scalar query:
    the value of the spline at the query moved into the rectangle of
    the grid. *)
Lemma evaluate_spline_clamped (elo ehi olo ohi : PyObj (list R))
    (ea ear : PyObj (list (list R))) (t : instance)
    (o e : R) (uo ue : Unit) (x0 x1 y0 y1 : R) :
  __init__ sp elo ehi olo ohi ea ear = Ok t ->
  dim_eqb (dim uo) dim_angle = true ->
  dim_eqb (dim ue) dim_energy = true ->
  head (value (offset t)) = Some x0 ->
  last (value (offset t)) = Some x1 ->
  head (map log10 (value (energy t))) = Some y0 ->
  last (map log10 (value (energy t))) = Some y1 ->
  evaluate (set_interpolation_method t "spline").2
    (PyAngle (mkQuantity (Scalar o) uo))
    (PyQuantity (mkQuantity (Scalar e) ue))
  = Ok (mkQuantity
          (A0 (Fin (_spline t (clamp x0 x1 (o * factor uo degree))
                              (clamp y0 y1 (log10 (e * factor ue TeV))))))
          m2).
Proof.
  intros Hinit Ho He Hx0 Hx1 Hy0 Hy1.
  destruct (init_stored_units sp _ _ _ _ _ _ _ Hinit)
    as (_ & _ & _ & _ & Hu & _).
  destruct (init_spline_clamps _ _ _ _ _ _ _ Hinit)
    as (x0' & x1' & y0' & y1' & Hx0' & Hx1' & Hy0' & Hy1' & Hclamp).
  rewrite Hx0 in Hx0'. rewrite Hx1 in Hx1'.
  rewrite Hy0 in Hy0'. rewrite Hy1 in Hy1'.
  injection Hx0' as <-. injection Hx1' as <-.
  injection Hy0' as <-. injection Hy1' as <-.
  rewrite evaluate_spline_scalar by done.
  assert (Hs : _spline (set_interpolation_method t "spline").2 = _spline t)
    by reflexivity.
  assert (Ha : eff_area (set_interpolation_method t "spline").2 = eff_area t)
    by reflexivity.
  rewrite Hs, Ha, Hu. by rewrite <- Hclamp.
Qed.

End Spline.

(** C5, amended.  For a query point [(offset, energy)] that lies
    outside the convex hull of the points of the linear interpolant,
    [evaluate] with the linear method returns normally, and what it
    returns is the undefined value [nan] tagged with the area unit: no
    exception, no boundary value.  With the spline method the same
    query returns a finite value, and this value is not extrapolated:
    it is the value of the spline at another point, the query moved
    into the rectangle of the grid (each coordinate outside the span of
    its axis is put on the nearer end of the span).  Where that point is
    a node of the grid, as it is beyond a corner, the result is the
    stored area of the node. *)
Theorem evaluate_outside_hull (sp : Scipy)
    (elo ehi olo ohi : PyObj (list R)) (ea ear : PyObj (list (list R)))
    (t : OffsetDependentTableEffectiveArea.instance)
    (o e : R) (uo ue : Unit) :
  ScipyLaws sp -> SplineLaws sp ->
  OffsetDependentTableEffectiveArea.__init__ sp elo ehi olo ohi ea ear
    = Ok t ->
  dim_eqb (dim uo) dim_angle = true ->
  dim_eqb (dim ue) dim_energy = true ->
  (0 < e)%R ->
  increasing (value (OffsetDependentTableEffectiveArea.offset t)) ->
  increasing (map log10 (value (OffsetDependentTableEffectiveArea.energy t))) ->
  ~ in_hull
      (OffsetDependentTableEffectiveArea.coord
         (value (OffsetDependentTableEffectiveArea.offset t))
         (map log10 (value (OffsetDependentTableEffectiveArea.energy t))))
      ((o * factor uo degree)%R, log10 (e * factor ue TeV)) ->
  OffsetDependentTableEffectiveArea.evaluate t
    (PyAngle (mkQuantity (Scalar o) uo))
    (PyQuantity (mkQuantity (Scalar e) ue))
  = Ok (mkQuantity (A0 NaN) m2) /\
  exists x0 x1 y0 y1 : R,
    head (value (OffsetDependentTableEffectiveArea.offset t)) = Some x0 /\
    last (value (OffsetDependentTableEffectiveArea.offset t)) = Some x1 /\
    head (map log10 (value (OffsetDependentTableEffectiveArea.energy t)))
      = Some y0 /\
    last (map log10 (value (OffsetDependentTableEffectiveArea.energy t)))
      = Some y1 /\
    let co := clamp x0 x1 (o * factor uo degree) in
    let ce := clamp y0 y1 (log10 (e * factor ue TeV)) in
    (co, ce) <> ((o * factor uo degree)%R, log10 (e * factor ue TeV)) /\
    OffsetDependentTableEffectiveArea.evaluate
      (OffsetDependentTableEffectiveArea.set_interpolation_method
         t "spline").2
      (PyAngle (mkQuantity (Scalar o) uo))
      (PyQuantity (mkQuantity (Scalar e) ue))
    = Ok (mkQuantity
            (A0 (Fin (OffsetDependentTableEffectiveArea._spline t co ce)))
            m2) /\
    forall i j row a,
      value (OffsetDependentTableEffectiveArea.offset t) !! i = Some co ->
      map log10 (value (OffsetDependentTableEffectiveArea.energy t)) !! j
        = Some ce ->
      value (OffsetDependentTableEffectiveArea.eff_area t) !! i = Some row ->
      row !! j = Some a ->
      OffsetDependentTableEffectiveArea.evaluate
        (OffsetDependentTableEffectiveArea.set_interpolation_method
           t "spline").2
        (PyAngle (mkQuantity (Scalar o) uo))
        (PyQuantity (mkQuantity (Scalar e) ue))
      = Ok (mkQuantity (A0 (Fin a)) m2).
Proof.
  intros Hlaws Hspline Hinit Ho He _ Hincx Hincy Hout.
  destruct (init_stored_units sp _ _ _ _ _ _ _ Hinit)
    as (_ & _ & _ & _ & Hu & _).
  split.
  - apply init_inv in Hinit
      as (qelo & qehi & qolo & qohi & qea & qear & sum & prod
          & _ & _ & _ & _ & _ & _ & _ & _ & _ & _ & _ & _ & _ & _ & _ & _
          & Hlin & _ & Hm).
    rewrite evaluate_linear by done. simpl. rewrite Hu.
    unfold OffsetDependentTableEffectiveArea._prepare_linear_interpolator
      in Hlin.
    by rewrite (linear_outside_hull sp Hlaws _ _ _ _ Hlin Hout).
  - destruct (init_spline_clamps sp Hspline _ _ _ _ _ _ _ Hinit)
      as (x0 & x1 & y0 & y1 & Hx0 & Hx1 & Hy0 & Hy1 & _).
    exists x0, x1, y0, y1. repeat (split; [done|]).
    pose proof (evaluate_spline_clamped sp Hspline _ _ _ _ _ _ t o e uo ue
                  x0 x1 y0 y1 Hinit Ho He Hx0 Hx1 Hy0 Hy1) as Heval.
    cbv zeta. split; [|split; [exact Heval|]].
    + intros [= Hco Hce]. apply Hout.
      assert (Hx01 : (x0 <= x1)%R).
      { pose proof Hx1 as Hl. rewrite last_lookup in Hl.
        by destruct (increasing_span _ _ _ _ _ Hincx Hl Hx0 Hx1). }
      assert (Hy01 : (y0 <= y1)%R).
      { pose proof Hy1 as Hl. rewrite last_lookup in Hl.
        by destruct (increasing_span _ _ _ _ _ Hincy Hl Hy0 Hy1). }
      destruct (clamp_fixed _ _ _ Hx01 Hco).
      destruct (clamp_fixed _ _ _ Hy01 Hce).
      by apply (in_box_in_hull _ _ x0 x1 y0 y1).
    + intros i j row a Hi Hj Hrow Ha. rewrite Heval.
      by rewrite (init_spline_at_node sp Hspline _ _ _ _ _ _ t i j _ _ a row
                    Hinit Hincx Hincy Hi Hj Hrow Ha).
Qed.

(** ** The scenario beyond a corner of its grid *)

Lemma increasing_nil : increasing [].
Proof. intros i j a b Hi. done. Qed.

Lemma increasing_cons (a : R) (l : list R) :
  (forall b, head l = Some b -> (a < b)%R) ->
  increasing l -> increasing (a :: l).
Proof.
  intros Hhead Hl i j x y Hi Hj Hij.
  destruct j as [|j]; [lia|]. simpl in Hj.
  destruct i as [|i]; simpl in Hi.
  - injection Hi as <-. destruct l as [|h l]; [done|].
    specialize (Hhead h eq_refl).
    destruct j as [|j]; simpl in Hj; [injection Hj as <-; done|].
    pose proof (Hl 0 (S j) h y eq_refl Hj ltac:(lia)). lra.
  - apply (Hl i j); [done | done | lia].
Qed.

Lemma clamp_above (lo hi v : R) :
  (lo <= hi)%R -> (hi <= v)%R -> clamp lo hi v = hi.
Proof.
  intros H1 H2. unfold clamp, Rmax, Rmin.
  repeat (destruct (Rle_dec _ _)); lra.
Qed.

Lemma clamp_below (lo hi v : R) : (v <= lo)%R -> clamp lo hi v = lo.
Proof.
  intros H. unfold clamp, Rmax, Rmin.
  repeat (destruct (Rle_dec _ _)); lra.
Qed.

Lemma scenario_table_fields (sp : Scipy)
    (t : OffsetDependentTableEffectiveArea.instance) :
  scenario_table sp = Ok t ->
  value (OffsetDependentTableEffectiveArea.offset t)
    = [(1 + 0 * 1) / 2; (2 + 1 * 1) / 2; (3 + 2 * 1) / 2;
       (4 + 3 * 1) / 2]%R /\
  value (OffsetDependentTableEffectiveArea.energy t)
    = [sqrt (1 * 2); sqrt (2 * 4); sqrt (4 * 8); sqrt (8 * 16)] /\
  value (OffsetDependentTableEffectiveArea.eff_area t)
    = map (map (fun x => (x * 1)%R)) (value scenario_area).
Proof.
  intros H. apply init_inv in H
    as (qelo & qehi & qolo & qohi & qea & qear & sum & prod
        & [= <-] & [= <-] & [= <-] & [= <-] & [= <-] & _
        & _ & _ & _ & _ & Harea & _
        & Hsum & -> & Hprod & -> & _).
  unfold q_add, to1, to_with in Hsum. simpl in Hsum.
  rewrite factor_same in Hsum. injection Hsum as <-.
  unfold q_mul in Hprod. simpl in Hprod. injection Hprod as <-.
  unfold to2, to_with in Harea. simpl in Harea.
  rewrite factor_same in Harea. injection Harea as <-.
  done.
Qed.

Lemma scenario_axes_increasing (sp : Scipy)
    (t : OffsetDependentTableEffectiveArea.instance) :
  scenario_table sp = Ok t ->
  increasing (value (OffsetDependentTableEffectiveArea.offset t)) /\
  increasing (map log10 (value (OffsetDependentTableEffectiveArea.energy t))).
Proof.
  intros H. destruct (scenario_table_fields sp t H) as (-> & -> & _).
  split.
  - repeat (apply increasing_cons;
            [intros b Hb; simpl in Hb; try discriminate;
             injection Hb as <-; lra|]).
    apply increasing_nil.
  - cbn [map].
    repeat (apply increasing_cons;
            [intros b Hb; simpl in Hb;
             first [ discriminate
                   | injection Hb as <-; apply log10_increasing;
                     [apply sqrt_lt_R0; lra | apply sqrt_lt_1_alt; lra] ]|]).
    apply increasing_nil.
Qed.

(** A query at or beyond the last offset centre and at or below 1 TeV is
    moved onto the node of the last offset bin and the first energy
    bin, whose stored area is 400 m^2. *)
Lemma scenario_corner (sp : Scipy)
    (t : OffsetDependentTableEffectiveArea.instance)
    (o e x0 x1 y0 y1 : R) :
  scenario_table sp = Ok t ->
  head (value (OffsetDependentTableEffectiveArea.offset t)) = Some x0 ->
  last (value (OffsetDependentTableEffectiveArea.offset t)) = Some x1 ->
  head (map log10 (value (OffsetDependentTableEffectiveArea.energy t)))
    = Some y0 ->
  last (map log10 (value (OffsetDependentTableEffectiveArea.energy t)))
    = Some y1 ->
  (7 / 2 <= o)%R -> (0 < e)%R -> (e <= 1)%R ->
  value (OffsetDependentTableEffectiveArea.offset t) !! 3
    = Some (clamp x0 x1 (o * factor degree degree)) /\
  map log10 (value (OffsetDependentTableEffectiveArea.energy t)) !! 0
    = Some (clamp y0 y1 (log10 (e * factor TeV TeV))) /\
  value (OffsetDependentTableEffectiveArea.eff_area t) !! 3
    = Some [400 * 1; 800 * 1; 1200 * 1; 1600 * 1]%R.
Proof.
  intros H Hx0 Hx1 Hy0 Hy1 Ho He0 He1.
  destruct (scenario_table_fields sp t H) as (Eo & Ee & Ea).
  rewrite Eo in Hx0, Hx1 |- *. rewrite Ee in Hy0, Hy1 |- *. rewrite Ea.
  injection Hx0 as <-. injection Hx1 as <-.
  injection Hy0 as <-. injection Hy1 as <-.
  split; [|split; [|reflexivity]]; rewrite factor_same, Rmult_1_r.
  - rewrite clamp_above by lra. reflexivity.
  - rewrite clamp_below; [reflexivity|].
    left. apply log10_increasing; [done|].
    apply (Rle_lt_trans _ 1); [done|].
    rewrite <- sqrt_1 at 1. apply sqrt_lt_1_alt. lra.
Qed.

(** Such a query, when strictly beyond the last offset centre, is
    outside the hull of the grid. *)
Lemma scenario_outside (sp : Scipy)
    (t : OffsetDependentTableEffectiveArea.instance) (o e : R) :
  scenario_table sp = Ok t ->
  (7 / 2 < o)%R ->
  ~ in_hull
      (OffsetDependentTableEffectiveArea.coord
         (value (OffsetDependentTableEffectiveArea.offset t))
         (map log10 (value (OffsetDependentTableEffectiveArea.energy t))))
      ((o * factor degree degree)%R, log10 (e * factor TeV TeV)).
Proof.
  intros H Ho. destruct (scenario_table_fields sp t H) as (-> & _ & _).
  apply (outside_hull_right _ _ (7 / 2)%R).
  - apply (coord_Forall_fst (fun a => (a <= 7 / 2)%R)).
    repeat constructor; lra.
  - cbn [fst]. rewrite factor_same. lra.
Qed.

Lemma scenario_table_Ok : exists t, scenario_table lookup_scipy = Ok t.
Proof. eexists. reflexivity. Qed.

(** With the spline method every query at or beyond the last offset
    centre and at or below 1 TeV gets the stored area of that corner
    node. *)
Lemma scenario_spline_beyond_corner (sp : Scipy)
    (t : OffsetDependentTableEffectiveArea.instance) (o e : R) :
  SplineLaws sp ->
  scenario_table sp = Ok t ->
  (7 / 2 <= o)%R -> (0 < e)%R -> (e <= 1)%R ->
  OffsetDependentTableEffectiveArea.evaluate
    (OffsetDependentTableEffectiveArea.set_interpolation_method
       t "spline").2
    (PyAngle (mkQuantity (Scalar o) degree))
    (PyQuantity (mkQuantity (Scalar e) TeV))
  = Ok (mkQuantity (A0 (Fin (400 * 1)%R)) m2).
Proof.
  intros Hspline H Ho He0 He1.
  destruct (init_spline_clamps sp Hspline _ _ _ _ _ _ _ H)
    as (x0 & x1 & y0 & y1 & Hx0 & Hx1 & Hy0 & Hy1 & _).
  rewrite (evaluate_spline_clamped sp Hspline _ _ _ _ _ _ t o e degree TeV
             x0 x1 y0 y1 H eq_refl eq_refl Hx0 Hx1 Hy0 Hy1).
  destruct (scenario_corner sp t o e x0 x1 y0 y1 H Hx0 Hx1 Hy0 Hy1
              Ho He0 He1) as (Hi & Hj & Hrow).
  destruct (scenario_axes_increasing sp t H) as [Hincx Hincy].
  by rewrite (init_spline_at_node sp Hspline _ _ _ _ _ _ t 3 0 _ _
                (400 * 1)%R _ H Hincx Hincy Hi Hj Hrow eq_refl).
Qed.

Lemma evaluate_outside_hull_witness :
  exists t a,
    scenario_table lookup_scipy = Ok t /\
    OffsetDependentTableEffectiveArea.evaluate t
      (PyAngle (mkQuantity (Scalar 5%R) degree))
      (PyQuantity (mkQuantity (Scalar 1%R) TeV))
    = Ok (mkQuantity (A0 NaN) m2) /\
    OffsetDependentTableEffectiveArea.evaluate
      (OffsetDependentTableEffectiveArea.set_interpolation_method
         t "spline").2
      (PyAngle (mkQuantity (Scalar 5%R) degree))
      (PyQuantity (mkQuantity (Scalar 1%R) TeV))
    = Ok (mkQuantity (A0 (Fin a)) m2) /\
    a = 400%R.
Proof.
  destruct scenario_table_Ok as [t Hinit].
  destruct (scenario_axes_increasing lookup_scipy t Hinit) as [Hincx Hincy].
  destruct (evaluate_outside_hull lookup_scipy _ _ _ _ _ _ t
              5%R 1%R degree TeV lookup_scipy_laws lookup_spline_laws
              Hinit eq_refl eq_refl ltac:(lra) Hincx Hincy)
    as (Hlin & x0 & x1 & y0 & y1 & Hx0 & Hx1 & Hy0 & Hy1 & _ & _ & Hnode).
  { apply (scenario_outside lookup_scipy t 5%R 1%R Hinit). lra. }
  destruct (scenario_corner lookup_scipy t 5%R 1%R x0 x1 y0 y1
              Hinit Hx0 Hx1 Hy0 Hy1 ltac:(lra) ltac:(lra) ltac:(lra))
    as (Hi & Hj & Hrow).
  exists t, (400 * 1)%R.
  split; [exact Hinit|]. split; [exact Hlin|].
  split; [exact (Hnode 3 0 _ _ Hi Hj Hrow eq_refl) | lra].
Defined.

(** C5 as stated fails for the spline method: outside the grid the
    value is not extrapolated.  On the scenario, whose areas grow with
    the offset and with the energy, the query [(5 degree, 1 TeV)]
    outside the hull and the query [(50 degree, 0.001 TeV)] much
    farther out both return 400 m^2, the stored area of the nearest
    corner node of the grid. *)
Lemma evaluate_spline_outside_is_corner_value :
  exists t a,
    scenario_table lookup_scipy = Ok t /\
    ~ in_hull
        (OffsetDependentTableEffectiveArea.coord
           (value (OffsetDependentTableEffectiveArea.offset t))
           (map log10 (value (OffsetDependentTableEffectiveArea.energy t))))
        ((5 * factor degree degree)%R, log10 (1 * factor TeV TeV)) /\
    OffsetDependentTableEffectiveArea.evaluate
      (OffsetDependentTableEffectiveArea.set_interpolation_method
         t "spline").2
      (PyAngle (mkQuantity (Scalar 5%R) degree))
      (PyQuantity (mkQuantity (Scalar 1%R) TeV))
    = Ok (mkQuantity (A0 (Fin a)) m2) /\
    OffsetDependentTableEffectiveArea.evaluate
      (OffsetDependentTableEffectiveArea.set_interpolation_method
         t "spline").2
      (PyAngle (mkQuantity (Scalar 50%R) degree))
      (PyQuantity (mkQuantity (Scalar (/ 1000)%R) TeV))
    = Ok (mkQuantity (A0 (Fin a)) m2) /\
    (exists row,
       value (OffsetDependentTableEffectiveArea.eff_area t) !! 3 = Some row /\
       row !! 0 = Some a) /\
    a = 400%R.
Proof.
  destruct scenario_table_Ok as [t Hinit].
  exists t, (400 * 1)%R.
  split; [exact Hinit|].
  split; [apply (scenario_outside lookup_scipy t 5%R 1%R Hinit); lra|].
  split; [apply (scenario_spline_beyond_corner lookup_scipy t 5%R 1%R
                   lookup_spline_laws Hinit); lra|].
  split; [apply (scenario_spline_beyond_corner lookup_scipy t 50%R (/ 1000)%R
                   lookup_spline_laws Hinit); lra|].
  split; [|lra].
  destruct (scenario_table_fields lookup_scipy t Hinit) as (_ & _ & ->).
  eexists. split; reflexivity.
Qed.

(** ** Bin centres and the units of the arguments *)

Lemma arcmin_table_centers (sp : Scipy)
    (t : OffsetDependentTableEffectiveArea.instance) :
  arcmin_table sp = Ok t ->
  OffsetDependentTableEffectiveArea.offset t
    = mkQuantity [(60 + 0 * 1) / 2; (120 + 60 * 1) / 2;
                  (180 + 120 * 1) / 2; (240 + 180 * 1) / 2]%R arcmin /\
  OffsetDependentTableEffectiveArea.energy t
    = mkQuantity [sqrt (1 * 2); sqrt (2 * 4); sqrt (4 * 8); sqrt (8 * 16)]
                 (USqrt (UMul TeV TeV)).
Proof.
  intros H. apply init_inv in H
    as (qelo & qehi & qolo & qohi & qea & qear & sum & prod
        & [= <-] & [= <-] & [= <-] & [= <-] & _ & _ & _ & _ & _ & _ & _ & _
        & Hsum & -> & Hprod & -> & _).
  unfold q_add, to1, to_with in Hsum. simpl in Hsum.
  rewrite factor_same in Hsum. injection Hsum as <-.
  unfold q_mul in Hprod. simpl in Hprod. injection Hprod as <-.
  done.
Qed.

(** C4 (the code at the failing input).  For offsets given in arc
    minutes the six stored arrays are converted to TeV, degree and m^2,
    but the derived offset centres are computed from the arguments as
    they came: they are [30, 90, 150, 210] arcmin, not
    [0.5, 1.5, 2.5, 3.5] degree. *)
Theorem init_offset_center_keeps_argument_unit (sp : Scipy)
    (t : OffsetDependentTableEffectiveArea.instance) :
  arcmin_table sp = Ok t ->
  unit (OffsetDependentTableEffectiveArea.offset_lo t) = degree /\
  unit (OffsetDependentTableEffectiveArea.offset_hi t) = degree /\
  unit (OffsetDependentTableEffectiveArea.offset t) = arcmin /\
  value (OffsetDependentTableEffectiveArea.offset t) = [30; 90; 150; 210]%R /\
  ~ unit_equal (unit (OffsetDependentTableEffectiveArea.offset t)) degree.
Proof.
  intros H.
  destruct (init_stored_units sp _ _ _ _ _ _ _ H)
    as (_ & _ & Hlo & Hhi & _).
  destruct (arcmin_table_centers sp t H) as [-> _].
  repeat split; try done.
  - simpl. repeat (f_equal; try lra).
  - simpl. intros [_ Hs]. simpl in Hs. lra.
Qed.

Lemma init_offset_center_keeps_argument_unit_witness :
  exists t,
    arcmin_table lookup_scipy = Ok t /\
    unit (OffsetDependentTableEffectiveArea.offset t) = arcmin /\
    value (OffsetDependentTableEffectiveArea.offset t) = [30; 90; 150; 210]%R.
Proof.
  eexists.
  assert (H : arcmin_table lookup_scipy = Ok _) by reflexivity.
  split; [exact H|].
  destruct (init_offset_center_keeps_argument_unit lookup_scipy _ H)
    as (_ & _ & Hu & Hv & _).
  split; [exact Hu | exact Hv].
Defined.

(** ** Evaluation at the grid nodes *)

(** When the centres carry canonical units, the linear method returns
    the stored area at every grid node. *)
Lemma evaluate_at_node_canonical (sp : Scipy)
    (elo ehi olo ohi : PyObj (list R)) (ea ear : PyObj (list (list R)))
    (t : OffsetDependentTableEffectiveArea.instance)
    (i j : nat) (oc ec a : R) (row : list R) :
  ScipyLaws sp ->
  OffsetDependentTableEffectiveArea.__init__ sp elo ehi olo ohi ea ear
    = Ok t ->
  unit_equal (unit (OffsetDependentTableEffectiveArea.offset t)) degree ->
  unit_equal (unit (OffsetDependentTableEffectiveArea.energy t)) TeV ->
  NoDup (value (OffsetDependentTableEffectiveArea.offset t)) ->
  NoDup (value (OffsetDependentTableEffectiveArea.energy t)) ->
  Forall (fun x => (0 < x)%R)
         (value (OffsetDependentTableEffectiveArea.energy t)) ->
  Forall (fun r => length r
                   = length (value (OffsetDependentTableEffectiveArea.energy t)))
         (value (OffsetDependentTableEffectiveArea.eff_area t)) ->
  value (OffsetDependentTableEffectiveArea.offset t) !! i = Some oc ->
  value (OffsetDependentTableEffectiveArea.energy t) !! j = Some ec ->
  value (OffsetDependentTableEffectiveArea.eff_area t) !! i = Some row ->
  row !! j = Some a ->
  OffsetDependentTableEffectiveArea.evaluate t
    (PyAngle (mkQuantity (Scalar oc)
                (unit (OffsetDependentTableEffectiveArea.offset t))))
    (PyQuantity (mkQuantity (Scalar ec)
                   (unit (OffsetDependentTableEffectiveArea.energy t))))
  = Ok (mkQuantity (A0 (Fin a)) m2).
Proof.
  intros Hlaws Hinit [Hdo Hso] [Hde Hse] Hndo Hnde Hpos Hrows Hoc Hec Hrow Ha.
  destruct (init_stored_units sp _ _ _ _ _ _ _ Hinit)
    as (_ & _ & _ & _ & Hu & _).
  apply init_inv in Hinit
    as (qelo & qehi & qolo & qohi & qea & qear & sum & prod
        & _ & _ & _ & _ & _ & _ & _ & _ & _ & _ & _ & _ & _ & _ & _ & _
        & Hlin & _ & Hm).
  rewrite evaluate_linear by done.
  unfold query_x, query_y. cbn [value unit arg_map linear_call arg_broadcast2 bind].
  rewrite !same_scale_factor, !Rmult_1_r, Hu by done.
  do 3 f_equal.
  unfold OffsetDependentTableEffectiveArea._prepare_linear_interpolator
    in Hlin.
  eapply (linear_at_data sp Hlaws _ _ _
            (i * length (value (OffsetDependentTableEffectiveArea.energy t))
             + j)); [exact Hlin | | |].
  - apply coord_NoDup; [done|].
    change (map log10 ?l) with (log10 <$> l).
    apply NoDup_fmap_2_strong; [|done].
    intros x y Hx Hy Hxy.
    rewrite Forall_forall in Hpos.
    apply log10_inj; auto.
  - rewrite <- (length_map log10). apply coord_lookup; [done|].
    change (map log10 ?l) with (log10 <$> l).
    by rewrite list_lookup_fmap, Hec.
  - by eapply flatten_lookup.
Qed.

(** The scenario in canonical units: the node of offset bin 1 and
    energy bin 2 evaluates to the stored 600 m^2. *)
Lemma scenario_node_exact (sp : Scipy)
    (t : OffsetDependentTableEffectiveArea.instance) :
  ScipyLaws sp ->
  scenario_table sp = Ok t ->
  exists a,
    OffsetDependentTableEffectiveArea.evaluate t
      (PyAngle (mkQuantity (Scalar ((2 + 1 * 1) / 2)%R) degree))
      (PyQuantity (mkQuantity (Scalar (sqrt (4 * 8))) (USqrt (UMul TeV TeV))))
    = Ok (mkQuantity (A0 (Fin a)) m2) /\
    a = 600%R.
Proof.
  intros Hlaws Hinit.
  pose proof Hinit as Hinv. apply init_inv in Hinv
    as (qelo & qehi & qolo & qohi & qea & qear & sum & prod
        & [= <-] & [= <-] & [= <-] & [= <-] & [= <-] & _
        & _ & _ & _ & _ & Harea & _
        & Hsum & Hoff & Hprod & Hen & _).
  unfold q_add, to1, to_with in Hsum. simpl in Hsum.
  rewrite factor_same in Hsum. injection Hsum as <-.
  unfold q_mul in Hprod. simpl in Hprod. injection Hprod as <-.
  unfold to2, to_with in Harea. simpl in Harea.
  rewrite factor_same in Harea. injection Harea as Harea.
  exists (600 * 1)%R. split; [|lra].
  pose proof (evaluate_at_node_canonical sp _ _ _ _ _ _ t 1 2
                ((2 + 1 * 1) / 2)%R (sqrt (4 * 8)) (600 * 1)%R
                [200 * 1; 400 * 1; 600 * 1; 800 * 1]%R Hlaws Hinit) as Hnode.
  rewrite Hoff, Hen, <- Harea in Hnode. simpl in Hnode.
  apply Hnode; try reflexivity.
  - split; [reflexivity | simpl; lra].
  - split; [reflexivity|]. simpl. by rewrite Rmult_1_r, sqrt_1.
  - repeat (apply NoDup_cons; split;
            [rewrite ?not_elem_of_cons, ?elem_of_nil; repeat split;
               try tauto; lra|]).
    apply NoDup_nil_2.
  - repeat (apply NoDup_cons; split;
            [rewrite ?not_elem_of_cons, ?elem_of_nil; repeat split;
               try tauto; intros Heq; apply sqrt_inj in Heq; lra|]).
    apply NoDup_nil_2.
  - repeat constructor; apply sqrt_lt_R0; lra.
  - repeat constructor.
Qed.

(** C2 (the code at the failing input).  For the table built from
    offsets in arc minutes, evaluating at a grid node, that is at
    [(offset[i], energy[j])] as the table stores them, returns [nan]
    and not the stored area [eff_area[i][j]]: [evaluate] converts the
    query to degrees while the interpolant was built over the
    unconverted offsets, so every node falls outside the hull. *)
Theorem evaluate_at_node_argument_units (sp : Scipy)
    (t : OffsetDependentTableEffectiveArea.instance)
    (i j : nat) (oc ec : R) :
  ScipyLaws sp ->
  arcmin_table sp = Ok t ->
  value (OffsetDependentTableEffectiveArea.offset t) !! i = Some oc ->
  value (OffsetDependentTableEffectiveArea.energy t) !! j = Some ec ->
  OffsetDependentTableEffectiveArea.evaluate t
    (PyAngle (mkQuantity (Scalar oc)
                (unit (OffsetDependentTableEffectiveArea.offset t))))
    (PyQuantity (mkQuantity (Scalar ec)
                   (unit (OffsetDependentTableEffectiveArea.energy t))))
  = Ok (mkQuantity (A0 NaN) m2) /\
  exists row a,
    value (OffsetDependentTableEffectiveArea.eff_area t) !! i = Some row /\
    row !! j = Some a /\
    OffsetDependentTableEffectiveArea.evaluate t
      (PyAngle (mkQuantity (Scalar oc)
                  (unit (OffsetDependentTableEffectiveArea.offset t))))
      (PyQuantity (mkQuantity (Scalar ec)
                     (unit (OffsetDependentTableEffectiveArea.energy t))))
    <> Ok (mkQuantity (A0 (Fin a)) m2).
Proof.
  intros Hlaws Hinit Hoc Hec.
  destruct (arcmin_table_centers sp t Hinit) as [Hoff Hen].
  destruct (init_stored_units sp _ _ _ _ _ _ _ Hinit)
    as (_ & _ & _ & _ & Hu & _).
  assert (Heval :
    OffsetDependentTableEffectiveArea.evaluate t
      (PyAngle (mkQuantity (Scalar oc)
                  (unit (OffsetDependentTableEffectiveArea.offset t))))
      (PyQuantity (mkQuantity (Scalar ec)
                     (unit (OffsetDependentTableEffectiveArea.energy t))))
    = Ok (mkQuantity (A0 NaN) m2)).
  { pose proof Hinit as Hinv. apply init_inv in Hinv
      as (qelo & qehi & qolo & qohi & qea & qear & sum & prod
          & _ & _ & _ & _ & _ & _ & _ & _ & _ & _ & _ & _ & _ & _ & _ & _
          & Hlin & _ & Hm).
    rewrite evaluate_linear; [| done | by rewrite Hoff | by rewrite Hen].
    unfold query_x, query_y.
    cbn [value unit arg_map linear_call arg_broadcast2 bind].
    rewrite Hu. do 3 f_equal.
    unfold OffsetDependentTableEffectiveArea._prepare_linear_interpolator
      in Hlin.
    apply (linear_outside_hull sp Hlaws _ _ _ _ Hlin).
    apply (outside_hull_left _ _ 30%R).
    - apply (coord_Forall_fst (fun x => (30 <= x)%R)).
      rewrite Hoff. simpl. repeat constructor; lra.
    - rewrite Hoff in Hoc |- *. cbn [value unit fst].
      unfold factor. cbn [scale].
      destruct i as [|[|[|[|i]]]]; simpl in Hoc; try done;
        injection Hoc as <-; lra. }
  split; [exact Heval|].
  apply init_inv in Hinit
    as (qelo & qehi & qolo & qohi & qea & qear & sum & prod
        & _ & _ & _ & _ & [= <-] & _ & _ & _ & _ & _ & Harea & _).
  unfold to2, to_with in Harea. simpl in Harea. injection Harea as Harea.
  rewrite Hoff in Hoc. rewrite Hen in Hec. rewrite <- Harea.
  rewrite Heval.
  destruct i as [|[|[|[|i]]]]; simpl in Hoc; try done;
    (destruct j as [|[|[|[|j]]]]; simpl in Hec; try done);
    eexists _, _; (split; [reflexivity|]); (split; [reflexivity|]);
    discriminate.
Qed.

Lemma evaluate_at_node_argument_units_witness :
  exists t oc ec,
    arcmin_table lookup_scipy = Ok t /\
    value (OffsetDependentTableEffectiveArea.offset t) !! 0 = Some oc /\
    value (OffsetDependentTableEffectiveArea.energy t) !! 0 = Some ec /\
    OffsetDependentTableEffectiveArea.evaluate t
      (PyAngle (mkQuantity (Scalar oc)
                  (unit (OffsetDependentTableEffectiveArea.offset t))))
      (PyQuantity (mkQuantity (Scalar ec)
                     (unit (OffsetDependentTableEffectiveArea.energy t))))
    = Ok (mkQuantity (A0 NaN) m2).
Proof.
  eexists _, _, _.
  assert (H : arcmin_table lookup_scipy = Ok _) by reflexivity.
  split; [exact H|].
  split; [reflexivity|]. split; [reflexivity|].
  exact (proj1 (evaluate_at_node_argument_units lookup_scipy _ 0 0 _ _
                  lookup_scipy_laws H eq_refl eq_refl)).
Defined.

(** ** Shape of the result of [evaluate] *)

Lemma arg_shape_map {A B} (f : A -> B) (a : Arg A) :
  arg_shape (arg_map f a) = arg_shape a.
Proof. destruct a; simpl; [done | by rewrite length_map]. Qed.

Lemma broadcast2_shape {A B C} (f : A -> B -> C) (xs : list A) (ys : list B)
    (s : list nat) :
  broadcast_shape [length xs] [length ys] = Some s ->
  exists l, broadcast2 f xs ys = Ok l /\ [length l] = s.
Proof.
  unfold broadcast_shape, broadcast2.
  destruct (Nat.eqb (length xs) (length ys)) eqn:Heq.
  - intros [= <-]. apply Nat.eqb_eq in Heq.
    eexists. split; [done|]. rewrite length_zip_with. f_equal. lia.
  - destruct (Nat.eqb (length xs) 1) eqn:Hx.
    + intros [= <-]. destruct xs as [|x [|??]]; try done.
      eexists. split; [done|]. by rewrite length_map.
    + destruct (Nat.eqb (length ys) 1) eqn:Hy; [|done].
      intros [= <-]. destruct ys as [|y [|??]]; try done.
      destruct xs as [|x [|??]]; try done;
        (eexists; split; [done|]; by rewrite length_map).
Qed.

Lemma arg_broadcast2_shape {A B C} (f : A -> B -> C) (a : Arg A) (b : Arg B)
    (s : list nat) :
  broadcast_shape (arg_shape a) (arg_shape b) = Some s ->
  exists val, arg_broadcast2 f a b = Ok val /\ shape val = s.
Proof.
  destruct a as [x|xs], b as [y|ys]; simpl.
  - intros [= <-]. eauto.
  - intros [= <-]. eexists. split; [done|]. simpl. by rewrite length_map.
  - intros [= <-]. eexists. split; [done|]. simpl. by rewrite length_map.
  - intros H. destruct (broadcast2_shape f xs ys s H) as (l & -> & <-).
    eauto.
Qed.

Lemma squeeze_grid_shape {A B C} (g : A -> B -> C) (xs : list A)
    (ys : list B) :
  shape (squeeze (A2 (length ys) (map (fun a => map (g a) ys) xs)))
  = filter (fun n => n <> 1) [length xs; length ys].
Proof.
  cbn [squeeze]. rewrite length_map, !filter_cons, filter_nil.
  destruct xs as [|x1 [|x2 xs]], ys as [|y1 [|y2 ys]];
    repeat case_decide; simpl in *; try lia; try reflexivity;
    rewrite ?length_map; try reflexivity.
  do 3 f_equal. induction xs as [|x xs IH]; [reflexivity|].
  simpl. by rewrite IH.
Qed.

(** The shape of the result of [evaluate].  With the linear method it
    is the broadcast of the shapes of the two arguments and the result
    holds the interpolant at the broadcast pairs of coordinates; for
    two vectors of the same length [n] it has shape [(n,)] and element
    [k] is the value at [(offset_k, energy_k)].  With the spline method
    (arguments non-decreasing) the result holds the spline on the grid
    of all offsets by all energies, a scalar counting as one
    coordinate, with every axis of length one removed: its shape is
    [(n_offset, n_energy)] without the entries equal to one. *)
Lemma evaluate_result_shape
    (t : OffsetDependentTableEffectiveArea.instance)
    (o e : Quantity (Arg R)) :
  dim_eqb (dim (unit o)) dim_angle = true ->
  dim_eqb (dim (unit e)) dim_energy = true ->
  (OffsetDependentTableEffectiveArea._interpolation_method t = "linear" ->
   (forall s,
      broadcast_shape (arg_shape (value o)) (arg_shape (value e)) = Some s ->
      exists val,
        OffsetDependentTableEffectiveArea.evaluate t (PyAngle o) (PyQuantity e)
        = Ok (mkQuantity val
                (unit (OffsetDependentTableEffectiveArea.eff_area t))) /\
        shape val = s /\
        arg_broadcast2
          (fun a b => OffsetDependentTableEffectiveArea._linear t (a, b))
          (query_x o) (query_y e) = Ok val) /\
   (forall xs es,
      value o = Vector xs -> value e = Vector es ->
      length xs = length es ->
      OffsetDependentTableEffectiveArea.evaluate t (PyAngle o) (PyQuantity e)
      = Ok (mkQuantity
              (A1 (zip_with
                     (fun x en =>
                        OffsetDependentTableEffectiveArea._linear t
                          ((x * factor (unit o) degree)%R,
                           log10 (en * factor (unit e) TeV)))
                     xs es))
              (unit (OffsetDependentTableEffectiveArea.eff_area t))))) /\
  (OffsetDependentTableEffectiveArea._interpolation_method t = "spline" ->
   nondecreasing (atleast_1d (query_x o)) = true ->
   nondecreasing (atleast_1d (query_y e)) = true ->
   exists val,
     OffsetDependentTableEffectiveArea.evaluate t (PyAngle o) (PyQuantity e)
     = Ok (mkQuantity val
             (unit (OffsetDependentTableEffectiveArea.eff_area t))) /\
     val = squeeze
             (A2 (length (atleast_1d (query_y e)))
                 (map (fun a =>
                         map (fun b =>
                                Fin (OffsetDependentTableEffectiveArea._spline
                                       t a b))
                             (atleast_1d (query_y e)))
                      (atleast_1d (query_x o)))) /\
     shape val
     = filter (fun n => n <> 1)
              [length (atleast_1d (value o));
               length (atleast_1d (value e))]).
Proof.
  intros Ho He. split.
  - intros Hm. split.
    + intros s Hs.
      destruct (arg_broadcast2_shape
                  (fun a b => OffsetDependentTableEffectiveArea._linear t (a, b))
                  (query_x o) (query_y e) s) as (val & Hval & Hshape).
      { unfold query_x, query_y. by rewrite !arg_shape_map. }
      exists val. rewrite evaluate_linear by done.
      unfold linear_call. rewrite Hval. done.
    + intros xs es Hxs Hes Hlen.
      rewrite evaluate_linear by done.
      unfold linear_call, query_x, query_y. rewrite Hxs, Hes.
      cbn [arg_map arg_broadcast2].
      rewrite broadcast2_same_length by (by rewrite !length_map).
      cbn [bind]. do 3 f_equal.
      clear -Hlen. revert es Hlen.
      induction xs as [|x xs IH]; intros [|en es] Hlen; simpl in *;
        try done.
      f_equal. apply IH. lia.
  - intros Hm Hx Hy. rewrite evaluate_spline by done.
    unfold spline_call. rewrite Hx, Hy. cbn [andb bind].
    eexists. split; [reflexivity|]. split; [reflexivity|].
    rewrite (squeeze_grid_shape
               (fun a b => Fin (OffsetDependentTableEffectiveArea._spline t a b))).
    unfold query_x, query_y.
    destruct (value o), (value e); simpl; by rewrite ?length_map.
Qed.

(** C6 (the code at the failing input).  On the table of the scenario,
    for the offsets [0.5, 1.5] degree and the energies [2, 4] TeV, two
    vectors of length two, the linear method returns a vector of shape
    [(2,)], the broadcast of the shapes of the arguments, and the
    spline method returns the grid of the two offsets by the two
    energies, of shape [(2, 2)]: the [squeeze ()] of the spline branch
    only removes axes of length one. *)
Theorem evaluate_spline_two_vectors_is_grid (sp : Scipy)
    (t : OffsetDependentTableEffectiveArea.instance) :
  scenario_table sp = Ok t ->
  broadcast_shape [2] [2] = Some [2] /\
  (exists val,
     OffsetDependentTableEffectiveArea.evaluate t
       (PyAngle (mkQuantity (Vector [1 / 2; 3 / 2]%R) degree))
       (PyQuantity (mkQuantity (Vector [2; 4]%R) TeV))
     = Ok (mkQuantity val m2) /\
     shape val = [2]) /\
  (exists val,
     OffsetDependentTableEffectiveArea.evaluate
       (OffsetDependentTableEffectiveArea.set_interpolation_method
          t "spline").2
       (PyAngle (mkQuantity (Vector [1 / 2; 3 / 2]%R) degree))
       (PyQuantity (mkQuantity (Vector [2; 4]%R) TeV))
     = Ok (mkQuantity val m2) /\
     val = A2 2
             (map (fun a =>
                     map (fun b =>
                            Fin (OffsetDependentTableEffectiveArea._spline
                                   t a b))
                         [log10 (2 * factor TeV TeV);
                          log10 (4 * factor TeV TeV)])
                  [(1 / 2 * factor degree degree)%R;
                   (3 / 2 * factor degree degree)%R]) /\
     shape val = [2; 2] /\
     shape val <> [2]).
Proof.
  intros Hinit.
  destruct (init_stored_units sp _ _ _ _ _ _ _ Hinit)
    as (_ & _ & _ & _ & Hu & _).
  assert (Hm : OffsetDependentTableEffectiveArea._interpolation_method t
               = "linear").
  { by apply init_inv in Hinit
      as (?&?&?&?&?&?&?&?&_&_&_&_&_&_&_&_&_&_&_&_&_&_&_&_&_&_& ->). }
  split; [reflexivity|]. split.
  - destruct (proj1 (evaluate_result_shape t
                       (mkQuantity (Vector [1 / 2; 3 / 2]%R) degree)
                       (mkQuantity (Vector [2; 4]%R) TeV)
                       eq_refl eq_refl) Hm) as [Hshape _].
    destruct (Hshape [2] eq_refl) as (val & Heval & Hs & _).
    exists val. rewrite Heval, Hu. done.
  - destruct (proj2 (evaluate_result_shape
                       (OffsetDependentTableEffectiveArea.set_interpolation_method
                          t "spline").2
                       (mkQuantity (Vector [1 / 2; 3 / 2]%R) degree)
                       (mkQuantity (Vector [2; 4]%R) TeV)
                       eq_refl eq_refl) eq_refl)
      as (val & Heval & Hval & Hs).
    + unfold query_x. cbn [value unit arg_map atleast_1d map nondecreasing].
      rewrite factor_same.
      by rewrite (bool_decide_eq_true_2 (_ <= _)%R) by lra.
    + unfold query_y. cbn [value unit arg_map atleast_1d map nondecreasing].
      rewrite factor_same.
      by rewrite (bool_decide_eq_true_2 (_ <= _)%R)
        by (left; apply log10_increasing; lra).
    + exists val. split; [rewrite Heval; by rewrite <- Hu|].
      split; [rewrite Hval; reflexivity|].
      rewrite Hs. split; [reflexivity | discriminate].
Qed.

Lemma evaluate_spline_two_vectors_is_grid_witness :
  exists t val,
    scenario_table lookup_scipy = Ok t /\
    OffsetDependentTableEffectiveArea.evaluate
      (OffsetDependentTableEffectiveArea.set_interpolation_method
         t "spline").2
      (PyAngle (mkQuantity (Vector [1 / 2; 3 / 2]%R) degree))
      (PyQuantity (mkQuantity (Vector [2; 4]%R) TeV))
    = Ok (mkQuantity val m2) /\
    shape val = [2; 2].
Proof.
  destruct scenario_table_Ok as [t Hinit].
  destruct (evaluate_spline_two_vectors_is_grid lookup_scipy t Hinit)
    as (_ & _ & val & Heval & _ & Hs & _).
  exists t, val. split; [exact Hinit|]. split; [exact Heval | exact Hs].
Defined.

(** * Further properties of the offset-dependent table *)

(** ** The method selector over a run of calls *)

Section Selector.
Import OffsetDependentTableEffectiveArea.

Lemma set_method_step (st : instance) (m : string) :
  same_data st (set_interpolation_method st m).2 /\
  (known_method (_interpolation_method st) ->
   known_method (_interpolation_method (set_interpolation_method st m).2)) /\
  (known_method m ->
   _interpolation_method (set_interpolation_method st m).2 = m).
Proof.
  unfold set_interpolation_method, same_data, known_method.
  case_bool_decide as Hm; simpl.
  - repeat split; try done.
    + intros _. rewrite !elem_of_cons, elem_of_nil in Hm. tauto.
  - repeat split; try done.
    intros Hk. exfalso. apply Hm. rewrite !elem_of_cons. tauto.
Qed.

Lemma set_methods_inv (t : instance) (methods : list string) :
  known_method (_interpolation_method t) ->
  same_data t (set_interpolation_methods t methods) /\
  known_method (_interpolation_method (set_interpolation_methods t methods)).
Proof.
  unfold set_interpolation_methods.
  revert t. induction methods as [|m methods IH]; intros t Hk; simpl.
  - unfold same_data. done.
  - destruct (set_method_step t m) as (Hsame & Hknown & _).
    destruct (IH _ (Hknown Hk)) as [Hsame' Hk'].
    split; [|done].
    unfold same_data in *.
    destruct Hsame as (?&?&?&?&?&?&?&?&?&?).
    destruct Hsame' as (?&?&?&?&?&?&?&?&?&?).
    repeat split; congruence.
Qed.

Lemma broadcast2_raises_ValueError {A B C} (f : A -> B -> C) xs ys e :
  broadcast2 f xs ys = Raise e -> e = ValueError.
Proof.
  unfold broadcast2. destruct (Nat.eqb _ _); [done|].
  destruct xs as [|? [|??]], ys as [|? [|??]]; congruence.
Qed.

Lemma evaluate_known_method (t : instance) (offset energy : PyObj (Arg R)) :
  known_method (_interpolation_method t) ->
  evaluate t offset energy <> Raise NotImplementedError.
Proof.
  intros Hk. unfold evaluate.
  destruct offset as [o|o|?], energy as [e|e|?]; simpl; try discriminate.
  all: unfold toA, to_with.
  all: destruct (dim_eqb (dim (unit o)) (dim degree)); [|discriminate].
  all: cbn [bind].
  all: destruct (dim_eqb (dim (unit e)) (dim TeV)); [|discriminate].
  all: cbn [bind value].
  all: destruct Hk as [-> | ->].
  all: try (rewrite decide_False by done).
  all: rewrite decide_True by done.
  all: unfold linear_call, spline_call, arg_broadcast2.
  all: destruct (value o) as [x|xs], (value e) as [y|ys]; cbn [arg_map bind];
    try discriminate.
  all: try (destruct (broadcast2 _ _ _) as [l|ex] eqn:Hb; cbn [bind];
            [discriminate|];
            apply broadcast2_raises_ValueError in Hb as ->; discriminate).
  all: destruct (nondecreasing _ && nondecreasing _); cbn [bind];
    discriminate.
Qed.

End Selector.

(** X1.  After construction and any run of calls of
    [set_interpolation_method], accepted or refused, the selector is
    one of the two known names and nothing else of the table has
    changed, so that [evaluate] never ends in the
    [NotImplementedError] of its last branch. *)
Theorem selector_stays_known (sp : Scipy)
    (elo ehi olo ohi : PyObj (list R)) (ea ear : PyObj (list (list R)))
    (t : OffsetDependentTableEffectiveArea.instance)
    (methods : list string) (offset energy : PyObj (Arg R)) :
  OffsetDependentTableEffectiveArea.__init__ sp elo ehi olo ohi ea ear
    = Ok t ->
  known_method
    (OffsetDependentTableEffectiveArea._interpolation_method
       (set_interpolation_methods t methods)) /\
  same_data t (set_interpolation_methods t methods) /\
  OffsetDependentTableEffectiveArea.evaluate
    (set_interpolation_methods t methods) offset energy
  <> Raise NotImplementedError.
Proof.
  intros Hinit.
  assert (Hk : known_method
                 (OffsetDependentTableEffectiveArea._interpolation_method t)).
  { apply init_inv in Hinit
      as (?&?&?&?&?&?&?&?&_&_&_&_&_&_&_&_&_&_&_&_&_&_&_&_&_&_& ->).
    by left. }
  destruct (set_methods_inv t methods Hk) as [Hsame Hk'].
  split; [done|]. split; [done|].
  by apply evaluate_known_method.
Qed.

Lemma selector_stays_known_witness :
  exists t,
    scenario_table lookup_scipy = Ok t /\
    known_method
      (OffsetDependentTableEffectiveArea._interpolation_method
         (set_interpolation_methods t ["spline"; "cubic"; "nearest"])) /\
    OffsetDependentTableEffectiveArea.evaluate
      (set_interpolation_methods t ["spline"; "cubic"; "nearest"])
      (PyAngle (mkQuantity (Scalar 1%R) degree))
      (PyQuantity (mkQuantity (Scalar 1%R) TeV))
    <> Raise NotImplementedError.
Proof.
  eexists.
  assert (Hinit : scenario_table lookup_scipy = Ok _) by reflexivity.
  split; [exact Hinit|].
  destruct (selector_stays_known lookup_scipy _ _ _ _ _ _ _
              ["spline"; "cubic"; "nearest"]
              (PyAngle (mkQuantity (Scalar 1%R) degree))
              (PyQuantity (mkQuantity (Scalar 1%R) TeV)) Hinit)
    as (Hk & _ & Hev).
  split; [exact Hk | exact Hev].
Defined.

(** X2.  Whatever calls of [set_interpolation_method] were made on a
    freshly built table, a final call with ["linear"] gives back exactly
    the table as it was built: no interpolant was rebuilt and no grid
    touched on the way. *)
Theorem set_linear_restores (sp : Scipy)
    (elo ehi olo ohi : PyObj (list R)) (ea ear : PyObj (list (list R)))
    (t : OffsetDependentTableEffectiveArea.instance)
    (methods : list string) :
  OffsetDependentTableEffectiveArea.__init__ sp elo ehi olo ohi ea ear
    = Ok t ->
  OffsetDependentTableEffectiveArea.set_interpolation_method
    (set_interpolation_methods t methods) "linear"
  = (Ok tt, t).
Proof.
  intros Hinit.
  assert (Hm : OffsetDependentTableEffectiveArea._interpolation_method t
               = "linear").
  { by apply init_inv in Hinit
      as (?&?&?&?&?&?&?&?&_&_&_&_&_&_&_&_&_&_&_&_&_&_&_&_&_&_& ->). }
  destruct (set_methods_inv t methods (or_introl Hm)) as [Hsame _].
  destruct Hsame as (H1&H2&H3&H4&H5&H6&H7&H8&H9&H10).
  unfold OffsetDependentTableEffectiveArea.set_interpolation_method.
  rewrite bool_decide_eq_true_2 by (rewrite !elem_of_cons; tauto).
  cbn [negb]. rewrite H1, H2, H3, H4, H5, H6, H7, H8, H9, H10.
  f_equal. destruct t. simpl in Hm. by rewrite Hm.
Qed.

Lemma set_linear_restores_witness :
  exists t,
    scenario_table lookup_scipy = Ok t /\
    OffsetDependentTableEffectiveArea.set_interpolation_method
      (set_interpolation_methods t ["spline"; "cubic"]) "linear"
    = (Ok tt, t).
Proof.
  eexists.
  assert (Hinit : scenario_table lookup_scipy = Ok _) by reflexivity.
  split; [exact Hinit|].
  exact (set_linear_restores lookup_scipy _ _ _ _ _ _ _
           ["spline"; "cubic"] Hinit).
Defined.

(** ** Queries in other units *)

Lemma arg_map_ext {A B} (f g : A -> B) (a : Arg A) :
  (forall x, f x = g x) -> arg_map f a = arg_map g a.
Proof.
  intros H. destruct a as [x|l]; simpl; [by rewrite H|].
  f_equal. induction l as [|x l IH]; simpl; [done|]. by rewrite H, IH.
Qed.

Lemma factor_canonical (u target : Unit) :
  scale target = 1%R -> factor u target = scale u.
Proof. intros H. unfold factor. rewrite H. lra. Qed.

(** X3.  [evaluate] depends on the physical values of its arguments
    only: two queries that name the same angles and the same energies
    in different units (60 arcmin and 1000 GeV, or 1 degree and 1 TeV)
    get the same answer, whatever the selector. *)
Theorem evaluate_unit_invariant
    (t : OffsetDependentTableEffectiveArea.instance)
    (o1 o2 e1 e2 : Quantity (Arg R)) :
  dim_eqb (dim (unit o1)) dim_angle = true ->
  dim_eqb (dim (unit o2)) dim_angle = true ->
  dim_eqb (dim (unit e1)) dim_energy = true ->
  dim_eqb (dim (unit e2)) dim_energy = true ->
  arg_map (fun v => (v * scale (unit o1))%R) (value o1)
    = arg_map (fun v => (v * scale (unit o2))%R) (value o2) ->
  arg_map (fun v => (v * scale (unit e1))%R) (value e1)
    = arg_map (fun v => (v * scale (unit e2))%R) (value e2) ->
  OffsetDependentTableEffectiveArea.evaluate t (PyAngle o1) (PyQuantity e1)
  = OffsetDependentTableEffectiveArea.evaluate t (PyAngle o2) (PyQuantity e2).
Proof.
  intros Ho1 Ho2 He1 He2 Ho He.
  unfold OffsetDependentTableEffectiveArea.evaluate, toA, to_with.
  cbn [isinstance_Quantity isinstance_Angle andb as_quantity bind].
  change (dim degree) with dim_angle. change (dim TeV) with dim_energy.
  rewrite Ho1, Ho2, He1, He2. cbn [bind value unit].
  rewrite !factor_canonical by reflexivity.
  by rewrite Ho, He.
Qed.

Lemma evaluate_unit_invariant_witness :
  exists t,
    scenario_table lookup_scipy = Ok t /\
    OffsetDependentTableEffectiveArea.evaluate t
      (PyAngle (mkQuantity (Scalar 60%R) arcmin))
      (PyQuantity (mkQuantity (Vector [1000; 2000]%R) GeV))
    = OffsetDependentTableEffectiveArea.evaluate t
        (PyAngle (mkQuantity (Scalar 1%R) degree))
        (PyQuantity (mkQuantity (Vector [1; 2]%R) TeV)).
Proof.
  eexists. split; [reflexivity|].
  apply (evaluate_unit_invariant _
           (mkQuantity (Scalar 60%R) arcmin) (mkQuantity (Scalar 1%R) degree)
           (mkQuantity (Vector [1000; 2000]%R) GeV)
           (mkQuantity (Vector [1; 2]%R) TeV));
    try reflexivity; simpl; repeat (first [lra | progress f_equal]).
Defined.

(** ** Area histograms along one axis *)

Section Histograms.
Import OffsetDependentTableEffectiveArea.
Import OffsetDependentTableEffectiveAreaMore.
Context (sp : Scipy) (Hlaws : ScipyLaws sp).

(** The linear interpolant of a table takes the stored area at each
    node of the grid it was built over. *)
Lemma linear_value_at_node
    (elo ehi olo ohi : PyObj (list R)) (ea ear : PyObj (list (list R)))
    (t : instance) (i j : nat) (oc ec a : R) (row : list R) :
  __init__ sp elo ehi olo ohi ea ear = Ok t ->
  NoDup (value (offset t)) ->
  NoDup (value (energy t)) ->
  Forall (fun x => (0 < x)%R) (value (energy t)) ->
  Forall (fun r => length r = length (value (energy t)))
         (value (eff_area t)) ->
  value (offset t) !! i = Some oc ->
  value (energy t) !! j = Some ec ->
  value (eff_area t) !! i = Some row ->
  row !! j = Some a ->
  _linear t (oc, log10 ec) = Fin a.
Proof.
  intros Hinit Hndo Hnde Hpos Hrows Hoc Hec Hrow Ha.
  apply init_inv in Hinit
    as (qelo & qehi & qolo & qohi & qea & qear & sum & prod
        & _ & _ & _ & _ & _ & _ & _ & _ & _ & _ & _ & _ & _ & _ & _ & _
        & Hlin & _ & Hm).
  unfold _prepare_linear_interpolator in Hlin.
  eapply (linear_at_data sp Hlaws _ _ _
            (i * length (value (energy t)) + j)); [exact Hlin | | |].
  - apply coord_NoDup; [done|].
    change (map log10 ?l) with (log10 <$> l).
    apply NoDup_fmap_2_strong; [|done].
    intros x y Hx Hy Hxy.
    rewrite Forall_forall in Hpos.
    apply log10_inj; auto.
  - rewrite <- (length_map log10). apply coord_lookup; [done|].
    change (map log10 ?l) with (log10 <$> l).
    by rewrite list_lookup_fmap, Hec.
  - by eapply flatten_lookup.
Qed.

End Histograms.

(** X4.  With the linear method and centres in canonical units,
    [eval_at_offset] at the centre of offset bin [i], with the default
    energies, returns row [i] of the stored area matrix: one value per
    energy bin, in m^2. *)
Theorem eval_at_offset_default_is_row (sp : Scipy)
    (elo ehi olo ohi : PyObj (list R)) (ea ear : PyObj (list (list R)))
    (t : OffsetDependentTableEffectiveArea.instance)
    (i : nat) (oc : R) (row : list R) :
  ScipyLaws sp ->
  OffsetDependentTableEffectiveArea.__init__ sp elo ehi olo ohi ea ear
    = Ok t ->
  unit_equal (unit (OffsetDependentTableEffectiveArea.offset t)) degree ->
  unit_equal (unit (OffsetDependentTableEffectiveArea.energy t)) TeV ->
  NoDup (value (OffsetDependentTableEffectiveArea.offset t)) ->
  NoDup (value (OffsetDependentTableEffectiveArea.energy t)) ->
  Forall (fun x => (0 < x)%R)
         (value (OffsetDependentTableEffectiveArea.energy t)) ->
  Forall (fun r => length r
                   = length (value (OffsetDependentTableEffectiveArea.energy t)))
         (value (OffsetDependentTableEffectiveArea.eff_area t)) ->
  value (OffsetDependentTableEffectiveArea.offset t) !! i = Some oc ->
  value (OffsetDependentTableEffectiveArea.eff_area t) !! i = Some row ->
  OffsetDependentTableEffectiveAreaMore.eval_at_offset t
    (PyAngle (mkQuantity (Scalar oc)
                (unit (OffsetDependentTableEffectiveArea.offset t))))
    None
  = Ok (mkQuantity (A1 (map Fin row)) m2).
Proof.
  intros Hlaws Hinit [Hdo Hso] [Hde Hse] Hndo Hnde Hpos Hrows Hoc Hrow.
  destruct (init_stored_units sp _ _ _ _ _ _ _ Hinit)
    as (_ & _ & _ & _ & Hu & _).
  pose proof Hinit as Hinv. apply init_inv in Hinv
    as (?&?&?&?&?&?&?&?&_&_&_&_&_&_&_&_&_&_&_&_&_&_&_&_&_&_& Hm).
  unfold OffsetDependentTableEffectiveAreaMore.eval_at_offset.
  cbn [isinstance_Angle].
  rewrite evaluate_linear by done.
  unfold query_x, query_y.
  cbn [value unit arg_map linear_call arg_broadcast2 bind].
  rewrite !same_scale_factor, Rmult_1_r, Hu by done.
  rewrite (map_scale_one 1) by done.
  do 3 f_equal.
  assert (Hlen : length row
                 = length (value (OffsetDependentTableEffectiveArea.energy t))).
  { eapply Forall_lookup_1 in Hrows; eauto. }
  apply list_eq. intros j.
  change (map ?f ?l) with (f <$> l). rewrite !list_lookup_fmap.
  destruct (value (OffsetDependentTableEffectiveArea.energy t) !! j)
    as [ec|] eqn:Hec.
  - destruct (lookup_lt_is_Some_2 row j) as [a Ha].
    { rewrite Hlen. by eapply lookup_lt_Some. }
    rewrite Ha. simpl. f_equal.
    by eapply (linear_value_at_node sp Hlaws).
  - apply lookup_ge_None in Hec.
    rewrite (lookup_ge_None_2 row j) by lia. done.
Qed.

(** X5.  Likewise [eval_at_energy] at the centre of energy bin [j],
    with the default offsets, returns column [j] of the stored area
    matrix: one value per offset bin. *)
Theorem eval_at_energy_default_is_column (sp : Scipy)
    (elo ehi olo ohi : PyObj (list R)) (ea ear : PyObj (list (list R)))
    (t : OffsetDependentTableEffectiveArea.instance)
    (j : nat) (ec : R) :
  ScipyLaws sp ->
  OffsetDependentTableEffectiveArea.__init__ sp elo ehi olo ohi ea ear
    = Ok t ->
  unit_equal (unit (OffsetDependentTableEffectiveArea.offset t)) degree ->
  unit_equal (unit (OffsetDependentTableEffectiveArea.energy t)) TeV ->
  NoDup (value (OffsetDependentTableEffectiveArea.offset t)) ->
  NoDup (value (OffsetDependentTableEffectiveArea.energy t)) ->
  Forall (fun x => (0 < x)%R)
         (value (OffsetDependentTableEffectiveArea.energy t)) ->
  Forall (fun r => length r
                   = length (value (OffsetDependentTableEffectiveArea.energy t)))
         (value (OffsetDependentTableEffectiveArea.eff_area t)) ->
  length (value (OffsetDependentTableEffectiveArea.eff_area t))
    = length (value (OffsetDependentTableEffectiveArea.offset t)) ->
  value (OffsetDependentTableEffectiveArea.energy t) !! j = Some ec ->
  exists col,
    OffsetDependentTableEffectiveAreaMore.eval_at_energy t
      (PyQuantity (mkQuantity (Scalar ec)
                     (unit (OffsetDependentTableEffectiveArea.energy t))))
      None
    = Ok (mkQuantity (A1 col) m2) /\
    length col = length (value (OffsetDependentTableEffectiveArea.offset t)) /\
    forall i row a,
      value (OffsetDependentTableEffectiveArea.eff_area t) !! i = Some row ->
      row !! j = Some a ->
      col !! i = Some (Fin a).
Proof.
  intros Hlaws Hinit [Hdo Hso] [Hde Hse] Hndo Hnde Hpos Hrows Hshape Hec.
  destruct (init_stored_units sp _ _ _ _ _ _ _ Hinit)
    as (_ & _ & _ & _ & Hu & _).
  pose proof Hinit as Hinv. apply init_inv in Hinv
    as (?&?&?&?&?&?&?&?&_&_&_&_&_&_&_&_&_&_&_&_&_&_&_&_&_&_& Hm).
  unfold OffsetDependentTableEffectiveAreaMore.eval_at_energy.
  cbn [isinstance_Quantity].
  rewrite evaluate_linear by done.
  unfold query_x, query_y.
  cbn [value unit arg_map linear_call arg_broadcast2 bind].
  rewrite !same_scale_factor, Rmult_1_r, Hu by done.
  rewrite (map_scale_one 1) by done.
  eexists. split; [reflexivity|]. split; [by rewrite length_map|].
  intros i row a Hrow Ha.
  destruct (lookup_lt_is_Some_2
              (value (OffsetDependentTableEffectiveArea.offset t)) i)
    as [oc Hoc].
  { rewrite <- Hshape. by eapply lookup_lt_Some. }
  change (map ?f ?l) with (f <$> l). rewrite list_lookup_fmap, Hoc.
  simpl. f_equal.
  by eapply (linear_value_at_node sp Hlaws).
Qed.

(** ** Tables read from a FITS extension *)

Lemma map_map_scale_one (k : R) (m : list (list R)) :
  k = 1%R -> map (map (fun x => (x * k)%R)) m = m.
Proof.
  intros ->. induction m as [|r m IH]; simpl; [done|].
  by rewrite IH, (map_scale_one 1).
Qed.

Lemma to1_canonical (l : list R) (u : Unit) :
  to1 (mkQuantity l u) u = Ok (mkQuantity l u).
Proof. exact (to1_same_unit (mkQuantity l u)). Qed.

Lemma to2_canonical (m : list (list R)) (u : Unit) :
  to2 (mkQuantity m u) u = Ok (mkQuantity m u).
Proof.
  unfold to2, to_with. cbn [unit value].
  by rewrite dim_eqb_refl, factor_same, map_map_scale_one.
Qed.

Section FromFits.
Import OffsetDependentTableEffectiveArea.
Import OffsetDependentTableEffectiveAreaMore.
Context (sp : Scipy).

(** What a successful [from_fits] has read and built. *)
Lemma from_fits_inv (hdu : EffectiveAreaHDU) (t : instance) :
  from_fits sp hdu = Ok t ->
  exists elo ehi olo ohi area area_reco sum prod,
    ENERG_LO hdu !! 0 = Some elo /\ ENERG_HI hdu !! 0 = Some ehi /\
    THETA_LO hdu !! 0 = Some olo /\ THETA_HI hdu !! 0 = Some ohi /\
    EFFAREA hdu !! 0 = Some area /\ EFFAREA_RECO hdu !! 0 = Some area_reco /\
    __init__ sp (PyQuantity (mkQuantity elo TeV))
             (PyQuantity (mkQuantity ehi TeV))
             (PyAngle (mkQuantity olo degree))
             (PyAngle (mkQuantity ohi degree))
             (PyQuantity (mkQuantity area m2))
             (PyQuantity (mkQuantity area_reco m2)) = Ok t /\
    energ_lo t = mkQuantity elo TeV /\ energ_hi t = mkQuantity ehi TeV /\
    offset_lo t = mkQuantity olo degree /\
    offset_hi t = mkQuantity ohi degree /\
    eff_area t = mkQuantity area m2 /\
    eff_area_reco t = mkQuantity area_reco m2 /\
    broadcast2 Rplus ohi olo = Ok sum /\
    offset t = mkQuantity (map (fun x => (x / 2)%R) sum) degree /\
    broadcast2 Rmult elo ehi = Ok prod /\
    energy t = mkQuantity (map sqrt prod) (USqrt (UMul TeV TeV)).
Proof.
  unfold from_fits, row0. intros H.
  destruct (ENERG_LO hdu !! 0) as [elo|]; [|discriminate].
  destruct (ENERG_HI hdu !! 0) as [ehi|]; [|discriminate].
  destruct (THETA_LO hdu !! 0) as [olo|]; [|discriminate].
  destruct (THETA_HI hdu !! 0) as [ohi|]; [|discriminate].
  destruct (EFFAREA hdu !! 0) as [area|]; [|discriminate].
  destruct (EFFAREA_RECO hdu !! 0) as [area_reco|]; [|discriminate].
  cbn [bind] in H. pose proof H as Hinit.
  apply init_inv in H
    as (qelo & qehi & qolo & qohi & qea & qear & sum & prod
        & [= <-] & [= <-] & [= <-] & [= <-] & [= <-] & [= <-]
        & H1 & H2 & H3 & H4 & H5 & H6 & Hsum & Hoff & Hprod & Hen & _).
  rewrite to1_canonical in H1, H2, H3, H4.
  rewrite to2_canonical in H5, H6.
  injection H1 as <-. injection H2 as <-. injection H3 as <-.
  injection H4 as <-. injection H5 as <-. injection H6 as <-.
  unfold q_add in Hsum. rewrite to1_canonical in Hsum.
  cbn [bind value unit] in Hsum.
  destruct (broadcast2 Rplus ohi olo) as [s|] eqn:Hs; [|discriminate].
  cbn [bind] in Hsum. injection Hsum as <-.
  unfold q_mul in Hprod. cbn [value unit] in Hprod.
  destruct (broadcast2 Rmult elo ehi) as [p|] eqn:Hp; [|discriminate].
  cbn [bind] in Hprod. injection Hprod as <-.
  exists elo, ehi, olo, ohi, area, area_reco, s, p.
  repeat split; done.
Qed.

End FromFits.

(** X6.  A table read by [from_fits] stores row 0 of each column,
    the reconstructed areas included, unchanged, in TeV, degree and
    m^2, and its derived centres are in canonical units as well: the
    offset centres are [(hi + lo) / 2] in degree and the energy centres
    [sqrt (lo * hi)] in a unit equal to TeV.  A column without a row 0
    makes [from_fits] raise [IndexError]. *)
Theorem from_fits_is_canonical (sp : Scipy)
    (hdu : OffsetDependentTableEffectiveAreaMore.EffectiveAreaHDU) :
  (forall t,
     OffsetDependentTableEffectiveAreaMore.from_fits sp hdu = Ok t ->
     exists elo ehi olo ohi area sum prod,
       OffsetDependentTableEffectiveAreaMore.ENERG_LO hdu !! 0 = Some elo /\
       OffsetDependentTableEffectiveAreaMore.ENERG_HI hdu !! 0 = Some ehi /\
       OffsetDependentTableEffectiveAreaMore.THETA_LO hdu !! 0 = Some olo /\
       OffsetDependentTableEffectiveAreaMore.THETA_HI hdu !! 0 = Some ohi /\
       OffsetDependentTableEffectiveAreaMore.EFFAREA hdu !! 0 = Some area /\
       OffsetDependentTableEffectiveArea.energ_lo t = mkQuantity elo TeV /\
       OffsetDependentTableEffectiveArea.energ_hi t = mkQuantity ehi TeV /\
       OffsetDependentTableEffectiveArea.offset_lo t
         = mkQuantity olo degree /\
       OffsetDependentTableEffectiveArea.offset_hi t
         = mkQuantity ohi degree /\
       OffsetDependentTableEffectiveArea.eff_area t = mkQuantity area m2 /\
       broadcast2 Rplus ohi olo = Ok sum /\
       OffsetDependentTableEffectiveArea.offset t
         = mkQuantity (map (fun x => (x / 2)%R) sum) degree /\
       broadcast2 Rmult elo ehi = Ok prod /\
       value (OffsetDependentTableEffectiveArea.energy t) = map sqrt prod /\
       unit_equal (unit (OffsetDependentTableEffectiveArea.energy t)) TeV /\
       exists area_reco,
         OffsetDependentTableEffectiveAreaMore.EFFAREA_RECO hdu !! 0
           = Some area_reco /\
         OffsetDependentTableEffectiveArea.eff_area_reco t
           = mkQuantity area_reco m2) /\
  (OffsetDependentTableEffectiveAreaMore.ENERG_LO hdu = [] \/
   OffsetDependentTableEffectiveAreaMore.ENERG_HI hdu = [] \/
   OffsetDependentTableEffectiveAreaMore.THETA_LO hdu = [] \/
   OffsetDependentTableEffectiveAreaMore.THETA_HI hdu = [] \/
   OffsetDependentTableEffectiveAreaMore.EFFAREA hdu = [] \/
   OffsetDependentTableEffectiveAreaMore.EFFAREA_RECO hdu = [] ->
   OffsetDependentTableEffectiveAreaMore.from_fits sp hdu = Raise IndexError).
Proof.
  split.
  - intros t H. apply from_fits_inv in H
      as (elo & ehi & olo & ohi & area & area_reco & sum & prod
          & H1 & H2 & H3 & H4 & H5 & H6 & _ & E1 & E2 & E3 & E4 & E5 & E6
          & Hs & Ho & Hp & He).
    exists elo, ehi, olo, ohi, area, sum, prod.
    rewrite He. repeat split; try done.
    + simpl. by rewrite Rmult_1_r, sqrt_1.
    + by exists area_reco.
  - unfold OffsetDependentTableEffectiveAreaMore.from_fits,
      OffsetDependentTableEffectiveAreaMore.row0.
    intros H.
    destruct (OffsetDependentTableEffectiveAreaMore.ENERG_LO hdu);
      [done|].
    destruct (OffsetDependentTableEffectiveAreaMore.ENERG_HI hdu);
      [done|].
    destruct (OffsetDependentTableEffectiveAreaMore.THETA_LO hdu);
      [done|].
    destruct (OffsetDependentTableEffectiveAreaMore.THETA_HI hdu);
      [done|].
    destruct (OffsetDependentTableEffectiveAreaMore.EFFAREA hdu);
      [done|].
    destruct (OffsetDependentTableEffectiveAreaMore.EFFAREA_RECO hdu);
      [done|].
    destruct H as [?|[?|[?|[?|[?|?]]]]]; discriminate.
Qed.

(** The table of the scenario read from its extension: fields and
    validity of the grid. *)
Lemma scenario_hdu_table (sp : Scipy)
    (t : OffsetDependentTableEffectiveArea.instance) :
  OffsetDependentTableEffectiveAreaMore.from_fits sp scenario_hdu = Ok t ->
  OffsetDependentTableEffectiveArea.offset t
    = mkQuantity [(1 + 0) / 2; (2 + 1) / 2; (3 + 2) / 2; (4 + 3) / 2]%R
                 degree /\
  OffsetDependentTableEffectiveArea.energy t
    = mkQuantity [sqrt (1 * 2); sqrt (2 * 4); sqrt (4 * 8); sqrt (8 * 16)]
                 (USqrt (UMul TeV TeV)) /\
  OffsetDependentTableEffectiveArea.eff_area t = scenario_area.
Proof.
  intros H. apply from_fits_inv in H
    as (elo & ehi & olo & ohi & area & area_reco & sum & prod
        & [= <-] & [= <-] & [= <-] & [= <-] & [= <-] & _ & _ & _ & _ & _ & _
        & E5 & _ & Hs & Ho & Hp & He).
  injection Hs as <-. injection Hp as <-.
  rewrite Ho, He, E5. done.
Qed.

Lemma scenario_hdu_valid (sp : Scipy)
    (t : OffsetDependentTableEffectiveArea.instance) :
  OffsetDependentTableEffectiveAreaMore.from_fits sp scenario_hdu = Ok t ->
  unit_equal (unit (OffsetDependentTableEffectiveArea.offset t)) degree /\
  unit_equal (unit (OffsetDependentTableEffectiveArea.energy t)) TeV /\
  NoDup (value (OffsetDependentTableEffectiveArea.offset t)) /\
  NoDup (value (OffsetDependentTableEffectiveArea.energy t)) /\
  Forall (fun x => (0 < x)%R)
         (value (OffsetDependentTableEffectiveArea.energy t)) /\
  Forall (fun r => length r
                   = length (value (OffsetDependentTableEffectiveArea.energy t)))
         (value (OffsetDependentTableEffectiveArea.eff_area t)) /\
  length (value (OffsetDependentTableEffectiveArea.eff_area t))
    = length (value (OffsetDependentTableEffectiveArea.offset t)).
Proof.
  intros H. destruct (scenario_hdu_table sp t H) as (-> & -> & ->).
  cbn [value unit]. repeat split.
  - simpl. by rewrite Rmult_1_r, sqrt_1.
  - repeat (apply NoDup_cons; split;
            [rewrite ?not_elem_of_cons, ?elem_of_nil; repeat split;
               try tauto; lra|]).
    apply NoDup_nil_2.
  - repeat (apply NoDup_cons; split;
            [rewrite ?not_elem_of_cons, ?elem_of_nil; repeat split;
               try tauto; intros Heq; apply sqrt_inj in Heq; lra|]).
    apply NoDup_nil_2.
  - repeat constructor; apply sqrt_lt_R0; lra.
  - repeat constructor.
Qed.

Lemma from_fits_is_canonical_witness :
  exists t,
    OffsetDependentTableEffectiveAreaMore.from_fits lookup_scipy scenario_hdu
      = Ok t /\
    unit (OffsetDependentTableEffectiveArea.offset t) = degree /\
    unit_equal (unit (OffsetDependentTableEffectiveArea.energy t)) TeV /\
    OffsetDependentTableEffectiveAreaMore.from_fits lookup_scipy
      (OffsetDependentTableEffectiveAreaMore.mkEffectiveAreaHDU
         [[1; 2]%R] [[2; 4]%R] [] [[1; 2]%R] [] [])
      = Raise IndexError.
Proof.
  eexists.
  assert (H : OffsetDependentTableEffectiveAreaMore.from_fits
                lookup_scipy scenario_hdu = Ok _) by reflexivity.
  split; [exact H|].
  destruct (proj1 (from_fits_is_canonical lookup_scipy scenario_hdu) _ H)
    as (elo & ehi & olo & ohi & area & sum & prod
        & _ & _ & _ & _ & _ & _ & _ & _ & _ & _ & _ & Ho & _ & _ & He & _).
  split; [by rewrite Ho|]. split; [exact He|].
  apply (proj2 (from_fits_is_canonical lookup_scipy _)).
  right. right. left. reflexivity.
Defined.

Lemma eval_at_offset_default_is_row_witness :
  exists t,
    OffsetDependentTableEffectiveAreaMore.from_fits lookup_scipy scenario_hdu
      = Ok t /\
    OffsetDependentTableEffectiveAreaMore.eval_at_offset t
      (PyAngle (mkQuantity (Scalar ((2 + 1) / 2)%R)
                  (unit (OffsetDependentTableEffectiveArea.offset t))))
      None
    = Ok (mkQuantity (A1 (map Fin [200; 400; 600; 800]%R)) m2).
Proof.
  eexists.
  assert (H : OffsetDependentTableEffectiveAreaMore.from_fits
                lookup_scipy scenario_hdu = Ok _) by reflexivity.
  split; [exact H|].
  destruct (scenario_hdu_valid lookup_scipy _ H)
    as (V1 & V2 & V3 & V4 & V5 & V6 & _).
  destruct (scenario_hdu_table lookup_scipy _ H) as (Ho & _ & Ha).
  apply (eval_at_offset_default_is_row lookup_scipy _ _ _ _ _ _ _ 1
           ((2 + 1) / 2)%R [200; 400; 600; 800]%R
           lookup_scipy_laws H V1 V2 V3 V4 V5 V6).
  - rewrite Ho. reflexivity.
  - rewrite Ha. reflexivity.
Defined.

Lemma eval_at_energy_default_is_column_witness :
  exists t col,
    OffsetDependentTableEffectiveAreaMore.from_fits lookup_scipy scenario_hdu
      = Ok t /\
    OffsetDependentTableEffectiveAreaMore.eval_at_energy t
      (PyQuantity (mkQuantity (Scalar (sqrt (4 * 8)))
                     (unit (OffsetDependentTableEffectiveArea.energy t))))
      None
    = Ok (mkQuantity (A1 col) m2) /\
    col !! 1 = Some (Fin 600%R).
Proof.
  eexists.
  assert (H : OffsetDependentTableEffectiveAreaMore.from_fits
                lookup_scipy scenario_hdu = Ok _) by reflexivity.
  destruct (scenario_hdu_valid lookup_scipy _ H)
    as (V1 & V2 & V3 & V4 & V5 & V6 & V7).
  destruct (scenario_hdu_table lookup_scipy _ H) as (_ & He & Ha).
  destruct (eval_at_energy_default_is_column lookup_scipy _ _ _ _ _ _ _ 2
              (sqrt (4 * 8)) lookup_scipy_laws H V1 V2 V3 V4 V5 V6 V7)
    as (col & Hev & _ & Hcol).
  { rewrite He. reflexivity. }
  exists col. split; [exact H|]. split; [exact Hev|].
  apply (Hcol 1 [200; 400; 600; 800]%R 600%R); [|reflexivity].
  rewrite Ha. reflexivity.
Defined.

(** X7.  Reading a table with [from_fits] and evaluating it, with the
    default linear method, at a node of its grid (in degree and TeV)
    gives back the entry [EFFAREA[0][i][j]] of the file, in m^2, for
    every grid with distinct offset centres and distinct, positive
    energy centres. *)
Theorem from_fits_node_round_trip (sp : Scipy)
    (hdu : OffsetDependentTableEffectiveAreaMore.EffectiveAreaHDU)
    (t : OffsetDependentTableEffectiveArea.instance)
    (i j : nat) (area : list (list R)) (row : list R) (a oc ec : R) :
  ScipyLaws sp ->
  OffsetDependentTableEffectiveAreaMore.from_fits sp hdu = Ok t ->
  NoDup (value (OffsetDependentTableEffectiveArea.offset t)) ->
  NoDup (value (OffsetDependentTableEffectiveArea.energy t)) ->
  Forall (fun x => (0 < x)%R)
         (value (OffsetDependentTableEffectiveArea.energy t)) ->
  OffsetDependentTableEffectiveAreaMore.EFFAREA hdu !! 0 = Some area ->
  Forall (fun r => length r
                   = length (value (OffsetDependentTableEffectiveArea.energy t)))
         area ->
  area !! i = Some row ->
  row !! j = Some a ->
  value (OffsetDependentTableEffectiveArea.offset t) !! i = Some oc ->
  value (OffsetDependentTableEffectiveArea.energy t) !! j = Some ec ->
  OffsetDependentTableEffectiveArea.evaluate t
    (PyAngle (mkQuantity (Scalar oc) degree))
    (PyQuantity (mkQuantity (Scalar ec) TeV))
  = Ok (mkQuantity (A0 (Fin a)) m2).
Proof.
  intros Hlaws Hfits Hndo Hnde Hpos Harea Hrows Hrow Ha Hoc Hec.
  apply from_fits_inv in Hfits
    as (elo & ehi & olo & ohi & area' & area_reco & sum & prod
        & _ & _ & _ & _ & Harea' & _ & Hinit & _ & _ & _ & _ & E5 & _).
  rewrite Harea in Harea'. injection Harea' as <-.
  pose proof Hinit as Hinv. apply init_inv in Hinv
    as (?&?&?&?&?&?&?&?&_&_&_&_&_&_&_&_&_&_&_&_&_&_&_&_&_&_& Hm).
  rewrite evaluate_linear by done.
  unfold query_x, query_y.
  cbn [value unit arg_map linear_call arg_broadcast2 bind].
  rewrite !factor_same, !Rmult_1_r, E5. cbn [unit].
  do 3 f_equal.
  eapply (linear_value_at_node sp Hlaws); try done.
  all: by rewrite E5.
Qed.

Lemma from_fits_node_round_trip_witness :
  exists t,
    OffsetDependentTableEffectiveAreaMore.from_fits lookup_scipy scenario_hdu
      = Ok t /\
    OffsetDependentTableEffectiveArea.evaluate t
      (PyAngle (mkQuantity (Scalar ((2 + 1) / 2)%R) degree))
      (PyQuantity (mkQuantity (Scalar (sqrt (4 * 8))) TeV))
    = Ok (mkQuantity (A0 (Fin 600%R)) m2).
Proof.
  eexists.
  assert (H : OffsetDependentTableEffectiveAreaMore.from_fits
                lookup_scipy scenario_hdu = Ok _) by reflexivity.
  split; [exact H|].
  destruct (scenario_hdu_valid lookup_scipy _ H)
    as (_ & _ & V3 & V4 & V5 & V6 & _).
  destruct (scenario_hdu_table lookup_scipy _ H) as (Ho & He & Ha).
  apply (from_fits_node_round_trip lookup_scipy scenario_hdu _ 1 2
           (value scenario_area) [200; 400; 600; 800]%R 600%R
           ((2 + 1) / 2)%R (sqrt (4 * 8)) lookup_scipy_laws H V3 V4 V5).
  - reflexivity.
  - rewrite Ha in V6. exact V6.
  - reflexivity.
  - reflexivity.
  - rewrite Ho. reflexivity.
  - rewrite He. reflexivity.
Defined.

(** * Further properties of the energy-dependent table *)

Lemma to0_canonical (v : R) (u : Unit) :
  to0 (mkQuantity v u) u = Ok (mkQuantity v u).
Proof. exact (to0_same_unit (mkQuantity v u)). Qed.

(** X8.  [from_fits] always returns a table: the three columns are
    stored as they are, in TeV and m^2, without any comparison of their
    lengths.  The thresholds are those of the header when both cards
    are there; when either is missing both are the defaults 0.1 TeV and
    100 TeV, so a lone [LO_THRES] is not used. *)
Theorem table_from_fits_thresholds (hdu : TableEffectiveAreaMore.SpecrespHDU) :
  exists t,
    TableEffectiveAreaMore.from_fits hdu = Ok t /\
    TableEffectiveArea.energy_lo t
      = mkQuantity (TableEffectiveAreaMore.ENERG_LO hdu) TeV /\
    TableEffectiveArea.energy_hi t
      = mkQuantity (TableEffectiveAreaMore.ENERG_HI hdu) TeV /\
    TableEffectiveArea.effective_area t
      = mkQuantity (TableEffectiveAreaMore.SPECRESP hdu) m2 /\
    match TableEffectiveAreaMore.header hdu !! "LO_THRES",
          TableEffectiveAreaMore.header hdu !! "HI_THRES" with
    | Some lo, Some hi =>
        TableEffectiveArea.energy_thresh_lo t = mkQuantity lo TeV /\
        TableEffectiveArea.energy_thresh_hi t = mkQuantity hi TeV
    | _, _ =>
        TableEffectiveArea.energy_thresh_lo t = mkQuantity (/ 10)%R TeV /\
        TableEffectiveArea.energy_thresh_hi t = mkQuantity 100%R TeV
    end.
Proof.
  unfold TableEffectiveAreaMore.from_fits, TableEffectiveArea.__init__.
  destruct (TableEffectiveAreaMore.header hdu !! "LO_THRES") as [lo|];
    [destruct (TableEffectiveAreaMore.header hdu !! "HI_THRES") as [hi|]|];
    cbv [default from_option Datatypes.id];
    cbn [validate_physical_type
           TableEffectiveArea.default_energy_thresh_lo
           TableEffectiveArea.default_energy_thresh_hi unit];
    change (dim_eqb (dim TeV) dim_energy) with true;
    change (dim_eqb (dim m2) dim_area) with true;
    cbn [bind];
    rewrite !to1_canonical; cbn [bind];
    rewrite !to0_canonical; cbn [bind];
    eexists; repeat split.
Qed.

(** X9.  The constructor stores the same physical quantities in
    canonical units: for energies and thresholds of the dimension of an
    energy and areas of the dimension of an area it returns a table
    whose attributes are in TeV and m^2, each value being the given
    value times the scale of its unit (1000 GeV become 1 TeV, 10000 cm^2
    become 1 m^2). *)
Theorem table_init_canonical
    (elo ehi area : Quantity (list R)) (tlo thi : Quantity R) :
  dim_eqb (dim (unit elo)) dim_energy = true ->
  dim_eqb (dim (unit ehi)) dim_energy = true ->
  dim_eqb (dim (unit area)) dim_area = true ->
  dim_eqb (dim (unit tlo)) dim_energy = true ->
  dim_eqb (dim (unit thi)) dim_energy = true ->
  TableEffectiveArea.__init__ (PyQuantity elo) (PyQuantity ehi)
    (PyQuantity area) (Some (PyQuantity tlo)) (Some (PyQuantity thi))
  = Ok (TableEffectiveArea.mkInstance
          (mkQuantity (map (fun v => (v * scale (unit ehi))%R) (value ehi))
                      TeV)
          (mkQuantity (map (fun v => (v * scale (unit elo))%R) (value elo))
                      TeV)
          (mkQuantity (map (fun v => (v * scale (unit area))%R) (value area))
                      m2)
          (mkQuantity (value tlo * scale (unit tlo))%R TeV)
          (mkQuantity (value thi * scale (unit thi))%R TeV)).
Proof.
  intros H1 H2 H3 H4 H5.
  unfold TableEffectiveArea.__init__, to1, to0, to_with.
  cbv [default from_option Datatypes.id].
  cbn [validate_physical_type].
  change (dim TeV) with dim_energy. change (dim m2) with dim_area.
  rewrite H1, H2, H3, H4, H5. cbn [bind].
  rewrite H1, H2, H3, H4, H5. cbn [bind].
  by rewrite !factor_canonical.
Qed.

Lemma table_init_canonical_witness :
  TableEffectiveArea.__init__
    (PyQuantity (mkQuantity [1000; 2000]%R GeV))
    (PyQuantity (mkQuantity [2000; 4000]%R GeV))
    (PyQuantity (mkQuantity [100000; 200000]%R cm2))
    (Some (PyQuantity (mkQuantity 100%R GeV)))
    (Some (PyQuantity (mkQuantity 100%R TeV)))
  = Ok (TableEffectiveArea.mkInstance
          (mkQuantity [2000 * / 1000; 4000 * / 1000]%R TeV)
          (mkQuantity [1000 * / 1000; 2000 * / 1000]%R TeV)
          (mkQuantity [100000 * / 10000; 200000 * / 10000]%R m2)
          (mkQuantity (100 * / 1000)%R TeV)
          (mkQuantity (100 * 1)%R TeV)).
Proof.
  exact (table_init_canonical
           (mkQuantity [1000; 2000]%R GeV) (mkQuantity [2000; 4000]%R GeV)
           (mkQuantity [100000; 200000]%R cm2)
           (mkQuantity 100%R GeV) (mkQuantity 100%R TeV)
           eq_refl eq_refl eq_refl eq_refl eq_refl).
Defined.

(** X10.  [effective_area_at_energy] depends on the physical value of
    the query only: two quantities that name the same energy in
    different units get the same answer (or the same exception). *)
Theorem effective_area_at_energy_unit_invariant
    (self : TableEffectiveArea.instance) (e1 e2 : Quantity R) :
  dim_eqb (dim (unit e1)) (dim (unit (TableEffectiveArea.energy_hi self)))
    = true ->
  dim_eqb (dim (unit e2)) (dim (unit (TableEffectiveArea.energy_hi self)))
    = true ->
  (value e1 * scale (unit e1))%R = (value e2 * scale (unit e2))%R ->
  TableEffectiveArea.effective_area_at_energy self (PyQuantity e1)
  = TableEffectiveArea.effective_area_at_energy self (PyQuantity e2).
Proof.
  intros H1 H2 Heq.
  unfold TableEffectiveArea.effective_area_at_energy,
    TableEffectiveArea.distances, to0, to_with.
  cbn [isinstance_Quantity as_quantity bind].
  rewrite H1, H2. cbn [bind value].
  unfold factor.
  replace (value e1 * (scale (unit e1)
             / scale (unit (TableEffectiveArea.energy_hi self))))%R
    with (value e2 * (scale (unit e2)
             / scale (unit (TableEffectiveArea.energy_hi self))))%R; [done|].
  unfold Rdiv. rewrite <- !Rmult_assoc. by rewrite Heq.
Qed.

Lemma effective_area_at_energy_unit_invariant_witness :
  TableEffectiveArea.effective_area_at_energy simple_table
    (PyQuantity (mkQuantity 1900%R GeV))
  = TableEffectiveArea.effective_area_at_energy simple_table
      (PyQuantity (mkQuantity (19 / 10)%R TeV)).
Proof.
  apply (effective_area_at_energy_unit_invariant simple_table
           (mkQuantity 1900%R GeV) (mkQuantity (19 / 10)%R TeV));
    [reflexivity | reflexivity | simpl; lra].
Defined.

(** ** Which bin answers a query *)

Lemma argmin_unique (l : list R) (i : nat) (m : R) :
  l !! i = Some m ->
  (forall k x, l !! k = Some x -> k <> i -> (m < x)%R) ->
  argmin l = Ok i.
Proof.
  intros Hi Huniq.
  destruct (argmin_spec l) as (i' & m' & Harg & Hi' & Hmin).
  { intros ->. done. }
  destruct (decide (i' = i)) as [->|Hne]; [done|].
  pose proof (Huniq i' m' Hi' Hne).
  destruct (Hmin i m Hi) as [Hle _]. lra.
Qed.

(** The area of bin [i] is returned when its upper edge is strictly the
    nearest to the query. *)
Lemma area_of_unique_nearest (self : TableEffectiveArea.instance)
    (energy e : Quantity R) (i : nat) (h : R) :
  to0 energy (unit (TableEffectiveArea.energy_hi self)) = Ok e ->
  value (TableEffectiveArea.energy_hi self) !! i = Some h ->
  (forall k hk,
     value (TableEffectiveArea.energy_hi self) !! k = Some hk -> k <> i ->
     (Rabs (h - value e) < Rabs (hk - value e))%R) ->
  TableEffectiveArea.effective_area_at_energy self (PyQuantity energy)
  = match value (TableEffectiveArea.effective_area self) !! i with
    | Some a =>
        Ok (mkQuantity a (unit (TableEffectiveArea.effective_area self)))
    | None => Raise IndexError
    end.
Proof.
  intros He Hi Huniq.
  unfold TableEffectiveArea.effective_area_at_energy,
    TableEffectiveArea.distances.
  cbn [isinstance_Quantity as_quantity bind]. rewrite He. cbn [bind].
  rewrite (argmin_unique _ i (Rabs (h - value e))); [done| |].
  - change (map ?f ?l) with (f <$> l). by rewrite list_lookup_fmap, Hi.
  - intros k x Hk Hne.
    change (map ?f ?l) with (f <$> l) in Hk.
    rewrite list_lookup_fmap in Hk.
    destruct (value (TableEffectiveArea.energy_hi self) !! k) as [hk|] eqn:Hhk;
      [|done].
    injection Hk as <-. by apply (Huniq k).
Qed.

(** X11.  There is no range check: for increasing upper edges, a query
    at or above the last upper edge gets the area of the last bin, and
    a query at or below the first upper edge, also below the first lower
    edge, gets the area of the first bin. *)
Theorem effective_area_at_energy_flat_outside
    (self : TableEffectiveArea.instance) (energy e : Quantity R) (n : nat) :
  to0 energy (unit (TableEffectiveArea.energy_hi self)) = Ok e ->
  increasing (value (TableEffectiveArea.energy_hi self)) ->
  length (value (TableEffectiveArea.energy_hi self)) = S n ->
  (forall h a,
     value (TableEffectiveArea.energy_hi self) !! n = Some h ->
     value (TableEffectiveArea.effective_area self) !! n = Some a ->
     (h <= value e)%R ->
     TableEffectiveArea.effective_area_at_energy self (PyQuantity energy)
     = Ok (mkQuantity a (unit (TableEffectiveArea.effective_area self)))) /\
  (forall h a,
     value (TableEffectiveArea.energy_hi self) !! 0 = Some h ->
     value (TableEffectiveArea.effective_area self) !! 0 = Some a ->
     (value e <= h)%R ->
     TableEffectiveArea.effective_area_at_energy self (PyQuantity energy)
     = Ok (mkQuantity a (unit (TableEffectiveArea.effective_area self)))).
Proof.
  intros He Hinc Hlen. split.
  - intros h a Hh Ha Hle.
    rewrite (area_of_unique_nearest self energy e n h He Hh), Ha; [done|].
    intros k hk Hk Hne.
    assert (k < n) by (apply lookup_lt_Some in Hk; lia).
    pose proof (Hinc k n hk h Hk Hh ltac:(lia)).
    rewrite !Rabs_left1 by lra. lra.
  - intros h a Hh Ha Hle.
    rewrite (area_of_unique_nearest self energy e 0 h He Hh), Ha; [done|].
    intros k hk Hk Hne.
    pose proof (Hinc 0 k h hk Hh Hk ltac:(lia)).
    rewrite !Rabs_right by lra. lra.
Qed.

Lemma simple_table_increasing :
  increasing (value (TableEffectiveArea.energy_hi simple_table)).
Proof.
  intros [|[|i]] [|[|j]] a b Ha Hb Hij; simpl in *; try done; try lia.
  injection Ha as <-. injection Hb as <-. lra.
Qed.

Lemma effective_area_at_energy_flat_outside_witness :
  TableEffectiveArea.effective_area_at_energy simple_table
    (PyQuantity (mkQuantity 1000%R TeV)) = Ok (mkQuantity 20%R m2) /\
  TableEffectiveArea.effective_area_at_energy simple_table
    (PyQuantity (mkQuantity (/ 100)%R TeV)) = Ok (mkQuantity 10%R m2).
Proof.
  split.
  - apply (proj1 (effective_area_at_energy_flat_outside simple_table
                    (mkQuantity 1000%R TeV) (mkQuantity 1000%R TeV) 1
                    (to0_canonical _ _) simple_table_increasing eq_refl)
                 4%R 20%R eq_refl eq_refl).
    simpl. lra.
  - apply (proj2 (effective_area_at_energy_flat_outside simple_table
                    (mkQuantity (/ 100)%R TeV) (mkQuantity (/ 100)%R TeV) 1
                    (to0_canonical _ _) simple_table_increasing eq_refl)
                 2%R 10%R eq_refl eq_refl).
    simpl. lra.
Defined.

(** X12.  The bin is chosen by its upper edge alone: for increasing
    upper edges, a query above the upper edge of bin [i] and below the
    midpoint between the upper edges of bins [i] and [i + 1] gets the
    area of bin [i], although it lies above that bin. *)
Theorem effective_area_at_energy_lower_half
    (self : TableEffectiveArea.instance) (energy e : Quantity R)
    (i : nat) (h h' a : R) :
  to0 energy (unit (TableEffectiveArea.energy_hi self)) = Ok e ->
  increasing (value (TableEffectiveArea.energy_hi self)) ->
  value (TableEffectiveArea.energy_hi self) !! i = Some h ->
  value (TableEffectiveArea.energy_hi self) !! S i = Some h' ->
  value (TableEffectiveArea.effective_area self) !! i = Some a ->
  (h < value e)%R ->
  (value e < (h + h') / 2)%R ->
  TableEffectiveArea.effective_area_at_energy self (PyQuantity energy)
  = Ok (mkQuantity a (unit (TableEffectiveArea.effective_area self))).
Proof.
  intros He Hinc Hh Hh' Ha Hlo Hhi.
  rewrite (area_of_unique_nearest self energy e i h He Hh), Ha; [done|].
  intros k hk Hk Hne.
  rewrite (Rabs_left1 (h - value e)) by lra.
  destruct (decide (k < i)) as [Hlt|Hge].
  - pose proof (Hinc k i hk h Hk Hh Hlt).
    rewrite Rabs_left1 by lra. lra.
  - assert (h' <= hk)%R.
    { destruct (decide (k = S i)) as [->|Hne'].
      - rewrite Hh' in Hk. injection Hk as <-. lra.
      - left. apply (Hinc (S i) k h' hk Hh' Hk). lia. }
    rewrite Rabs_right by lra. lra.
Qed.

Lemma effective_area_at_energy_lower_half_witness :
  TableEffectiveArea.effective_area_at_energy simple_table
    (PyQuantity (mkQuantity (29 / 10)%R TeV)) = Ok (mkQuantity 10%R m2).
Proof.
  apply (effective_area_at_energy_lower_half simple_table
           (mkQuantity (29 / 10)%R TeV) (mkQuantity (29 / 10)%R TeV)
           0 2%R 4%R 10%R (to0_canonical _ _) simple_table_increasing
           eq_refl eq_refl eq_refl); simpl; lra.
Defined.

(** X13.  Where the lookup does raise: on a table without bins the
    query ends in the [ValueError] of [np.argmin], and since the
    constructor never compares the lengths of its arrays, a query at
    the upper edge of a bin that has no area ends in [IndexError]. *)
Theorem effective_area_at_energy_raises
    (self : TableEffectiveArea.instance) (energy e : Quantity R) :
  to0 energy (unit (TableEffectiveArea.energy_hi self)) = Ok e ->
  (value (TableEffectiveArea.energy_hi self) = [] ->
   TableEffectiveArea.effective_area_at_energy self (PyQuantity energy)
   = Raise ValueError) /\
  (forall k,
     increasing (value (TableEffectiveArea.energy_hi self)) ->
     value (TableEffectiveArea.energy_hi self) !! k = Some (value e) ->
     length (value (TableEffectiveArea.effective_area self)) <= k ->
     TableEffectiveArea.effective_area_at_energy self (PyQuantity energy)
     = Raise IndexError).
Proof.
  intros He. split.
  - intros Hnil.
    unfold TableEffectiveArea.effective_area_at_energy,
      TableEffectiveArea.distances.
    cbn [isinstance_Quantity as_quantity bind]. rewrite He, Hnil. done.
  - intros k Hinc Hk Hlen.
    rewrite (area_of_unique_nearest self energy e k (value e) He Hk).
    + by rewrite (lookup_ge_None_2 _ k).
    + intros k' hk Hk' Hne.
      rewrite Rminus_diag, Rabs_R0.
      apply Rabs_pos_lt.
      destruct (decide (k' < k)).
      * pose proof (Hinc k' k hk (value e) Hk' Hk ltac:(lia)). lra.
      * pose proof (Hinc k k' (value e) hk Hk Hk' ltac:(lia)). lra.
Qed.

Lemma effective_area_at_energy_raises_witness :
  TableEffectiveArea.effective_area_at_energy
    (TableEffectiveArea.mkInstance
       (mkQuantity [] TeV) (mkQuantity [] TeV) (mkQuantity [] m2)
       (mkQuantity (/ 10)%R TeV) (mkQuantity 100%R TeV))
    (PyQuantity (mkQuantity 1%R TeV)) = Raise ValueError /\
  TableEffectiveArea.effective_area_at_energy
    (TableEffectiveArea.mkInstance
       (mkQuantity [2; 4]%R TeV) (mkQuantity [1; 2]%R TeV)
       (mkQuantity [10]%R m2)
       (mkQuantity (/ 10)%R TeV) (mkQuantity 100%R TeV))
    (PyQuantity (mkQuantity 4%R TeV)) = Raise IndexError.
Proof.
  split.
  - apply (proj1 (effective_area_at_energy_raises
                    (TableEffectiveArea.mkInstance
                       (mkQuantity [] TeV) (mkQuantity [] TeV)
                       (mkQuantity [] m2)
                       (mkQuantity (/ 10)%R TeV) (mkQuantity 100%R TeV))
                    (mkQuantity 1%R TeV) (mkQuantity 1%R TeV)
                    (to0_canonical _ _))).
    reflexivity.
  - apply (proj2 (effective_area_at_energy_raises
                    (TableEffectiveArea.mkInstance
                       (mkQuantity [2; 4]%R TeV) (mkQuantity [1; 2]%R TeV)
                       (mkQuantity [10]%R m2)
                       (mkQuantity (/ 10)%R TeV) (mkQuantity 100%R TeV))
                    (mkQuantity 4%R TeV) (mkQuantity 4%R TeV)
                    (to0_canonical _ _)) 1).
    + exact simple_table_increasing.
    + reflexivity.
    + simpl. lia.
Defined.

(** * Properties of [abramowski_effective_area] *)


(** X16.  The result depends on the physical energy only: converting
    the argument to any other unit of energy beforehand changes
    nothing. *)
Theorem abramowski_effective_area_unit_invariant
    (energy : Quantity (Arg R)) (u : Unit) (instrument : option string) :
  dim_eqb (dim (unit energy)) dim_energy = true ->
  dim_eqb (dim u) dim_energy = true ->
  abramowski_effective_area
    (PyQuantity
       (mkQuantity
          (arg_map (fun x => (x * factor (unit energy) u)%R) (value energy))
          u))
    instrument
  = abramowski_effective_area (PyQuantity energy) instrument.
Proof.
  intros H1 H2. unfold abramowski_effective_area, toA, to_with.
  cbn [isinstance_Quantity as_quantity bind negb unit value].
  change (dim MeV) with dim_energy. rewrite H1, H2. cbn [bind negb value].
  destruct (pars !! default "HESS" instrument) as [[[p0 p1] p2]|]; [|done].
  do 2 f_equal.
  assert (Hconv :
    arg_map (fun x => (x * factor u MeV)%R)
      (arg_map (fun x => (x * factor (unit energy) u)%R) (value energy))
    = arg_map (fun x => (x * factor (unit energy) MeV)%R) (value energy)).
  { destruct (value energy) as [x|l]; simpl.
    - f_equal. unfold factor.
      pose proof (scale_pos u). pose proof (scale_pos MeV). field. lra.
    - f_equal. rewrite map_map. apply map_ext. intros x.
      unfold factor.
      pose proof (scale_pos u). pose proof (scale_pos MeV). field. lra. }
  by rewrite Hconv.
Qed.

Lemma abramowski_effective_area_unit_invariant_witness :
  abramowski_effective_area
    (PyQuantity
       (mkQuantity
          (arg_map (fun x => (x * factor TeV GeV)%R) (Vector [1; 10]%R))
          GeV))
    (Some "CTA")
  = abramowski_effective_area
      (PyQuantity (mkQuantity (Vector [1; 10]%R) TeV)) (Some "CTA").
Proof.
  exact (abramowski_effective_area_unit_invariant
           (mkQuantity (Vector [1; 10]%R) TeV) GeV (Some "CTA")
           eq_refl eq_refl).
Defined.

(** * Further properties of counts spectra *)

(** ** The constructor *)

(** X17.  The constructor returns exactly when there is one count per
    bin, and raises [ValueError] otherwise.  The spectrum it returns
    holds the counts and the binning as given, numbers the channels
    from 1 with one channel per count, and keeps every entry of the
    metadata it was given: [livetime] and [backscal] get their defaults
    (0 s and 1) only where they are missing. *)
Theorem init_returns (c : list R) (e : EnergyBounds)
    (m : option (gmap string PyVal)) :
  (Z.of_nat (length c) = nbins e ->
   exists s,
     CountsSpectrum.__init__ c e m = Ok s /\
     CountsSpectrum.counts s = c /\
     CountsSpectrum.energy_bounds s = e /\
     length (CountsSpectrum.channels s) = length c /\
     (forall i, i < length c ->
        CountsSpectrum.channels s !! i = Some (Z.of_nat i + 1)%Z) /\
     (forall k v, default ∅ m !! k = Some v ->
        CountsSpectrum.meta s !! k = Some v) /\
     (forall k, default ∅ m !! k = None ->
        CountsSpectrum.meta s !! k =
          if decide (k = "livetime")
          then Some (VQuantity (mkQuantity 0%R second))
          else if decide (k = "backscal") then Some (VNum 1%R)
          else None)) /\
  (Z.of_nat (length c) <> nbins e ->
   CountsSpectrum.__init__ c e m = Raise ValueError).
Proof.
  split; intros Hsize.
  - destruct (cs_init_Ok c e m Hsize) as [s Hs]. exists s.
    split; [done|].
    apply cs_init_inv in Hs as (_ & -> & -> & -> & ->).
    split; [done|]. split; [done|].
    split; [rewrite length_seqZ; lia|].
    split; [intros i Hi; rewrite lookup_seqZ_lt by lia; f_equal; lia|].
    split.
    + intros k v Hk. rewrite !setdefault_lookup.
      repeat case_decide; subst; rewrite ?Hk; done.
    + intros k Hk. rewrite !setdefault_lookup.
      repeat case_decide; subst; rewrite ?Hk; done.
  - unfold CountsSpectrum.__init__.
    by rewrite bool_decide_eq_true_2.
Qed.

Lemma init_returns_witness :
  (exists s,
     CountsSpectrum.__init__ [6; 3]%R two_bins (Some rich_meta) = Ok s /\
     CountsSpectrum.channels s = [1; 2]%Z /\
     CountsSpectrum.meta s !! "backscal" = Some (VNum (/ 2)%R) /\
     CountsSpectrum.meta s !! "obs_id" = Some (VNum 23523%R)) /\
  CountsSpectrum.__init__ [6; 3; 8]%R two_bins (Some rich_meta)
  = Raise ValueError.
Proof.
  split.
  - destruct (proj1 (init_returns [6; 3]%R two_bins (Some rich_meta))
                eq_refl) as (s & Hs & _ & _ & _ & _ & Hkeep & _).
    exists s. split; [exact Hs|].
    split; [by injection Hs as <-|].
    split; apply Hkeep; reflexivity.
  - apply (proj2 (init_returns [6; 3; 8]%R two_bins (Some rich_meta))).
    simpl. unfold nbins. simpl. lia.
Defined.

(** ** Bin numbers under addition *)

Lemma broadcast2_Ok_inv {A B C} (f : A -> B -> C) (xs : list A) (ys : list B)
    (l : list C) :
  broadcast2 f xs ys = Ok l ->
  length xs = length ys \/
  (length xs = 1 /\ length l = length ys) \/
  (length ys = 1 /\ length l = length xs).
Proof.
  unfold broadcast2. destruct (Nat.eqb_spec (length xs) (length ys)) as [E|_].
  - by left.
  - destruct xs as [|x [|x' xs]]; destruct ys as [|y [|y' ys]]; simpl;
      intros [= <-]; simpl; rewrite ?length_map; auto.
Qed.

Lemma to1_length (q q' : Quantity (list R)) (u : Unit) :
  to1 q u = Ok q' -> length (value q') = length (value q).
Proof.
  unfold to1, to_with. destruct (dim_eqb _ _); [|discriminate].
  intros [= <-]. simpl. by rewrite length_map.
Qed.

(** What the constructor call at the end of [__add__] has checked. *)
Lemma add_inv_size (self other r : CountsSpectrum.instance) :
  CountsSpectrum.__add__ self other = Ok r ->
  Z.of_nat (length (CountsSpectrum.counts r))
  = nbins (CountsSpectrum.energy_bounds self).
Proof.
  unfold CountsSpectrum.__add__. intros H.
  apply bind_Ok in H as (mask & _ & H).
  destruct (all mask); [discriminate|]. simpl in H.
  apply bind_Ok in H as (cs & _ & H).
  apply bind_Ok in H as (l1 & _ & H).
  apply bind_Ok in H as (l2 & _ & H).
  apply bind_Ok in H as (l & _ & H).
  apply cs_init_inv in H as (Hsize & -> & _). done.
Qed.

(** X18.  Addition never merges spectra with different numbers of
    bins: when the left operand is a constructed spectrum with at least
    one bin and the sum is returned, the right operand has as many bins
    and so has the sum.  (A left operand without bins is the one case
    where numpy's broadcasting lets a one-bin spectrum be added.) *)
Theorem add_needs_equal_bin_numbers
    (c1 c2 : list R) (e1 e2 : EnergyBounds)
    (m1 m2 : option (gmap string PyVal))
    (s1 s2 r : CountsSpectrum.instance) :
  CountsSpectrum.__init__ c1 e1 m1 = Ok s1 ->
  CountsSpectrum.__init__ c2 e2 m2 = Ok s2 ->
  c1 <> [] ->
  CountsSpectrum.__add__ s1 s2 = Ok r ->
  length c2 = length c1 /\
  length (CountsSpectrum.counts r) = length c1.
Proof.
  intros H1 H2 Hne Hadd.
  pose proof (add_inv_size _ _ _ Hadd) as Hsize.
  apply add_inv in Hadd
    as (mask & cs & _ & _ & _ & Hmask & _ & Hcs & _ & _ & _ & Hr & _ & _).
  apply cs_init_inv in H1 as (Hs1 & Hc1 & He1 & _).
  apply cs_init_inv in H2 as (Hs2 & Hc2 & He2 & _).
  rewrite Hc1, Hc2 in Hcs. rewrite He1, He2 in Hmask. rewrite He1 in Hsize.
  rewrite Hr in Hsize |- *. clear Hr Hc1 Hc2 He1 He2.
  assert (Hpos : 0 < length c1) by (destruct c1; [done | simpl; lia]).
  unfold nbins in *.
  unfold q_ne in Hmask. apply bind_Ok in Hmask as (b' & Hb' & Hmask).
  apply to1_length in Hb'.
  assert (Hlen : length c2 = length c1).
  { apply broadcast2_Ok_inv in Hmask as [Hm|[[Hm _]|[Hm _]]]; [lia | lia |].
    assert (length c2 = 0) as H0 by lia.
    apply broadcast2_Ok_inv in Hcs as [Hc|[[Hc Hl]|[Hc _]]]; lia. }
  split; [done | lia].
Qed.

Lemma add_needs_equal_bin_numbers_witness :
  exists s1 s2 r,
    CountsSpectrum.__init__ [6; 3]%R two_bins None = Ok s1 /\
    CountsSpectrum.__init__ [1; 1]%R two_bins None = Ok s2 /\
    CountsSpectrum.__add__ s1 s2 = Ok r /\
    length (CountsSpectrum.counts r) = 2.
Proof.
  eexists _, _.
  destruct (add_identical_binning
              [6; 3]%R [1; 1]%R two_bins None None _ _
              CountsSpectrum.default_livetime CountsSpectrum.default_livetime
              (VQuantity (mkQuantity (0 + 0)%R second))
              eq_refl eq_refl eq_refl eq_refl) as (r & Hr & _).
  { unfold py_add, CountsSpectrum.default_livetime, q_add0.
    rewrite to0_same_unit. reflexivity. }
  exists r.
  split; [reflexivity|]. split; [reflexivity|]. split; [exact Hr|].
  apply (add_needs_equal_bin_numbers
           [6; 3]%R [1; 1]%R two_bins two_bins None None _ _ r
           eq_refl eq_refl ltac:(discriminate) Hr).
Defined.

(** ** Events and bins *)

Lemma filter_length_split (P Q S : R -> Prop)
    `{!forall x, Decision (P x)} `{!forall x, Decision (Q x)}
    `{!forall x, Decision (S x)} (xs : list R) :
  (forall x, S x <-> P x \/ Q x) ->
  (forall x, P x -> Q x -> False) ->
  length (filter S xs) = length (filter P xs) + length (filter Q xs).
Proof.
  intros Hor Hdis. induction xs as [|x xs IH]; [done|].
  rewrite !filter_cons.
  destruct (decide (P x)) as [HP|HP], (decide (Q x)) as [HQ|HQ],
    (decide (S x)) as [HS|HS]; simpl; rewrite ?IH; try lia;
    solve [ destruct (Hdis x HP HQ)
          | destruct HS; apply Hor; auto
          | by destruct (proj1 (Hor x) HS) ].
Qed.

Lemma filter_length_ext (P Q : R -> Prop)
    `{!forall x, Decision (P x)} `{!forall x, Decision (Q x)} (xs : list R) :
  (forall x, P x <-> Q x) ->
  length (filter P xs) = length (filter Q xs).
Proof.
  intros Hiff. induction xs as [|x xs IH]; [done|].
  rewrite !filter_cons.
  destruct (decide (P x)) as [HP|HP], (decide (Q x)) as [HQ|HQ];
    simpl; rewrite ?IH; try done.
  - destruct HQ. by apply Hiff.
  - destruct HP. by apply Hiff.
Qed.

Lemma nondecreasing_le_last (lo hi : R) (edges : list R) :
  nondecreasing (lo :: edges) = true ->
  last (lo :: edges) = Some hi -> (lo <= hi)%R.
Proof.
  revert lo. induction edges as [|e edges IH]; intros lo Hmono Hlast.
  - injection Hlast as <-. lra.
  - simpl in Hmono. apply andb_true_iff in Hmono as [Hle Hmono].
    apply bool_decide_eq_true in Hle.
    rewrite last_cons_cons in Hlast.
    pose proof (IH e Hmono Hlast). lra.
Qed.

(** The bins of [np.histogram] tile the span of the edges. *)
Lemma histogram_bins_total (xs : list R) (lo hi e : R) (edges : list R) :
  nondecreasing (lo :: e :: edges) = true ->
  last (e :: edges) = Some hi ->
  total (histogram_bins xs (lo :: e :: edges))
  = INR (count_between lo hi xs).
Proof.
  revert lo e. induction edges as [|e' edges IH]; intros lo e Hmono Hlast.
  - injection Hlast as <-. cbn [histogram_bins total].
    rewrite bool_decide_eq_true_2 by done.
    rewrite Rplus_0_r. apply (f_equal INR). unfold count_between.
    apply filter_length_ext. intros x. unfold in_bin. done.
  - cbn [nondecreasing] in Hmono.
    apply andb_true_iff in Hmono as [Hle Hmono].
    apply bool_decide_eq_true in Hle.
    rewrite last_cons_cons in Hlast.
    pose proof (nondecreasing_le_last e hi (e' :: edges) Hmono Hlast) as Hehi.
    change (histogram_bins xs (lo :: e :: e' :: edges))
      with (INR (length (filter (in_bin (bool_decide (e' :: edges = []))
                                        lo e) xs))
              :: histogram_bins xs (e :: e' :: edges)).
    cbn [total]. rewrite (IH e e' Hmono Hlast).
    rewrite bool_decide_eq_false_2 by done.
    rewrite <- plus_INR. f_equal. unfold count_between.
    symmetry. apply filter_length_split.
    + intros x. unfold in_bin. split.
      * intros [H1 H2]. destruct (Rlt_le_dec x e); [left|right]; lra.
      * intros [[H1 H2]|[H1 H2]]; lra.
    + intros x [_ H1] [H2 _]. lra.
Qed.

(** X20.  Every event is counted once: for non-decreasing bin edges, at
    least two of them, and event energies of the dimension of the
    edges, [from_eventlist] returns a spectrum whose total is the
    number of events with an energy between the first and the last
    edge, both included; events outside are dropped silently. *)
Theorem from_eventlist_total_counts
    (el : CountsSpectrum.EventList) (bins : EnergyBounds)
    (energy : Quantity (list R)) (lo hi e : R) (edges : list R) :
  to1 (CountsSpectrum.el_energy el) (unit bins) = Ok energy ->
  value bins = lo :: e :: edges ->
  last (value bins) = Some hi ->
  nondecreasing (value bins) = true ->
  exists s,
    CountsSpectrum.from_eventlist (CountsSpectrum.AnEventList el) bins
    = Ok s /\
    length (CountsSpectrum.counts s) = S (length edges) /\
    CountsSpectrum.total_counts s
    = INR (count_between lo hi (value energy)).
Proof.
  intros Hen Hval Hlast Hmono.
  unfold CountsSpectrum.from_eventlist.
  cbn [CountsSpectrum.as_event_list bind]. rewrite Hen. cbn [bind].
  unfold histogram. rewrite Hmono. cbn [bind].
  destruct (cs_init_Ok (histogram_bins (value energy) (value bins))
                       bins None) as [s Hs].
  { rewrite histogram_bins_length. unfold nbins.
    rewrite Hval. simpl. lia. }
  exists s. split; [done|].
  apply cs_init_inv in Hs as (_ & Hc & _).
  unfold CountsSpectrum.total_counts. rewrite Hc.
  rewrite histogram_bins_length, Hval. split; [simpl; lia|].
  rewrite Hval in Hmono, Hlast. rewrite last_cons_cons in Hlast.
  by apply histogram_bins_total.
Qed.

Lemma from_eventlist_total_counts_witness :
  exists s,
    CountsSpectrum.from_eventlist
      (CountsSpectrum.AnEventList
         (CountsSpectrum.mkEventList
            (mkQuantity [1 / 2; 3 / 2; 3; 4; 5]%R TeV)
            (mkQuantity 1800%R second)))
      two_bins = Ok s /\
    length (CountsSpectrum.counts s) = 2 /\
    CountsSpectrum.total_counts s
    = INR (count_between 1 4 [1 / 2; 3 / 2; 3; 4; 5]%R).
Proof.
  apply (from_eventlist_total_counts
           (CountsSpectrum.mkEventList
              (mkQuantity [1 / 2; 3 / 2; 3; 4; 5]%R TeV)
              (mkQuantity 1800%R second))
           two_bins (mkQuantity [1 / 2; 3 / 2; 3; 4; 5]%R TeV)
           1%R 4%R 2%R [4%R]).
  - exact (to1_same_unit (mkQuantity [1 / 2; 3 / 2; 3; 4; 5]%R TeV)).
  - reflexivity.
  - reflexivity.
  - simpl. rewrite !bool_decide_eq_true_2 by lra. reflexivity.
Defined.

(** X21.  [from_eventlist] on an event list returns a spectrum exactly
    when the event energies have the dimension of the bin edges, the
    edges do not decrease and there is at least one edge; a single edge
    gives a spectrum without bins. *)
Theorem from_eventlist_returns_iff
    (el : CountsSpectrum.EventList) (bins : EnergyBounds) :
  (exists s,
     CountsSpectrum.from_eventlist (CountsSpectrum.AnEventList el) bins
     = Ok s)
  <->
  dim_eqb (dim (unit (CountsSpectrum.el_energy el))) (dim (unit bins)) = true
  /\ nondecreasing (value bins) = true
  /\ value bins <> [].
Proof.
  unfold CountsSpectrum.from_eventlist, to1, to_with, histogram.
  cbn [CountsSpectrum.as_event_list bind].
  destruct (dim_eqb _ _); cbn [bind negb];
    [|split; [intros [s H]; discriminate | intros [H _]; discriminate]].
  destruct (nondecreasing (value bins)); cbn [bind negb];
    [|split; [intros [s H]; discriminate | intros (_ & H & _); discriminate]].
  split.
  - intros [s Hs]. apply cs_init_inv in Hs as (Hsize & _).
    split; [done|]. split; [done|]. intros Hnil.
    rewrite histogram_bins_length in Hsize. unfold nbins in Hsize.
    rewrite Hnil in Hsize. simpl in Hsize. lia.
  - intros (_ & _ & Hne). apply cs_init_Ok.
    rewrite histogram_bins_length. unfold nbins.
    destruct (value bins); [done | simpl; lia].
Qed.

Lemma from_eventlist_returns_iff_witness :
  exists s,
    CountsSpectrum.from_eventlist
      (CountsSpectrum.AnEventList three_events) (mkQuantity [1%R] TeV)
    = Ok s.
Proof.
  apply (proj2 (from_eventlist_returns_iff
                  three_events (mkQuantity [1%R] TeV))).
  split; [reflexivity|]. split; [reflexivity | discriminate].
Defined.
